(** * Protocol decoding layer of rtl_433: a shallow embedding

    The development follows the device decoders under [src/devices]:
    [honeywell_cm921.c] (the framed, Manchester-coded thermostat protocol),
    [auriol_afw2a1.c], [holman_ws5029.c] and [calibeur.c].

    C integers are modelled by [Z] with the wrap-around of their type written
    out ([u8], [u16], [u32], [i16]); a [uint8_t] array is a [list Z] that reads
    as zero past its end, as the zero-initialised fixed-size arrays of
    [bitbuffer_t] do.  A call that leaves the memory it owns (undefined
    behaviour) has no result: [parse_msg], which reads far behind a short
    row and overruns the allocation of the unparsed bytes, and
    [auriol_afw2a1_decode], which indexes [bitbuffer->bb] with -1, return
    [None] there.

    Values that the C code computes in [float] or [double] are carried as the
    exact rational number the expression denotes, without rounding; the
    exception is [auriol_afw2a1_decode], whose range test falls on the
    rounded [float] product, which is modelled bit for bit. *)

From Stdlib Require Import ZArith List Lia Bool String Ascii QArith.
Import ListNotations.
Local Open Scope string_scope.
Local Open Scope Z_scope.

(** ** Machine integers *)

Definition u8 (x : Z) : Z := x mod 256.
Definition u16 (x : Z) : Z := x mod 65536.
Definition u32 (x : Z) : Z := x mod 4294967296.

(** Conversion to [int16_t]: the value modulo 2^16, read as two's complement. *)
Definition i16 (x : Z) : Z :=
  let m := x mod 65536 in if m <? 32768 then m else m - 65536.

Definition is_byte (x : Z) : Prop := 0 <= x < 256.

(** ** Return codes *)

(** Modelled from the spec: the return codes of the decoder interface
    ([decoder.h], not among the sources).  Section 7 of the spec names the
    rejections [AbortEarly], [AbortLength], [FailSanity] and [FailIntegrity];
    the numbers are those of the decoder interface, and [next] below turns
    [DECODE_FAIL_SANITY] into a byte. *)
Definition DECODE_FAIL_OTHER : Z := 0.
Definition DECODE_ABORT_LENGTH : Z := -1.
Definition DECODE_ABORT_EARLY : Z := -2.
Definition DECODE_FAIL_MIC : Z := -3.
Definition DECODE_FAIL_SANITY : Z := -4.

(** ** Bit rows and bit buffers *)

Definition bitrow := list Z.

Record bitbuffer_t : Type := mk_bitbuffer {
  num_rows : Z;
  bits_per_row : list Z;
  bb : list bitrow
}.

(** [bitbuffer_t x = {0}]. *)
Definition bitbuffer_zero : bitbuffer_t := mk_bitbuffer 0 [] [].

(** [b[i]] for a row [b]; zero where nothing was written. *)
Definition byte_at (b : bitrow) (i : Z) : Z := nth (Z.to_nat i) b 0.

(** [bitbuffer->bits_per_row[r]] and [bitbuffer->bb[r]] for [0 <= r]. *)
Definition row_bits (b : bitbuffer_t) (r : Z) : Z := nth (Z.to_nat r) (bits_per_row b) 0.
Definition row_bytes (b : bitbuffer_t) (r : Z) : bitrow := nth (Z.to_nat r) (bb b) [].

(** [bitbuffer->bb[r]] with the row index checked: [None] when the index lies
    before the array, where the C read has no defined row to return. *)
Definition bb_row (b : bitbuffer_t) (r : Z) : option bitrow :=
  if r <? 0 then None else Some (row_bytes b r).

(** Replace element [n] of a list, padding with [d] when the list is shorter. *)
Fixpoint list_set {A : Type} (d : A) (n : nat) (v : A) (l : list A) : list A :=
  match n, l with
  | O, [] => [v]
  | O, _ :: t => v :: t
  | S n', [] => d :: list_set d n' v []
  | S n', x :: t => x :: list_set d n' v t
  end.

Definition set_byte (b : bitrow) (i : Z) (v : Z) : bitrow := list_set 0 (Z.to_nat i) v b.

Definition set_row_byte (b : bitbuffer_t) (r i v : Z) : bitbuffer_t :=
  mk_bitbuffer (num_rows b) (bits_per_row b)
    (list_set [] (Z.to_nat r) (set_byte (row_bytes b r) i v) (bb b)).

(** Modelled from the spec: the bit-at-index accessor of a bit row
    ([bitrow_get_bit] of [bitbuffer.h], not among the sources); bits are
    numbered most significant first within each byte. *)
Definition bitrow_get_bit (b : bitrow) (bit_idx : Z) : Z :=
  Z.land (Z.shiftr (byte_at b (Z.shiftr bit_idx 3)) (7 - Z.land bit_idx 7)) 1.

(** Modelled from the spec: the byte-at-bit-offset accessor of a bit row
    ([bitrow_get_byte] of [bitbuffer.h], not among the sources): the eight
    bits from [bit_idx] on, most significant first. *)
Definition bitrow_get_byte (b : bitrow) (bit_idx : Z) : Z :=
  u8 (Z.lor (Z.shiftl (byte_at b (Z.shiftr bit_idx 3)) (Z.land bit_idx 7))
            (Z.shiftr (byte_at b (Z.shiftr bit_idx 3 + 1)) (8 - Z.land bit_idx 7))).

(** Modelled from the spec: [bitbuffer_add_bit] of [bitbuffer.c] (not among
    the sources) appends one bit to the last row, opening the first row when
    the buffer has none.  The fixed capacity of the C arrays is no part of the
    spec's data model and is left out. *)
Definition bitbuffer_add_bit (bits : bitbuffer_t) (bit : Z) : bitbuffer_t :=
  let nr := if num_rows bits =? 0 then 1 else num_rows bits in
  let r := nr - 1 in
  let n := row_bits bits r in
  let col_index := n / 8 in
  let bit_index := n mod 8 in
  let row := row_bytes bits r in
  let row' := set_byte row col_index
                (Z.lor (byte_at row col_index) (Z.shiftl bit (7 - bit_index))) in
  mk_bitbuffer nr
    (list_set 0 (Z.to_nat r) (n + 1) (bits_per_row bits))
    (list_set [] (Z.to_nat r) row' (bb bits)).

(** Modelled from the spec: pattern search ([bitbuffer_search] of
    [bitbuffer.c], not among the sources).  [match_at] compares
    [pattern_bits_len] bits of the row at [pos] with the pattern.  The call
    sites in [honeywell_cm921_decode] and [holman_ws5029pcm_decode] add the
    pattern length to the result and compare it with the row length, so the
    result is the offset where the match begins, and the row's bit length when the
    scan exhausts the row. *)
Fixpoint match_at (n : nat) (bits : bitrow) (pos : Z) (pattern : bitrow) (ppos : Z) : bool :=
  match n with
  | O => true
  | S n' => (bitrow_get_bit bits pos =? bitrow_get_bit pattern ppos)
            && match_at n' bits (pos + 1) pattern (ppos + 1)
  end.

Fixpoint search_from (n : nat) (bits : bitrow) (len pos : Z)
                     (pattern : bitrow) (pattern_bits_len : Z) : Z :=
  match n with
  | O => len
  | S n' =>
      if (pos + pattern_bits_len <=? len)
         && match_at (Z.to_nat pattern_bits_len) bits pos pattern 0
      then pos
      else search_from n' bits len (pos + 1) pattern pattern_bits_len
  end.

Definition bitbuffer_search (b : bitbuffer_t) (row start : Z)
                            (pattern : bitrow) (pattern_bits_len : Z) : Z :=
  let len := row_bits b row in
  search_from (Z.to_nat (len - start)) (row_bytes b row) len start pattern pattern_bits_len.

(** Modelled from the spec: Manchester decoding ([bitbuffer_manchester_decode]
    of [bitbuffer.c], not among the sources).  The row is consumed two bits at
    a time from [start]; the pair 10 gives logical 1 and 01 logical 0; at most
    [max] logical bits are produced when [max] is not zero.  The call site in
    [honeywell_cm921_decode] computes its error count from the returned input
    position, so the result is the position after the last pair consumed, and
    an invalid pair (00 or 11) is consumed and ends the decoding. *)
Fixpoint manchester_loop (n : nat) (bits : bitrow) (len ipos : Z) (outbuf : bitbuffer_t)
  : Z * bitbuffer_t :=
  match n with
  | O => (ipos, outbuf)
  | S n' =>
      if ipos <? len then
        let bit1 := bitrow_get_bit bits ipos in
        let bit2 := bitrow_get_bit bits (ipos + 1) in
        if bit1 =? bit2 then (ipos + 2, outbuf)
        else manchester_loop n' bits len (ipos + 2) (bitbuffer_add_bit outbuf bit1)
      else (ipos, outbuf)
  end.

Definition bitbuffer_manchester_decode (inbuf : bitbuffer_t) (row start : Z)
                                       (outbuf : bitbuffer_t) (max : Z) : Z * bitbuffer_t :=
  let len0 := row_bits inbuf row in
  let len := if negb (max =? 0) && (u32 (start + max * 2) <? len0)
             then u32 (start + max * 2) else len0 in
  manchester_loop (Z.to_nat len) (row_bytes inbuf row) len start outbuf.

(** ** Readings *)

(** Modelled from the spec: the Reading of section 3, an ordered sequence of
    named fields ([data_t] of [data.c], not among the sources; the source is
    an append-only linked chain).  [data_make] builds the list and
    [data_append] extends it at its end, handing back the same chain. *)
Inductive data_value : Type :=
| DATA_STRING (s : string)
| DATA_INT (i : Z)
| DATA_DOUBLE (d : Q)
| DATA_FORMAT (fmt : string) (v : data_value).

Record data_field : Type := mk_field {
  key : string;
  pretty_key : string;
  value : data_value
}.

Definition data_t := list data_field.

Definition data_make (fields : list data_field) : data_t := fields.
Definition data_append (data : data_t) (fields : list data_field) : data_t :=
  (data ++ fields)%list.

(** The quotient [n / d] that a C expression forms in floating point. *)
Definition ratio (n : Z) (d : positive) : Q := Qred (n # d).

(** ** Text formatting *)

Definition hex_digit (n : Z) : ascii :=
  match n with
  | 0 => "0" | 1 => "1" | 2 => "2" | 3 => "3" | 4 => "4" | 5 => "5" | 6 => "6" | 7 => "7"
  | 8 => "8" | 9 => "9" | 10 => "a" | 11 => "b" | 12 => "c" | 13 => "d" | 14 => "e"
  | _ => "f"
  end%char.

(** [sprintf(p, "%02x", byte)]. *)
Definition hex2 (byte : Z) : string :=
  String (hex_digit (Z.shiftr byte 4)) (String (hex_digit (Z.land byte 15)) EmptyString).

Fixpoint hex_string (l : list Z) : string :=
  match l with
  | [] => EmptyString
  | x :: t => (hex2 x ++ hex_string t)%string
  end.

Definition dec_digit (n : Z) : ascii := ascii_of_nat (48 + Z.to_nat n).

(** The decimal digits of [n >= 0], least significant digit produced first. *)
Fixpoint dec_digits (fuel : nat) (n : Z) (acc : string) : string :=
  match fuel with
  | O => acc
  | S f =>
      let acc' := String (dec_digit (n mod 10)) acc in
      if n / 10 =? 0 then acc' else dec_digits f (n / 10) acc'
  end.

Fixpoint pad_left (c : ascii) (n : nat) (s : string) : string :=
  match n with
  | O => s
  | S n' => String c (pad_left c n' s)
  end.

(** [%0<width>d] for a value that is not negative. *)
Definition dec_pad (width : nat) (n : Z) : string :=
  let s := dec_digits (S (Z.to_nat n)) n EmptyString in
  pad_left "0"%char (width - String.length s) s.

(** [%<width>s]. *)
Definition str_pad (width : nat) (s : string) : string :=
  pad_left " "%char (width - String.length s) s.

(** The first [n] bytes of a row, zero where the row was not written. *)
Fixpoint row_prefix (b : bitrow) (i : Z) (n : nat) : list Z :=
  match n with
  | O => []
  | S n' => byte_at b i :: row_prefix b (i + 1) n'
  end.

Definition sum_bytes (l : list Z) : Z := fold_right Z.add 0 l.

(** ** Honeywell CM921: [honeywell_cm921.c] *)

(** [hex]: the row as lower-case hexadecimal, a partial last byte included. *)
Definition hex (b : bitbuffer_t) (row : Z) : string :=
  let lenB := row_bits b row / 8 in
  let lenB := if negb (row_bits b row mod 8 =? 0) then lenB + 1 else lenB in
  hex_string (row_prefix (row_bytes b row) 0 (Z.to_nat lenB)).

(** The eight data bits of [get_byte]: [*out = *out << 1 | bit]. *)
Fixpoint get_byte_bits (n : nat) (bits : bitrow) (pos : Z) (out : Z) : Z :=
  match n with
  | O => out
  | S n' => get_byte_bits n' bits (pos + 1)
              (u8 (Z.lor (Z.shiftl out 1) (bitrow_get_bit bits pos)))
  end.

(** The [while (pos < bend)] loop of [get_byte]; the result is the return
    value together with [*out].  [None] stands for a loop that has not
    finished within [fuel] iterations. *)
Fixpoint get_byte_loop (fuel : nat) (bits : bitrow) (pos bend end_ : Z) (out : Z)
  : option (Z * Z) :=
  match fuel with
  | O => None
  | S f =>
      if pos <? bend then
        if pos >=? end_ then Some (DECODE_ABORT_LENGTH, out)
        else if negb (bitrow_get_bit bits pos =? 0) then Some (DECODE_FAIL_SANITY, out)
        else
          let pos := pos + 1 in
          if pos + 8 >=? end_ then Some (DECODE_ABORT_LENGTH, out)
          else
            let out := get_byte_bits 8 bits pos out in
            let pos := pos + 8 in
            if pos >=? end_ then Some (DECODE_ABORT_LENGTH, out)
            else if negb (bitrow_get_bit bits pos =? 1) then Some (DECODE_FAIL_SANITY, out)
            else
              let pos := pos + 1 in
              if pos >=? end_ then Some (DECODE_ABORT_LENGTH, out)
              else get_byte_loop f bits pos bend end_ out
      else Some (10, out)
  end.

Definition get_byte (fuel : nat) (b : bitbuffer_t) (row pos end_ : Z) : option (Z * Z) :=
  get_byte_loop fuel (row_bytes b row) pos (pos + 10) end_ 0.

(** [next]: the byte at [*ipos], and the new [*ipos].  Past the end of the
    message the return value is [DECODE_FAIL_SANITY] converted to [uint8_t]. *)
Definition next (bits : bitrow) (ipos num_bytes : Z) : Z * Z :=
  let r := bitrow_get_byte bits ipos in
  let ipos := u32 (ipos + 8) in
  if ipos >=? u32 (num_bytes * 8) then (u8 DECODE_FAIL_SANITY, ipos) else (r, ipos).

(** [n] successive calls of [next]. *)
Fixpoint next_n (n : nat) (bits : bitrow) (ipos num_bytes : Z) : list Z * Z :=
  match n with
  | O => ([], ipos)
  | S n' =>
      let '(r, ipos) := next bits ipos num_bytes in
      let '(rs, ipos) := next_n n' bits ipos num_bytes in
      (r :: rs, ipos)
  end.

Record message_t : Type := mk_message {
  header : Z;
  num_device_ids : Z;
  device_id : list (list Z);
  command : Z;
  payload_length : Z;
  payload : list Z;
  unparsed_length : Z;
  unparsed : list Z;
  crc : Z
}.

(** [memset(msg, 0, sizeof(message_t))]. *)
Definition message_zero : message_t := mk_message 0 0 [] 0 0 [] 0 [] 0.

Definition add_hex_string (data : data_t) (name : string) (buffer : list Z) : data_t :=
  match buffer with
  | [] => data
  | _ => data_append data [mk_field name "" (DATA_STRING (hex_string buffer))]
  end.

Definition device_map : list (Z * string) :=
  [ (1, "CTL"); (2, "UFH"); (3, " 30"); (4, "TRV"); (7, "DHW"); (10, "OTB");
    (12, "THm"); (13, "BDR"); (17, " 17"); (18, "HGI"); (22, "THM"); (30, "GWY");
    (32, "VNT"); (34, "STA"); (63, "NUL") ]%string.

(** The device-type tag of [decode_device_id]: the loop over [device_map]. *)
Definition dev_name_of (device_id : list Z) : string :=
  let dev_type := Z.shiftr (byte_at device_id 0) 2 in
  fold_left (fun dev_name e => if fst e =? dev_type then snd e else dev_name)
            device_map " --"%string.

(** The number printed by [decode_device_id]. *)
Definition dev_serial_of (device_id : list Z) : Z :=
  Z.lor (Z.lor (Z.shiftl (Z.land (byte_at device_id 0) 3) 16)
               (Z.shiftl (byte_at device_id 1) 8))
        (byte_at device_id 2).

Definition decode_device_id (device_id : list Z) : string :=
  (str_pad 3 (dev_name_of device_id) ++ ":" ++ dec_pad 6 (dev_serial_of device_id))%string.

Fixpoint join_ids (first : bool) (style : Z) (ids : list (list Z)) : string :=
  match ids with
  | [] => EmptyString
  | id :: t =>
      ((if first then "" else " ")
       ++ (if (style =? 0)%Z then decode_device_id id else hex_string (row_prefix id 0 3))
       ++ join_ids false style t)%string
  end.

Definition decode_device_ids (msg : message_t) (data : data_t) (style : Z) : data_t :=
  let ds := join_ids true style (firstn (Z.to_nat (num_device_ids msg)) (device_id msg)) in
  data_append data [mk_field "Device IDs" "" (DATA_STRING ds)].

(** [UNKNOWN_IF(C)]: the field appended when [C] holds. *)
Definition unknown_field (msg : message_t) : data_field :=
  mk_field "unknown" "" (DATA_FORMAT "%04x" (DATA_INT (command msg))).

(** The five parameters of command 0x1030; the [printf] of an unknown
    parameter is left out. *)
Fixpoint params_1030 (n : nat) (i : Z) (p : list Z) (data : data_t) : data_t :=
  match n with
  | O => data
  | S n' =>
      let tag := byte_at p (1 + 3 * i) in
      let v := byte_at p (1 + 3 * i + 2) in
      let data :=
        if tag =? 0xC8 then data_append data [mk_field "max_flow_temp" "" (DATA_INT v)]
        else if tag =? 0xC9 then data_append data [mk_field "pump_run_time" "" (DATA_INT v)]
        else if tag =? 0xCA then data_append data [mk_field "actuator_run_time" "" (DATA_INT v)]
        else if tag =? 0xCB then data_append data [mk_field "min_flow_temp" "" (DATA_INT v)]
        else data in
      params_1030 n' (i + 1) p data
  end.

(** The time text of command 0x313F with nine payload bytes; [hour] is the
    low five bits of the fifth byte of the [X313F] structure. *)
Definition time_313F (p : list Z) : string :=
  (dec_pad 2 (Z.land (byte_at p 4) 31) ++ ":" ++ dec_pad 2 (byte_at p 3) ++ ":"
   ++ dec_pad 2 (byte_at p 2) ++ " " ++ dec_pad 2 (byte_at p 5) ++ "-"
   ++ dec_pad 2 (byte_at p 6) ++ "-"
   ++ dec_pad 4 (Z.lor (Z.shiftl (byte_at p 7) 8) (byte_at p 8)))%string.

Definition interpret_message (msg : message_t) (data : data_t) : data_t :=
  let data := decode_device_ids msg data 1 in
  let p := payload msg in
  let len := payload_length msg in
  let unknown := data_append data [unknown_field msg] in
  let cmd := command msg in
  if cmd =? 0x1030 then
    if negb (len =? 16) then unknown
    else params_1030 5 0 p
           (data_append data [mk_field "zone_idx" "" (DATA_FORMAT "%02x" (DATA_INT (byte_at p 0)))])
  else if cmd =? 0x313F then
    if negb (len =? 1) && negb (len =? 9) then unknown
    else if len =? 1 then data_append data [mk_field "time_request" "" (DATA_INT (byte_at p 0))]
    else data_append data [mk_field "time" "" (DATA_STRING (time_313F p))]
  else if cmd =? 0x0008 then
    if negb (len =? 2) then unknown
    else data_append data
           [mk_field "domain_id" "" (DATA_INT (byte_at p 0));
            mk_field "demand" "" (DATA_DOUBLE (ratio (byte_at p 1) 200))]
  else if cmd =? 0x3ef0 then
    if negb (len =? 3) && negb (len =? 6) then unknown
    else if len =? 3 then
      data_append data [mk_field "status" "" (DATA_DOUBLE (ratio (byte_at p 1) 200))]
    else
      data_append data
        [mk_field "boiler_modulation_level" "" (DATA_DOUBLE (ratio (byte_at p 1) 200));
         mk_field "flame_status" "" (DATA_INT (byte_at p 3))]
  else if cmd =? 0x2309 then
    if negb (len =? 3) then unknown
    else data_append data
           [mk_field "zone" "" (DATA_INT (byte_at p 0));
            mk_field "setpoint" ""
              (DATA_DOUBLE (ratio (Z.lor (Z.shiftl (byte_at p 1) 8) (byte_at p 2)) 100))]
  else if cmd =? 0x1100 then
    if negb (len =? 5) && negb (len =? 8) then unknown
    else
      let data := data_append data
           [mk_field "domain_id" "" (DATA_INT (byte_at p 0));
            mk_field "cycle_rate" "" (DATA_DOUBLE (ratio (byte_at p 1) 4));
            mk_field "minimum_on_time" "" (DATA_DOUBLE (ratio (byte_at p 2) 4));
            mk_field "minimum_off_time" "" (DATA_DOUBLE (ratio (byte_at p 3) 4))] in
      if len =? 8 then
        data_append data
          [mk_field "proportional_band_width" ""
             (DATA_DOUBLE (ratio (Z.lor (Z.shiftl (byte_at p 5) 8) (byte_at p 6)) 100))]
      else data
  else if cmd =? 0x0009 then
    if negb (len =? 3) then unknown
    else
      let data := data_append data [mk_field "device_number" "" (DATA_INT (byte_at p 0))] in
      let mode := if byte_at p 1 =? 0 then "off"
                  else if byte_at p 1 =? 1 then "20-80" else "unknown" in
      data_append data [mk_field "failsafe_mode" "" (DATA_STRING mode)]
  else if cmd =? 0x3B00 then
    if negb (len =? 2) then unknown
    else data_append data
           [mk_field "domain_id" "" (DATA_INT (byte_at p 0));
            mk_field "state" "" (DATA_DOUBLE (ratio (byte_at p 1) 200))]
  else unknown.

(** The checksum loop of [parse_msg]: [bsum += bitrow_get_byte(bb, i*8)]. *)
Fixpoint bsum_loop (n : nat) (bits : bitrow) (i : Z) (bsum : Z) : Z :=
  match n with
  | O => bsum
  | S n' => bsum_loop n' bits (i + 1) (u8 (bsum + bitrow_get_byte bits (u32 (i * 8))))
  end.

(** [num_device_ids] identifiers of three bytes each. *)
Fixpoint read_device_ids (n : nat) (bits : bitrow) (ipos num_bytes : Z)
  : list (list Z) * Z :=
  match n with
  | O => ([], ipos)
  | S n' =>
      let '(id, ipos) := next_n 3 bits ipos num_bytes in
      let '(ids, ipos) := read_device_ids n' bits ipos num_bytes in
      (id :: ids, ipos)
  end.

(** Modelled from the spec: bit-field extraction ([bitbuffer_extract_bytes] of
    [bitbuffer.c], not among the sources), for the one byte that [parse_msg]
    keeps of it: the bits from [pos] on, most significant first, with the bits
    after the first [len] cleared when [len] is less than a byte. *)
Definition extract_first_byte (bits : bitrow) (pos len : Z) : Z :=
  if len <? 8
  then Z.land (bitrow_get_byte bits pos) (Z.land (Z.shiftr 0xff00 len) 0xff)
  else bitrow_get_byte bits pos.

(** The checksum stage of [parse_msg]: the value of [checksum_ok]. *)
Definition checksum_ok (bmsg : bitbuffer_t) (row : Z) : bool :=
  let num_bytes := row_bits bmsg 0 / 8 in
  bsum_loop (Z.to_nat num_bytes) (row_bytes bmsg row) 0 0 =? 0.

(** [parse_msg]: the return value and the message.  The two calls of [next]
    that form the command are taken left to right.  [None] stands for a call
    in which the source leaves the memory of the row or of its allocation:
    - [msg->crc] is read at bit [bits_per_row[row] - 8], converted to
      [unsigned], before the checksum decides anything: in a row of fewer
      than 8 bits that is a read far behind the row;
    - [msg->unparsed] is allocated with [unparsed_length] bytes, one byte,
      and [bitbuffer_extract_bytes] copies [num_unparsed_bits] bits into it:
      more than 8 bits overrun the allocation, and when the fields have run
      past the checksum byte the subtraction has wrapped and the copy is of
      some 2^29 bytes.
    In every call that returns, all reads lie within the row. *)
Definition parse_msg (bmsg : bitbuffer_t) (row : Z) : option (Z * message_t) :=
  let num_bytes := row_bits bmsg 0 / 8 in
  let ipos := 0 in
  let bits := row_bytes bmsg row in
  if row_bits bmsg row <? 8 then None
  else
    let crc_ := bitrow_get_byte bits (u32 (row_bits bmsg row - 8)) in
    if negb (checksum_ok bmsg row) then Some (0, mk_message 0 0 [] 0 0 [] 0 [] crc_)
    else
      let '(header_, ipos) := next bits ipos num_bytes in
      let num_ids := Z.land (Z.shiftr header_ 2) 3 in
      let '(ids, ipos) := read_device_ids (Z.to_nat num_ids) bits ipos num_bytes in
      let '(c_hi, ipos) := next bits ipos num_bytes in
      let '(c_lo, ipos) := next bits ipos num_bytes in
      let command_ := Z.lor (Z.shiftl c_hi 8) c_lo in
      let '(payload_length_, ipos) := next bits ipos num_bytes in
      let '(payload_, ipos) := next_n (Z.to_nat payload_length_) bits ipos num_bytes in
      let num_unparsed_bits := u32 ((row_bits bmsg row - 8) - ipos) in
      let unparsed_length_ :=
        if negb (num_unparsed_bits / 8 + num_unparsed_bits mod 8 =? 0) then 1 else 0 in
      if 8 <? num_unparsed_bits then None
      else
        let unparsed_ :=
          if negb (unparsed_length_ =? 0)
          then [extract_first_byte bits ipos num_unparsed_bits] else [] in
        Some (1, mk_message header_ num_ids ids command_ payload_length_ payload_
                            unparsed_length_ unparsed_ crc_).

Definition preamble_pattern : bitrow := [0x55; 0x5F; 0xF0; 0x04].
Definition preamble_bit_length : Z := 30.

(** [bitbuffer_add_bit(&bytes, (byte >> i) & 0x1)] for [i] from 0 to 7. *)
Fixpoint add_byte_bits (n : nat) (i : Z) (byte : Z) (bytes : bitbuffer_t) : bitbuffer_t :=
  match n with
  | O => bytes
  | S n' => add_byte_bits n' (i + 1) byte
              (bitbuffer_add_bit bytes (Z.land (Z.shiftr byte i) 1))
  end.

(** The frame-stripping loop [while (pos < end)] of the decoder. *)
Fixpoint strip_loop (fuel : nat) (bitbuffer : bitbuffer_t) (row pos end_ : Z)
                    (bytes : bitbuffer_t) : option bitbuffer_t :=
  match fuel with
  | O => None
  | S f =>
      if pos <? end_ then
        match get_byte 2 bitbuffer row pos end_ with
        | None => None
        | Some (r, byte) =>
            if negb (r =? 10) then Some bytes
            else strip_loop f bitbuffer row (pos + 10) end_ (add_byte_bits 8 0 byte bytes)
        end
      else Some bytes
  end.

(** The footer scan [while (bitrow_get_byte(bytes.bb[row], fi) == 0x55)];
    the result is [fi] and [seen_aa]. *)
Fixpoint footer_loop (fuel : nat) (bits : bitrow) (fi seen_aa : Z) : option (Z * Z) :=
  match fuel with
  | O => None
  | S f =>
      if bitrow_get_byte bits (u32 fi) =? 0x55
      then footer_loop f bits (fi - 8) 1
      else Some (fi, seen_aa)
  end.

(** Where a stage of the decoder leaves: it returns a code, it goes on with a
    value, or one of its loops has not finished within its fuel. *)
Inductive stage (A : Type) : Type :=
| Return (code : Z)
| Next (a : A)
| Unfinished.
Arguments Return {A} code.
Arguments Next {A} a.
Arguments Unfinished {A}.

(** [honeywell_cm921_decode] up to the frame stripping: the re-assembled
    [bytes]. *)
Definition cm921_bytes (bitbuffer : bitbuffer_t) : stage bitbuffer_t :=
  let row := 0 in
  if negb (num_rows bitbuffer =? 1) || (row_bits bitbuffer row <? 60)
  then Return DECODE_ABORT_LENGTH
  else
    let preamble_start :=
      bitbuffer_search bitbuffer row 0 preamble_pattern preamble_bit_length in
    let start := preamble_start + preamble_bit_length in
    let len := row_bits bitbuffer row - start in
    if len <? 8 then Return DECODE_ABORT_LENGTH
    else
      let end_ := start + len in
      match strip_loop (S (Z.to_nat len)) bitbuffer row start end_ bitbuffer_zero with
      | None => Unfinished
      | Some bytes => Next bytes
      end.

(** From the header check to the footer: the bit offset [fi] of the footer. *)
Definition cm921_footer (bytes : bitbuffer_t) : stage Z :=
  let row := 0 in
  let bits := row_bytes bytes row in
  if negb (bitrow_get_byte bits 0 =? 0x33) || negb (bitrow_get_byte bits 8 =? 0x55)
     || negb (bitrow_get_byte bits 16 =? 0x53)
  then Return DECODE_FAIL_SANITY
  else
    match footer_loop (S (Z.to_nat (row_bits bytes row))) bits (row_bits bytes row - 8) 0 with
    | None => Unfinished
    | Some (fi, seen_aa) =>
        if (seen_aa =? 0) || negb (bitrow_get_byte bits (u32 fi) =? 0x35)
        then Return DECODE_FAIL_SANITY
        else Next fi
    end.

(** The Manchester decoding: the decoded [packet] and [man_errors]. *)
Definition cm921_manchester (bytes : bitbuffer_t) (fi : Z) : bitbuffer_t * Z :=
  let row := 0 in
  let first_byte := 24 in
  let end_byte := u32 fi in
  let num_bits := u32 (end_byte - first_byte) in
  let '(fpos, packet) :=
    bitbuffer_manchester_decode bytes row first_byte bitbuffer_zero num_bits in
  let man_errors := u32 (num_bits - (fpos - first_byte - 2)) in
  (packet, man_errors).

(** The decoder up to the Manchester decoding. *)
Definition cm921_packet (bitbuffer : bitbuffer_t) : stage (bitbuffer_t * Z) :=
  match cm921_bytes bitbuffer with
  | Return c => Return c
  | Unfinished => Unfinished
  | Next bytes =>
      match cm921_footer bytes with
      | Return c => Return c
      | Unfinished => Unfinished
      | Next fi => Next (cm921_manchester bytes fi)
      end
  end.

(** The fields added under [#ifdef _DEBUG]. *)
Definition cm921_debug_fields (message : message_t) (man_errors : Z) (data : data_t) : data_t :=
  let data := add_hex_string data "Header" [header message] in
  let cmd := [Z.shiftr (command message) 8; Z.land (command message) 0x00FF] in
  let data := add_hex_string data "Command" cmd in
  let data := add_hex_string data "Payload" (payload message) in
  let data := add_hex_string data "Unparsed" (unparsed message) in
  let data := add_hex_string data "CRC" [crc message] in
  data_append data [mk_field "# man errors" "" (DATA_INT man_errors)].

(** [honeywell_cm921_decode]: the return value and the Reading handed to
    [decoder_output_data], if any.  [debug] tells whether [_DEBUG] is defined
    (the file defines it); the verbose printing is left out.  [None] stands
    for a call without a defined return: [parse_msg] has left the memory of
    the packet, or, for the model, a loop has not finished within its
    fuel. *)
Definition honeywell_cm921_decode (debug : bool) (bitbuffer : bitbuffer_t)
  : option (Z * option data_t) :=
  let row := 0 in
  match cm921_packet bitbuffer with
  | Return c => Some (c, None)
  | Unfinished => None
  | Next (packet, man_errors) =>
      let packet_hex := hex packet row in
      if negb debug && negb (man_errors =? 0) then Some (DECODE_FAIL_SANITY, None)
      else
        let data := data_make
          [mk_field "model" "" (DATA_STRING "Honeywell CM921");
           mk_field "Packet" "" (DATA_STRING packet_hex)] in
        match parse_msg packet row with
        | None => None
        | Some (ok, message) =>
            let data := if negb (ok =? 0) then interpret_message message data else data in
            let data := if debug then cm921_debug_fields message man_errors data else data in
            Some (1, Some data)
        end
  end.

(** ** Helpers shared by the other decoders *)

(** [memcmp(a, b, n) == 0]. *)
Fixpoint bytes_equal (n : nat) (a b : bitrow) (i : Z) : bool :=
  match n with
  | O => true
  | S n' => (byte_at a i =? byte_at b i) && bytes_equal n' a b (i + 1)
  end.

(** Modelled from the spec: repeated-row consensus
    ([bitbuffer_find_repeated_row] of [bitbuffer.c], not among the sources):
    the first row that has at least [min_bits] bits and is matched, in length
    and in bytes, by at least [min_repeats] rows of the packet, itself
    included; [-1] when there is none.  [holman_ws5029pwm_decode] tests the
    result with [r < 0] and checks the exact length after the call, so the
    length given is a minimum and the not-found result is negative. *)
Definition compare_rows (bits : bitbuffer_t) (row_a row_b : Z) : bool :=
  (row_bits bits row_a =? row_bits bits row_b)
  && bytes_equal (Z.to_nat ((row_bits bits row_a + 7) / 8))
                 (row_bytes bits row_a) (row_bytes bits row_b) 0.

Fixpoint count_repeats (n : nat) (bits : bitbuffer_t) (row i : Z) : Z :=
  match n with
  | O => 0
  | S n' => (if compare_rows bits row i then 1 else 0) + count_repeats n' bits row (i + 1)
  end.

Fixpoint find_repeated_from (n : nat) (bits : bitbuffer_t) (i min_repeats min_bits : Z) : Z :=
  match n with
  | O => -1
  | S n' =>
      if (min_bits <=? row_bits bits i)
         && (min_repeats <=? count_repeats (Z.to_nat (num_rows bits)) bits i 0)
      then i
      else find_repeated_from n' bits (i + 1) min_repeats min_bits
  end.

Definition bitbuffer_find_repeated_row (bits : bitbuffer_t) (min_repeats min_bits : Z) : Z :=
  find_repeated_from (Z.to_nat (num_rows bits)) bits 0 min_repeats min_bits.

(** Modelled from the spec: the XOR checksum ([xor_bytes] of [util.c], not
    among the sources): the XOR of the first [num_bytes] bytes. *)
Fixpoint xor_bytes_from (n : nat) (message : bitrow) (i : Z) (acc : Z) : Z :=
  match n with
  | O => acc
  | S n' => xor_bytes_from n' message (i + 1) (Z.lxor acc (byte_at message i))
  end.

Definition xor_bytes (message : bitrow) (num_bytes : Z) : Z :=
  xor_bytes_from (Z.to_nat num_bytes) message 0 0.

(** Modelled from the spec: CRC-8 with configurable polynomial and initial
    value, byte at a time, most significant bit first ([crc8] of [util.c], not
    among the sources). *)
Fixpoint crc8_bits (n : nat) (remainder polynomial : Z) : Z :=
  match n with
  | O => remainder
  | S n' =>
      crc8_bits n'
        (if negb (Z.land remainder 0x80 =? 0)
         then u8 (Z.lxor (Z.shiftl remainder 1) polynomial)
         else u8 (Z.shiftl remainder 1))
        polynomial
  end.

Fixpoint crc8_from (n : nat) (message : bitrow) (i : Z) (polynomial remainder : Z) : Z :=
  match n with
  | O => remainder
  | S n' =>
      crc8_from n' message (i + 1) polynomial
        (crc8_bits 8 (Z.lxor remainder (byte_at message i)) polynomial)
  end.

Definition crc8 (message : bitrow) (nBytes polynomial init : Z) : Z :=
  crc8_from (Z.to_nat nBytes) message 0 polynomial init.

(** Modelled from the spec: bit inversion ([bitbuffer_invert] of
    [bitbuffer.c], not among the sources): every bit of every row of the
    packet is complemented; a row is its first [bits_per_row] bits, the bits
    after them in the last byte stay as they are. *)
Fixpoint invert_bytes (n : nat) (i : Z) (b : bitrow) : bitrow :=
  match n with
  | O => b
  | S n' => invert_bytes n' (i + 1) (set_byte b i (Z.lxor (byte_at b i) 0xFF))
  end.

Definition invert_row (nbits : Z) (b : bitrow) : bitrow :=
  if 0 <? nbits then
    let last_col := (nbits - 1) / 8 in
    let last_bits := (nbits - 1) mod 8 + 1 in
    let b := invert_bytes (Z.to_nat (last_col + 1)) 0 b in
    set_byte b last_col (Z.lxor (byte_at b last_col) (Z.shiftr 0xFF last_bits))
  else b.

Fixpoint invert_rows (n : nat) (r : Z) (bits : bitbuffer_t) : bitbuffer_t :=
  match n with
  | O => bits
  | S n' =>
      invert_rows n' (r + 1)
        (mk_bitbuffer (num_rows bits) (bits_per_row bits)
           (list_set [] (Z.to_nat r) (invert_row (row_bits bits r) (row_bytes bits r))
                     (bb bits)))
  end.

Definition bitbuffer_invert (bits : bitbuffer_t) : bitbuffer_t :=
  invert_rows (Z.to_nat (num_rows bits)) 0 bits.

(** ** Single precision *)

(** A positive integer rounded to 24 significant bits, to the nearest and, at
    a tie, to the even significand: what a [float] keeps of it, in the range
    of the normal numbers. *)
Definition round24 (m : Z) : Z :=
  let s := Z.log2 m + 1 - 24 in
  if s <=? 0 then m
  else
    let q := Z.shiftr m s in
    let r := Z.land m (Z.ones s) in
    let half := Z.shiftl 1 (s - 1) in
    Z.shiftl (if (half <? r) || ((r =? half) && Z.odd q) then q + 1 else q) s.

(** The [float] product [n * 0.1f] for an integer [n] that a [float] holds
    exactly, in units of 2^-27: the constant [0.1f] is 13421773 * 2^-27, and
    the exact product is rounded once. *)
Definition f32_mul_tenth (n : Z) : Z := Z.sgn n * round24 (Z.abs n * 13421773).

(** The value of a number of units of 2^-27. *)
Definition f32_value (units : Z) : Q := Qred (units # 134217728).

(** The [double] constants [51.1] and [76.7]. *)
Definition double_51_1 : Q := (7191685654957261 # 140737488355328)%Q.
Definition double_76_7 : Q := (5397282678426829 # 70368744177664)%Q.

(** [x < y] on values of floating type. *)
Definition Qlt_bool (x y : Q) : bool := negb (Qle_bool y x).

(** ** Auriol AFW2A1: [auriol_afw2a1.c] *)

(** [temp_raw], an [int16_t], and [temp_raw >> 4], the temperature in tenths
    of a degree. *)
Definition auriol_temp_raw (b : bitrow) : Z :=
  i16 (Z.lor (Z.shiftl (Z.land (byte_at b 1) 0x0f) 12) (Z.shiftl (byte_at b 2) 4)).

Definition auriol_temp_tenths (b : bitrow) : Z := Z.shiftr (auriol_temp_raw b) 4.

(** The twelve length tests of the decoder. *)
Fixpoint all_rows_have (n : nat) (bits : bitbuffer_t) (i len : Z) : bool :=
  match n with
  | O => true
  | S n' => (row_bits bits i =? len) && all_rows_have n' bits (i + 1) len
  end.

(** [auriol_afw2a1_decode] from the row [b] on.  The source compares an
    undeclared [humidity_rel]; following section 9 of the spec the locally
    computed [humidity] stands for it.  [temp_c] is the [float] product
    [(temp_raw >> 4) * 0.1f], and the two bounds compare it, converted to
    [double], with the [double] constants [-51.1] and [76.7]. *)
Definition auriol_afw2a1_fields (b : bitrow) : Z * option data_t :=
  let id := byte_at b 0 in
  let channel := Z.shiftr (byte_at b 1) 4 in
  let temp_c := f32_value (f32_mul_tenth (auriol_temp_tenths b)) in
  if negb (Z.shiftr (byte_at b 3) 4 =? 0xa) then (DECODE_FAIL_SANITY, None)
  else
    let humidity := Z.lor (Z.shiftl (Z.land (byte_at b 3) 0x0f) 4) (Z.shiftr (byte_at b 4) 4) in
    if (channel =? 0x3) || (channel =? 0x7) || (channel =? 0xb) || (channel =? 0xf)
       || (0x64 <? humidity) || (humidity <? 0)
       || Qlt_bool temp_c (- double_51_1) || Qlt_bool double_76_7 temp_c
    then (DECODE_FAIL_SANITY, None)
    else
      let '(channel, battery_low, tx_button) :=
        if (channel =? 0x0) || (channel =? 0x1) || (channel =? 0x2)
        then (channel + 1, 1, 0)
        else if (channel =? 0x4) || (channel =? 0x5) || (channel =? 0x6)
        then (channel - 4 + 1, 1, 1)
        else if (channel =? 0x8) || (channel =? 0x9) || (channel =? 0xa)
        then (channel - 8 + 1, 0, 0)
        else if (channel =? 0xc) || (channel =? 0xd) || (channel =? 0xe)
        then (channel - 12 + 1, 0, 1)
        else (channel, 1, 1) in
      (1, Some (data_make
        [mk_field "model" "" (DATA_STRING "Auriol-AFW2A1");
         mk_field "id" "" (DATA_INT id);
         mk_field "channel" "Channel" (DATA_INT channel);
         mk_field "battery" "Battery" (DATA_STRING (if battery_low =? 0 then "OK" else "LOW"));
         mk_field "button" "Button" (DATA_STRING (if tx_button =? 0 then "false" else "true"));
         mk_field "temperature_C" "Temperature" (DATA_FORMAT "%.1f C" (DATA_DOUBLE temp_c));
         mk_field "humidity" "Humidity" (DATA_FORMAT "%.0f %%" (DATA_DOUBLE (inject_Z humidity)))])).

(** [auriol_afw2a1_decode].  The result of the consensus search is used as a
    row index without a test; [None] stands for the read [bitbuffer->bb[row]]
    at an index before the array. *)
Definition auriol_afw2a1_decode (bitbuffer : bitbuffer_t) : option (Z * option data_t) :=
  let row := bitbuffer_find_repeated_row bitbuffer 12 36 in
  if negb (num_rows bitbuffer =? 12) then Some (DECODE_ABORT_EARLY, None)
  else if negb (all_rows_have 12 bitbuffer 0 36) then Some (DECODE_ABORT_LENGTH, None)
  else
    match bb_row bitbuffer row with
    | None => None
    | Some b => Some (auriol_afw2a1_fields b)
    end.

(** ** Holman WS5029 (PWM): [holman_ws5029.c] *)

(** [temp_raw], declared [uint16_t] and assigned through a cast to
    [int16_t], and [temp_raw >> 4]. *)
Definition holman_pwm_temp_raw (b : bitrow) : Z :=
  u16 (i16 (Z.lor (Z.shiftl (Z.land (byte_at b 4) 0x0f) 12) (Z.shiftl (byte_at b 5) 4))).

Definition holman_pwm_temp_tenths (b : bitrow) : Z := Z.shiftr (holman_pwm_temp_raw b) 4.

Definition holman_pwm_preamble : bitrow := [0x55; 0x5a; 0x67].

Definition holman_ws5029pwm_decode (bitbuffer : bitbuffer_t) : Z * option data_t :=
  let r := bitbuffer_find_repeated_row bitbuffer 3 96 in
  if (r <? 0) || negb (row_bits bitbuffer r =? 96) then (DECODE_ABORT_LENGTH, None)
  else
    let b := row_bytes bitbuffer r in
    if negb (bytes_equal 3 b holman_pwm_preamble 0) then (DECODE_FAIL_SANITY, None)
    else if negb (Z.lxor (Z.land (xor_bytes b 11) 0xF) 0xF =? 0) then (DECODE_FAIL_MIC, None)
    else
      let b := row_bytes (bitbuffer_invert bitbuffer) r in
      let id := byte_at b 3 in
      let battery_low := Z.land (byte_at b 4) 0x80 in
      let temp := holman_pwm_temp_tenths b in
      let humidity := byte_at b 6 in
      let rain := Z.shiftl (byte_at b 7) 4 + Z.shiftr (byte_at b 8) 4 in
      let speed_kmh := Z.shiftl (Z.land (byte_at b 8) 0xF) 4 + Z.shiftr (byte_at b 9) 4 in
      let wind_dir := Z.land (byte_at b 9) 0xF in
      (1, Some (data_make
        [mk_field "model" "" (DATA_STRING "Holman-WS5029");
         mk_field "id" "" (DATA_INT id);
         mk_field "battery_ok" "Battery" (DATA_INT (if battery_low =? 0 then 1 else 0));
         mk_field "temperature_C" "Temperature"
           (DATA_FORMAT "%.01f C" (DATA_DOUBLE (ratio temp 10)));
         mk_field "humidity" "Humidity" (DATA_FORMAT "%u %%" (DATA_INT humidity));
         mk_field "rain_mm" "Total rainfall"
           (DATA_FORMAT "%.01f mm" (DATA_DOUBLE (ratio (rain * 79) 100)));
         mk_field "wind_avg_km_h" "Wind avg speed" (DATA_FORMAT "%u km/h" (DATA_INT speed_kmh));
         mk_field "wind_dir_deg" "Wind Direction" (DATA_INT (wind_dir * 45 / 2));
         mk_field "mic" "Integrity" (DATA_STRING "CHECKSUM")])).

(** ** Calibeur RF-104: [calibeur.c] *)

Definition calibeur_id_bits (bb1 : bitrow) : Z :=
  let b0 := byte_at bb1 0 in
  Z.lor (Z.lor (Z.lor (Z.lor (Z.lor
    (Z.shiftr (Z.land b0 0x80) 7)
    (Z.shiftr (Z.land b0 0x40) 5))
    (Z.shiftr (Z.land b0 0x20) 3))
    (Z.shiftr (Z.land b0 0x10) 1))
    (Z.shiftl (Z.land b0 0x08) 1))
    (Z.shiftl (Z.land b0 0x04) 3).

Definition calibeur_temp_bits (bb1 : bitrow) : Z :=
  let b0 := byte_at bb1 0 in
  let b1 := byte_at bb1 1 in
  Z.lor (Z.lor (Z.lor (Z.lor (Z.lor (Z.lor
    (Z.shiftl (Z.land b0 0x02) 3)
    (Z.shiftl (Z.land b0 0x01) 5))
    (Z.shiftr (Z.land b1 0x80) 7))
    (Z.shiftr (Z.land b1 0x40) 5))
    (Z.shiftr (Z.land b1 0x20) 3))
    (Z.shiftr (Z.land b1 0x10) 1))
    (Z.shiftl (Z.land b1 0x08) 3).

Definition calibeur_hum_bits (bb1 : bitrow) : Z :=
  let b1 := byte_at bb1 1 in
  let b2 := byte_at bb1 2 in
  Z.lor (Z.lor (Z.lor (Z.lor (Z.lor (Z.lor
    (Z.shiftl (Z.land b1 0x02) 4)
    (Z.shiftl (Z.land b1 0x01) 6))
    (Z.shiftr (Z.land b2 0x80) 7))
    (Z.shiftr (Z.land b2 0x40) 5))
    (Z.shiftr (Z.land b2 0x20) 3))
    (Z.shiftr (Z.land b2 0x10) 1))
    (Z.shiftl (Z.land b2 0x08) 1).

(** The Reading of an accepted packet; [time_str] is the text that
    [local_time_str] returns. *)
Definition calibeur_reading (time_str : string) (bb1 : bitrow) : data_t :=
  let bits := calibeur_id_bits bb1 in
  let ID := bits / 10 in
  let temperature := ratio (bits mod 10 + 10 * (calibeur_temp_bits bb1 - 41)) 10 in
  let humidity := inject_Z (calibeur_hum_bits bb1) in
  data_make
    [mk_field "time" "" (DATA_STRING time_str);
     mk_field "model" "" (DATA_STRING "Calibeur RF-104");
     mk_field "id" "" (DATA_INT ID);
     mk_field "temperature_C" "Temperature" (DATA_FORMAT "%.1f C" (DATA_DOUBLE temperature));
     mk_field "humidity" "Humidity" (DATA_FORMAT "%2.0f %%" (DATA_DOUBLE humidity))].

(** [calibeur_rf104_callback]: the return value and the Reading handed to
    [data_acquired_handler], if any. *)
Definition calibeur_rf104_callback (time_str : string) (bitbuffer : bitbuffer_t)
  : Z * option data_t :=
  let bb1 := row_bytes bitbuffer 1 in
  let bb2 := row_bytes bitbuffer 2 in
  if (row_bits bitbuffer 1 =? 21)
     && negb (crc8 bb1 3 0x80 0 =? 0)
     && bytes_equal 3 bb1 bb2 0
  then (1, Some (calibeur_reading time_str bb1))
  else (0, None).

(** ** Predicates used in the statements *)

(** The preamble occurs nowhere in row 0. *)
Definition preamble_absent (b : bitbuffer_t) : Prop :=
  forall pos, 0 <= pos -> pos + preamble_bit_length <= row_bits b 0 ->
    match_at (Z.to_nat preamble_bit_length) (row_bytes b 0) pos preamble_pattern 0 = false.

(** A 12-bit field read as a two's-complement number. *)
Definition signed12 (v : Z) : Z := if v <? 2048 then v else v - 4096.

(** The state of a buffer that [bitbuffer_add_bit] has filled with [n] bits
    from empty: one row at most, bytes in range, nothing after the last bit. *)
Definition acc_wf (b : bitbuffer_t) (n : Z) : Prop :=
  (num_rows b = 0 \/ num_rows b = 1)
  /\ row_bits b 0 = n
  /\ 0 <= n
  /\ Forall is_byte (row_bytes b 0)
  /\ 8 * Z.of_nat (List.length (row_bytes b 0)) <= n + 7.

(** The header test of [honeywell_cm921_decode] passes. *)
Definition cm921_header_ok (bytes : bitbuffer_t) : Prop :=
  bitrow_get_byte (row_bytes bytes 0) 0 = 0x33
  /\ bitrow_get_byte (row_bytes bytes 0) 8 = 0x55
  /\ bitrow_get_byte (row_bytes bytes 0) 16 = 0x53.

(** Two rows agree on the bits from [lo] up to [hi]. *)
Definition same_bits (bits bits' : bitrow) (lo hi : Z) : Prop :=
  forall p, lo <= p < hi -> bitrow_get_bit bits p = bitrow_get_bit bits' p.

(** The two bits at [p] and [p + 1] are no Manchester code: 00 or 11. *)
Definition invalid_pair (bits : bitrow) (p : Z) : Prop :=
  bitrow_get_bit bits p = bitrow_get_bit bits (p + 1).

(** ** Sample packets *)

(** A decoded region with a correct byte sum: header 00, command 2309,
    three payload bytes 01 09 c4, checksum 03. *)
Definition cm921_sample_region : bitbuffer_t :=
  mk_bitbuffer 1 [64] [[0x00; 0x23; 0x09; 0x03; 0x01; 0x09; 0xC4; 0x03]].

(** The row that carries the packet 143255c1230903017efff7 quoted in
    [interpret_message]: preamble, header 33 55 53, the Manchester code of the
    packet, footer 35 and one filler 55, each byte sent least significant
    bit first between a start and a stop bit. *)
Definition cm921_sample_row : bitbuffer_t :=
  mk_bitbuffer 1 [302]
    [[85; 95; 240; 5; 153; 85; 89; 83; 85; 77; 45; 83; 83; 52; 205;
      82; 205; 84; 212; 181; 85; 77; 53; 84; 181; 85; 77; 82; 181; 43;
      42; 202; 178; 172; 173; 86; 85; 84]].

(** A row that carries 00 23 09 03 01 09 c4 03: command 2309 with the three
    payload bytes 01 09 c4 and a correct byte sum. *)
Definition cm921_setpoint_row : bitbuffer_t :=
  mk_bitbuffer 1 [242]
    [[85; 95; 240; 5; 153; 85; 89; 85; 85; 85; 77; 75; 85; 84; 211;
      85; 75; 85; 84; 213; 85; 77; 53; 45; 77; 85; 75; 85; 101; 85; 64]].

(** A row whose decoded region is the one byte 01, which does not add up to
    zero.  Its 102 bits are the preamble 0101010101 0111111111 0000000001,
    the seven bytes 33 55 53 55 56 35 55, each sent least significant bit
    first between a start bit 0 and a stop bit 1, and the two bits 01; the
    bytes 55 56 are the Manchester code of 01. *)
Definition cm921_bad_sum_row : bitbuffer_t :=
  mk_bitbuffer 1 [102] [[85; 95; 240; 5; 153; 85; 89; 85; 84; 213; 86; 85; 84]].

(** A row whose decoded region is empty.  Its 82 bits are the preamble,
    the five bytes 33 55 53 35 55, each sent least significant bit first
    between a start bit 0 and a stop bit 1, and the two bits 01: the footer
    35 follows the header at once. *)
Definition cm921_empty_region_row : bitbuffer_t :=
  mk_bitbuffer 1 [82] [[85; 95; 240; 5; 153; 85; 89; 85; 101; 85; 64]].

(** A row whose decoded region is 00 00 00 05 fb: header 00, command 0000,
    payload length 05 and one more byte, fb, which makes the bytes add up to
    0x100.  Its 182 bits are the preamble, the three header bytes, the ten
    bytes 55 55 55 55 55 55 55 66 aa 9a that are the Manchester code of the
    region, the bytes 35 55 and the two bits 01, framed as above. *)
Definition cm921_overrun_row : bitbuffer_t :=
  mk_bitbuffer 1 [182]
    [[85; 95; 240; 5; 153; 85; 89; 85; 85; 85; 85; 85; 85; 85; 85; 85;
      76; 210; 172; 179; 86; 85; 84]].

(** A row whose fifth byte after the header is ff, an invalid Manchester
    pair. *)
Definition cm921_man_error_row : bitbuffer_t :=
  mk_bitbuffer 1 [302]
    [[85; 95; 240; 5; 153; 85; 89; 85; 85; 85; 85; 85; 87; 253; 53;
      85; 84; 213; 84; 181; 85; 85; 85; 84; 213; 85; 84; 213; 45; 77;
      84; 213; 85; 84; 181; 86; 85; 84]].

(** The bytes that frame stripping re-assembles from [cm921_man_error_row]:
    the footer 35 is the byte at bit 200, the byte ff at bit 56. *)
Definition cm921_man_error_bytes : bitbuffer_t :=
  mk_bitbuffer 1 [216]
    [[51; 85; 83; 85; 85; 85; 85; 255; 89; 85; 101; 85; 90; 85; 85;
      85; 86; 85; 101; 165; 101; 149; 85; 85; 90; 53; 85]].

(** Sixty zero bits: long enough, and without the preamble. *)
Definition cm921_zero_row : bitbuffer_t :=
  mk_bitbuffer 1 [60] [[0; 0; 0; 0; 0; 0; 0; 0]].

(** Fifty-nine bits. *)
Definition cm921_short_row : bitbuffer_t :=
  mk_bitbuffer 1 [59] [[0; 0; 0; 0; 0; 0; 0; 0]].

(** Twelve rows of 36 bits, the first differing from the other eleven. *)
Definition auriol_mixed_rows : bitbuffer_t :=
  mk_bitbuffer 12 (repeat 36 12)
    ([0x91; 0x80; 0xba; 0xa3; 0xa0] :: repeat [0x90; 0x80; 0xba; 0xa3; 0xa0] 11).

(** Three equal rows of 96 bits with the PWM preamble and a checksum whose
    low nibble is right; after inversion the temperature field is fff. *)
Definition holman_minus_one_row : bitrow :=
  [0x55; 0x5a; 0x67; 0x12; 0xf0; 0x00; 0xc8; 0xff; 0xff; 0xff; 0x02; 0x00].

Definition holman_minus_one : bitbuffer_t :=
  mk_bitbuffer 3 [96; 96; 96]
    [holman_minus_one_row; holman_minus_one_row; holman_minus_one_row].

(** Rows 1 and 2 equal, 21 zero bits: the three bytes reduce to 0. *)
Definition calibeur_parity_zero : bitbuffer_t :=
  mk_bitbuffer 3 [0; 21; 21] [[]; [0x00; 0x00; 0x00]; [0x00; 0x00; 0x00]].

(** Rows 1 and 2 equal, 21 bits, [crc8] of the three bytes not 0. *)
Definition calibeur_parity_odd : bitbuffer_t :=
  mk_bitbuffer 3 [0; 21; 21] [[]; [0xF3; 0x72; 0xB0]; [0xF3; 0x72; 0xB0]].

(** ** Predicates for the bit level *)

(** Nothing is set at or after bit [n] of row 0. *)
Definition acc_clean (b : bitbuffer_t) (n : Z) : Prop :=
  forall p, n <= p -> bitrow_get_bit (row_bytes b 0) p = 0.

(** The number that [n] bits of a row spell from [pos] on, most significant
    bit first. *)
Fixpoint be_value (n : nat) (bits : bitrow) (pos : Z) : Z :=
  match n with
  | O => 0
  | S n' => bitrow_get_bit bits pos * 2 ^ Z.of_nat n' + be_value n' bits (pos + 1)
  end.

(** A start bit 0 at [pos], a stop bit 1 nine bits later, and at least one
    more bit before [end_]. *)
Definition good_frame (bits : bitrow) (pos end_ : Z) : Prop :=
  pos + 10 < end_
  /\ bitrow_get_bit bits pos = 0
  /\ bitrow_get_bit bits (pos + 9) = 1.

(** A buffer filled by [bitbuffer_add_bit] with [n] bits, with no bit set
    after them. *)
Definition acc_ok (b : bitbuffer_t) (n : Z) : Prop := acc_wf b n /\ acc_clean b n.

(** The bit after the preamble, where the frame stripping of
    [honeywell_cm921_decode] starts. *)
Definition cm921_start (bitbuffer : bitbuffer_t) : Z :=
  bitbuffer_search bitbuffer 0 0 preamble_pattern preamble_bit_length + preamble_bit_length.

(** The shape that the header test and the footer scan accept in [n / 8]
    re-assembled bytes: header 33 55 53, the byte 35 at index [k] after the
    header, and nothing but 55 from there to the end, at least once. *)
Definition cm921_framed (bits : bitrow) (n k : Z) : Prop :=
  byte_at bits 0 = 0x33 /\ byte_at bits 1 = 0x55 /\ byte_at bits 2 = 0x53
  /\ 3 <= k <= n / 8 - 2
  /\ byte_at bits k = 0x35
  /\ forall j, k < j < n / 8 -> byte_at bits j = 0x55.

(** Re-assembled bytes with the header, one byte of Manchester code, the
    footer and one filler. *)
Definition cm921_framed_bytes : bitbuffer_t :=
  mk_bitbuffer 1 [48] [[0x33; 0x55; 0x53; 0x99; 0x35; 0x55]].

(** No pair of the Manchester code between bit 24 and bit [fi] is 00 or 11. *)
Definition manchester_clean (bits : bitrow) (fi : Z) : Prop :=
  forall p, 24 <= p < fi -> (p - 24) mod 2 = 0 -> ~ invalid_pair bits p.

(** What [next] gives for byte [i] of a message of [N] bytes: the byte while
    another byte follows it, FC from the last byte on. *)
Definition field_byte (bits : bitrow) (N i : Z) : Z :=
  if i + 1 <? N then byte_at bits i else 252.

Definition field_bytes (bits : bitrow) (N i : Z) (n : nat) : list Z :=
  map (fun j => field_byte bits N (i + Z.of_nat j)) (seq 0 n).

(** The payload lengths under which [interpret_message] interprets a
    command. *)
Definition accepted_lengths : list (Z * list Z) :=
  [ (0x1030, [16]); (0x313F, [1; 9]); (0x0008, [2]); (0x3ef0, [3; 6]);
    (0x2309, [3]); (0x1100, [5; 8]); (0x0009, [3]); (0x3B00, [2]) ].

Definition accepted (cmd len : Z) : bool :=
  existsb (fun e => (cmd =? fst e) && existsb (fun l => len =? l) (snd e)) accepted_lengths.

(** ** Holman WS5029 (PCM): [holman_ws5029.c] *)

(** Modelled from the spec: bit-field extraction ([bitbuffer_extract_bytes] of
    [bitbuffer.c], not among the sources) of [n] whole bytes: byte [i] of the
    result is the eight bits from [pos + 8 * i] on, most significant first. *)
Definition bitbuffer_extract_bytes (bits : bitrow) (pos : Z) (n : nat) : bitrow :=
  map (fun i => bitrow_get_byte bits (pos + 8 * Z.of_nat i)) (seq 0 n).

Definition wind_dir_degr : list Z :=
  [0; 23; 45; 68; 90; 113; 135; 158; 180; 203; 225; 248; 270; 293; 315; 338].

Definition holman_pcm_preamble : bitrow := [0xAA; 0xAA; 0xAA; 0x98; 0xF3; 0xA5].

(** [temp_raw], an [int] assigned through a cast to [int16_t]. *)
Definition holman_pcm_temp_raw (b : bitrow) : Z :=
  i16 (Z.lor (Z.shiftl (byte_at b 2) 8) (Z.land (byte_at b 3) 0xf0)).

(** [holman_ws5029pcm_decode]: the return value and the Reading, if any.  The
    [float] products are kept as exact quotients; the logging is left out. *)
Definition holman_ws5029pcm_decode (bitbuffer : bitbuffer_t) : Z * option data_t :=
  if negb (num_rows bitbuffer =? 1) then (DECODE_ABORT_EARLY, None)
  else
    let bits := row_bits bitbuffer 0 in
    if bits <? 192 then (DECODE_ABORT_LENGTH, None)
    else
      let pos := bitbuffer_search bitbuffer 0 0 holman_pcm_preamble (6 * 8) in
      if pos >=? bits then (DECODE_ABORT_EARLY, None)
      else
        let pos := pos + 6 * 8 in
        let b := bitbuffer_extract_bytes (row_bytes bitbuffer 0) pos 18 in
        if negb (Z.land (xor_bytes b 12) 0x0f =? Z.land (byte_at b 12) 0x0f)
        then (DECODE_FAIL_MIC, None)
        else
          let device_id := Z.lor (Z.shiftl (byte_at b 0) 8) (byte_at b 1) in
          let temp := Z.shiftr (holman_pcm_temp_raw b) 4 in
          let humidity := Z.lor (Z.shiftl (Z.land (byte_at b 3) 0x0f) 4)
                                (Z.shiftr (Z.land (byte_at b 4) 0xf0) 4) in
          let rain_raw := Z.lor (Z.shiftl (Z.land (byte_at b 4) 0x0f) 8) (byte_at b 5) in
          let speed_kmh := byte_at b 6 in
          let direction_deg :=
            nth (Z.to_nat (Z.shiftr (Z.land (byte_at b 7) 0xf0) 4)) wind_dir_degr 0 in
          if bits <? 200 then
            (1, Some (data_make
              [mk_field "model" "" (DATA_STRING "Holman-WS5029");
               mk_field "id" "StationID" (DATA_FORMAT "%04X" (DATA_INT device_id));
               mk_field "temperature_C" "Temperature"
                 (DATA_FORMAT "%.01f C" (DATA_DOUBLE (ratio temp 10)));
               mk_field "humidity" "Humidity" (DATA_FORMAT "%u %%" (DATA_INT humidity));
               mk_field "rain_mm" "Total rainfall"
                 (DATA_FORMAT "%.01f mm" (DATA_DOUBLE (ratio (rain_raw * 79) 100)));
               mk_field "wind_avg_km_h" "Wind avg speed"
                 (DATA_FORMAT "%u km/h" (DATA_INT speed_kmh));
               mk_field "wind_dir_deg" "Wind Direction" (DATA_INT direction_deg)]))
          else if bits <? 220 then
            let uv_index := Z.lor (Z.shiftl (Z.land (byte_at b 7) 0x07) 1)
                                  (Z.shiftr (Z.land (byte_at b 8) 0x80) 7) in
            let light_lux := Z.lor (Z.lor (Z.shiftl (Z.land (byte_at b 8) 0x7F) 10)
                                          (Z.shiftl (byte_at b 9) 2))
                                   (Z.shiftr (Z.land (byte_at b 10) 0xC0) 6) in
            let battery_low := Z.shiftr (Z.land (byte_at b 10) 0x30) 4 in
            let counter := Z.lor (Z.shiftl (Z.land (byte_at b 10) 0x0f) 8) (byte_at b 11) in
            (1, Some (data_make
              [mk_field "model" "" (DATA_STRING "AOK-5056");
               mk_field "id" "StationID" (DATA_FORMAT "%04X" (DATA_INT device_id));
               mk_field "temperature_C" "Temperature"
                 (DATA_FORMAT "%.01f C" (DATA_DOUBLE (ratio temp 10)));
               mk_field "humidity" "Humidity" (DATA_FORMAT "%u %%" (DATA_INT humidity));
               mk_field "rain_mm" "Total rainfall"
                 (DATA_FORMAT "%.1f mm" (DATA_DOUBLE (inject_Z rain_raw)));
               mk_field "wind_avg_km_h" "Wind avg speed"
                 (DATA_FORMAT "%u km/h" (DATA_INT speed_kmh));
               mk_field "wind_dir_deg" "Wind Direction" (DATA_INT direction_deg);
               mk_field "uv" "UV Index" (DATA_FORMAT "%u" (DATA_INT uv_index));
               mk_field "light_lux" "Lux" (DATA_FORMAT "%u" (DATA_INT light_lux));
               mk_field "counter" "Counter" (DATA_FORMAT "%u" (DATA_INT counter));
               mk_field "battery_ok" "battery"
                 (DATA_FORMAT "%u" (DATA_INT (if battery_low =? 0 then 1 else 0)))]))
          else (0, None).

(** A PCM row of 192 bits: the preamble, station 1234, the temperature field
    FFF, and a checksum byte with the right low nibble. *)
Definition holman_pcm_minus_one : bitbuffer_t :=
  mk_bitbuffer 1 [192]
    [[0xAA; 0xAA; 0xAA; 0x98; 0xF3; 0xA5;
      0x12; 0x34; 0xFF; 0xF5; 0x50; 0x0A; 0x07; 0x40; 0x00; 0x00; 0x00; 0x00;
      0x01; 0x00; 0x00; 0x00; 0x00; 0x00]].

(** ** Calibeur RF-104: parity *)

(** The number of bits set among the low [n] bits of [x]. *)
Fixpoint bit_count (n : nat) (x : Z) : Z :=
  match n with
  | O => 0
  | S n' => (if Z.testbit x (Z.of_nat n') then 1 else 0) + bit_count n' x
  end.

(** A Reading that has grown by appended fields only. *)
Definition data_extends (data data' : data_t) : Prop :=
  exists fields, data' = (data ++ fields)%list.

(** The bytes that the frame stripping re-assembles from [cm921_sample_row]. *)
Definition cm921_sample_bytes : bitbuffer_t :=
  mk_bitbuffer 1 [216]
    [[51; 85; 83; 86; 101; 90; 89; 102; 102; 165; 86; 89; 90; 85;
      150; 85; 90; 85; 86; 106; 169; 170; 170; 170; 106; 53; 85]].

(** ** inFactory sensor: [infactory.c] *)

(** [infactory_callback]: the return value and the Reading, if any.  The
    temperature [(float)temp / 10 - 90] is kept as the exact quotient. *)
Definition infactory_callback (bitbuffer : bitbuffer_t) : Z * option data_t :=
  let b := row_bytes bitbuffer 0 in
  if negb (row_bits bitbuffer 0 =? 40) then (0, None)
  else
    let id := byte_at b 0 in
    let humidity := Z.land (byte_at b 3) 0x0F * 10 + Z.shiftr (byte_at b 4) 4 in
    let temp := Z.lor (Z.shiftl (byte_at b 2) 4) (Z.shiftr (byte_at b 3) 4) in
    (1, Some (data_make
      [mk_field "model" "" (DATA_STRING "inFactory sensor");
       mk_field "id" "ID" (DATA_FORMAT "%u" (DATA_INT id));
       mk_field "temperature_F" "Temperature"
         (DATA_FORMAT "%.02f °F" (DATA_DOUBLE (ratio (temp - 900) 10)));
       mk_field "humidity" "Humidity" (DATA_FORMAT "%u %%" (DATA_INT humidity))])).

(** ** X10 RF: [x10_rf.c] *)

(** Conversion to [int]: the value modulo 2^32, read as two's complement. *)
Definition i32 (x : Z) : Z :=
  let m := x mod 4294967296 in if m <? 2147483648 then m else m - 4294967296.

Definition arrbKnownConstBitMask : list Z := [0x0B; 0x0B; 0x07; 0x07].
Definition arrbKnownConstBitValue : list Z := [0x00; 0x0B; 0x00; 0x07].

(** The loop over the constant bits: [true] when no byte fails the test. *)
Fixpoint x10_rf_const_bits (n : nat) (bIdx : Z) (b : bitrow) : bool :=
  match n with
  | O => true
  | S n' =>
      let bTest := Z.land (nth (Z.to_nat bIdx) arrbKnownConstBitMask 0) (byte_at b bIdx) in
      if negb (bTest =? nth (Z.to_nat bIdx) arrbKnownConstBitValue 0) then false
      else x10_rf_const_bits n' (bIdx + 1) b
  end.

(** [bHouseCode], a [uint8_t] put together from the four house bits. *)
Definition x10_rf_house_code (b : bitrow) : Z :=
  let h0 := Z.shiftr (Z.land (byte_at b 0) 0x80) 7 in
  let h1 := Z.shiftr (Z.land (byte_at b 0) 0x40) 6 in
  let h2 := Z.shiftr (Z.land (byte_at b 0) 0x20) 5 in
  let h3 := Z.shiftr (Z.land (byte_at b 0) 0x10) 4 in
  let c := u8 (Z.shiftl (Z.land (Z.lnot (Z.lxor h0 h1)) 0x01) 3) in
  let c := u8 (Z.lor c (Z.shiftl (Z.land (Z.lnot h1) 0x01) 2)) in
  let c := u8 (Z.lor c (Z.shiftl (Z.land (Z.lxor h1 h2) 0x01) 1)) in
  u8 (Z.lor c (Z.land h3 0x01)).

(** [bDeviceCode] before the test of the dim and bright bit. *)
Definition x10_rf_device_code (b : bitrow) : Z :=
  let c := u8 (Z.shiftl (Z.land (byte_at b 0) 0x04) 1) in
  let c := u8 (Z.lor c (Z.shiftr (Z.land (byte_at b 2) 0x40) 4)) in
  let c := u8 (Z.lor c (Z.shiftr (Z.land (byte_at b 2) 0x08) 2)) in
  let c := u8 (Z.lor c (Z.shiftr (Z.land (byte_at b 2) 0x10) 4)) in
  u8 (c + 1).

(** [x10_rf_callback]: the return value and the Reading, if any.  [id_key] and
    [channel_key] are the two keys that the macro [_X] of [decoder.h] (not
    among the sources) chooses: ["id"] or ["deviceid"], and ["channel"] or
    ["houseid"].  [code], an [unsigned], is read back by [data_make] as an
    [int].  The verbose printing is left out. *)
Definition x10_rf_callback (id_key channel_key : string) (bitbuffer : bitbuffer_t)
  : Z * option data_t :=
  let b := row_bytes bitbuffer 1 in
  if negb (row_bits bitbuffer 1 =? 32) then (DECODE_ABORT_LENGTH, None)
  else if negb (Z.lxor (byte_at b 0) (byte_at b 1) =? 0xff)
          || negb (Z.lxor (byte_at b 2) (byte_at b 3) =? 0xff)
  then (DECODE_FAIL_SANITY, None)
  else if negb (x10_rf_const_bits 4 0 b) then (DECODE_FAIL_SANITY, None)
  else
    let code := u32 (Z.lor (Z.lor (Z.lor (Z.shiftl (byte_at b 0) 24)
                                         (Z.shiftl (byte_at b 1) 16))
                                  (Z.shiftl (byte_at b 2) 8))
                           (byte_at b 3)) in
    let bHouseCode := x10_rf_house_code b in
    let bDeviceCode := x10_rf_device_code b in
    let housecode := String (ascii_of_nat (Z.to_nat (u8 (bHouseCode + 65)))) EmptyString in
    let state := Z.land (byte_at b 2) 0x20 =? 0x00 in
    let '(bDeviceCode, event_str) :=
      if Z.land (byte_at b 2) 0x80 =? 0x80
      then (0, if Z.land (byte_at b 2) 0x10 =? 0x10 then "DIM" else "BRI")
      else (bDeviceCode, if state then "ON" else "OFF") in
    (1, Some (data_make
      [mk_field "model" "" (DATA_STRING "X10-RF");
       mk_field id_key "" (DATA_INT bDeviceCode);
       mk_field channel_key "" (DATA_STRING housecode);
       mk_field "state" "State" (DATA_STRING event_str);
       mk_field "data" "Data" (DATA_FORMAT "%08x" (DATA_INT (i32 code)))])).

(** ** X10 Security: [x10_sec.c] *)

(** The [switch] on the code: the event text and the delay flag. *)
Definition x10_sec_event (b2 : Z) : string * Z :=
  let code := Z.land b2 0xfe in
  let delay := if Z.land b2 0x04 =? 0 then 1 else 0 in
  if (code =? 0x00) || (code =? 0x04) then ("DS10A DOOR/WINDOW OPEN", delay)
  else if (code =? 0x80) || (code =? 0x84) then ("DS10A DOOR/WINDOW CLOSED", delay)
  else if code =? 0x06 then ("KR10A KEY-FOB ARM", 0)
  else if code =? 0x0c then ("MS10A MOTION TRIPPED", 0)
  else if code =? 0x46 then ("KR10A KEY-FOB LIGHTS-ON", 0)
  else if code =? 0x82 then ("SH624 SEC-REMOTE DISARM", 0)
  else if code =? 0x86 then ("KR10A KEY-FOB DISARM", 0)
  else if code =? 0x88 then ("KR15A PANIC", 0)
  else if code =? 0x8c then ("MS10A MOTION READY", 0)
  else if code =? 0x98 then ("KR15A PANIC-3SECOND", 0)
  else if code =? 0xc6 then ("KR10A KEY-FOB LIGHTS-OFF", 0)
  else ("UNKNOWN", 0).

(** The two tests that make the loop go on to the next row. *)
Definition x10_sec_row_ok (bitbuffer : bitbuffer_t) (r : Z) : bool :=
  let b := row_bytes bitbuffer r in
  negb (row_bits bitbuffer r <? 40)
  && negb (negb (Z.lxor (byte_at b 0) (byte_at b 1) =? 0x0f)
           || negb (Z.lxor (byte_at b 2) (byte_at b 3) =? 0xff)).

(** The Reading built from an accepted row; [model_name] is the name that the
    macro [_X] of [decoder.h] (not among the sources) chooses:
    ["X10-Security"] or ["X10 Security"]. *)
Definition x10_sec_reading (model_name : string) (b : bitrow) : data_t :=
  let battery_low := Z.land (byte_at b 2) 0x01 in
  let '(event_str, delay) := x10_sec_event (byte_at b 2) in
  let x10_id_str := (hex2 (byte_at b 0) ++ hex2 (byte_at b 4))%string in
  let x10_code_str := hex2 (byte_at b 2) in
  let data := data_make
    [mk_field "model" "" (DATA_STRING model_name);
     mk_field "id" "Device ID" (DATA_STRING x10_id_str);
     mk_field "code" "Code" (DATA_STRING x10_code_str);
     mk_field "event" "Event" (DATA_STRING event_str)] in
  let data := if negb (delay =? 0)
              then data_append data [mk_field "delay" "Delay" (DATA_INT delay)]
              else data in
  if negb (battery_low =? 0)
  then data_append data
         [mk_field "battery_ok" "Battery OK"
            (DATA_INT (if battery_low =? 0 then 1 else 0))]
  else data.

(** The loop [for (r = 0; r < bitbuffer->num_rows; ++r)], which returns at
    the first accepted row. *)
Fixpoint x10_sec_rows (n : nat) (r : Z) (model_name : string) (bitbuffer : bitbuffer_t)
  : Z * option data_t :=
  match n with
  | O => (DECODE_ABORT_EARLY, None)
  | S n' =>
      if x10_sec_row_ok bitbuffer r
      then (1, Some (x10_sec_reading model_name (row_bytes bitbuffer r)))
      else x10_sec_rows n' (r + 1) model_name bitbuffer
  end.

(** [x10_sec_callback]: the return value and the Reading, if any. *)
Definition x10_sec_callback (model_name : string) (bitbuffer : bitbuffer_t)
  : Z * option data_t :=
  x10_sec_rows (Z.to_nat (num_rows bitbuffer)) 0 model_name bitbuffer.

(** ** MQTT topics: [output_mqtt.c] *)

(** The test of [mqtt_sanitize_topic] on one character. *)
Definition mqtt_keep (c : ascii) : bool :=
  let p := Z.of_nat (nat_of_ascii c) in
  negb (negb (p =? 45) && negb (p =? 46) && ((p <? 65) || (90 <? p))
        && ((p <? 97) || (122 <? p)) && ((p <? 48) || (57 <? p))).

(** [mqtt_sanitize_topic]: the loop stops at the terminator of the C string;
    characters above 127 fail every range test whether [char] is signed or
    not. *)
Fixpoint mqtt_sanitize_topic (topic : string) : string :=
  match topic with
  | EmptyString => EmptyString
  | String c rest =>
      if (nat_of_ascii c =? 0)%nat then topic
      else String (if mqtt_keep c then c else "_"%char) (mqtt_sanitize_topic rest)
  end.

(** A sample packet of the X10 RF decoder: house A, unit 1, ON. *)
Definition x10_rf_sample : bitbuffer_t :=
  mk_bitbuffer 2 [0; 32] [[]; [0x60; 0x9F; 0x00; 0xFF]].

(** A DS10A packet, door open, battery low, in a row of exactly 40 bits,
    after a row that holds the same five bytes in 39 bits and a row of 40
    bits whose second byte is not the one that the first asks for. *)
Definition x10_sec_third_row : bitbuffer_t :=
  mk_bitbuffer 3 [39; 40; 40]
    [[0x5A; 0x55; 0x01; 0xFE; 0x7C];
     [0x5A; 0x54; 0x01; 0xFE; 0x7C];
     [0x5A; 0x55; 0x01; 0xFE; 0x7C]].



(** A C string: no character of it is the terminator. *)
Fixpoint no_nul (s : string) : Prop :=
  match s with
  | EmptyString => True
  | String c rest => nat_of_ascii c <> 0%nat /\ no_nul rest
  end.

(** The characters [-.A-Za-z0-9] that the comment of [mqtt_sanitize_topic]
    lists, by their codes: the hyphen 45, the dot 46, the digits 48 to 57,
    the capitals 65 to 90 and the small letters 97 to 122. *)
Definition topic_char (c : ascii) : Prop :=
  let p := nat_of_ascii c in
  (p = 45 \/ p = 46 \/ 48 <= p <= 57 \/ 65 <= p <= 90 \/ 97 <= p <= 122)%nat.

(** [sprintf("%d", n)]. *)
Definition dec_int (n : Z) : string :=
  if n <? 0 then ("-" ++ dec_pad 0 (- n))%string else dec_pad 0 n.

(** The value of a field without its format: [data->type] and
    [data->value]. *)
Fixpoint data_base (v : data_value) : data_value :=
  match v with
  | DATA_FORMAT _ v' => data_base v'
  | _ => v
  end.

(** [append_topic]: the text appended for a field; nothing for a type that is
    neither a string nor an integer. *)
Definition append_topic (data : data_field) : string :=
  match data_base (value data) with
  | DATA_STRING s => mqtt_sanitize_topic s
  | DATA_INT i => dec_int i
  | _ => EmptyString
  end.

(** The loop that collects a well-known key: the last field with that key. *)
Definition collect_key (k : string) (data : data_t) : option data_field :=
  fold_left (fun found d => if String.eqb (key d) k then Some d else found) data None.

(** [*format == c]. *)
Definition at_char (c : ascii) (format : string) : bool :=
  match format with
  | String d _ => Ascii.eqb d c
  | EmptyString => false
  end.

(** [!*format]: the terminator of the C string. *)
Definition at_end (format : string) : bool :=
  match format with
  | String d _ => (nat_of_ascii d =? 0)%nat
  | EmptyString => true
  end.

(** [++format]. *)
Definition advance (format : string) : string :=
  match format with
  | String _ rest => rest
  | EmptyString => EmptyString
  end.

(** A scanning loop of [expand_topic], which advances [format] up to the
    terminator or to the first character that [stop] accepts: the characters
    passed and the rest of the format. *)
Fixpoint scan (stop : ascii -> bool) (format : string) : string * string :=
  match format with
  | EmptyString => (EmptyString, EmptyString)
  | String c rest =>
      if (nat_of_ascii c =? 0)%nat || stop c then (EmptyString, format)
      else let '(passed, format') := scan stop rest in (String c passed, format')
  end.

(** Where the scans for the literal text, for the key and for the default of
    a token stop. *)
Definition bracket_stop (c : ascii) : bool := Ascii.eqb c "[".
Definition key_stop (c : ascii) : bool :=
  Ascii.eqb c ":" || Ascii.eqb c "]" || Ascii.eqb c "[".
Definition default_stop (c : ascii) : bool := Ascii.eqb c "]" || Ascii.eqb c "[".

(** [!strncmp(s1, s2, n)]. *)
Fixpoint strncmp_eq (s1 s2 : string) (n : nat) {struct n} : bool :=
  match n with
  | O => true
  | S n' =>
      match s1, s2 with
      | EmptyString, EmptyString => true
      | String a r1, String b r2 => Ascii.eqb a b && strncmp_eq r1 r2 n'
      | _, _ => false
      end
  end.

(** What a token of the format stands for. *)
Inductive topic_token : Type :=
| TOKEN_HOSTNAME
| TOKEN_DATA (k : string).

(** The chain of [strncmp] tests on a token of [n] characters that starts at
    [t_start]; [None] is the unknown token. *)
Definition resolve_token (t_start : string) (n : nat) : option topic_token :=
  if strncmp_eq t_start "hostname" n then Some TOKEN_HOSTNAME
  else if strncmp_eq t_start "type" n then Some (TOKEN_DATA "type")
  else if strncmp_eq t_start "model" n then Some (TOKEN_DATA "model")
  else if strncmp_eq t_start "subtype" n then Some (TOKEN_DATA "subtype")
  else if strncmp_eq t_start "channel" n then Some (TOKEN_DATA "channel")
  else if strncmp_eq t_start "id" n then Some (TOKEN_DATA "id")
  else if strncmp_eq t_start "protocol" n then Some (TOKEN_DATA "protocol")
  else None.

(** How [expand_topic] leaves: with the text written to the topic, by
    [exit(1)], or, for the model, with its loop not finished within the
    fuel. *)
Inductive topic_result : Type :=
| TOPIC (written : string)
| EXIT_1
| TOPIC_UNFINISHED.

(** The loop [while (format && *format)] of [expand_topic]; [written] is what
    has been written to the topic so far.  The capacity of the topic buffer
    is left out. *)
Fixpoint expand_loop (fuel : nat) (format : string) (data : data_t) (hostname : string)
                     (written : string) : topic_result :=
  match fuel with
  | O => TOPIC_UNFINISHED
  | S f =>
      if at_end format then TOPIC written
      else
        let '(copied, format) := scan bracket_stop format in
        let written := (written ++ copied)%string in
        if at_end format then TOPIC written
        else
          let format := advance format in
          let leading_slash := at_char "/" format in
          let format := if leading_slash then advance format else format in
          let t_start := format in
          let '(token, format) := scan key_stop format in
          let '(default, format) :=
            if at_char ":" format
            then let '(d, format) := scan default_stop (advance format) in
                 (Some d, format)
            else (None, format) in
          if negb (at_char "]" format) then EXIT_1
          else
            let format := advance format in
            match resolve_token t_start (String.length token) with
            | None => EXIT_1
            | Some tok =>
                let piece :=
                  match tok with
                  | TOKEN_HOSTNAME => Some hostname
                  | TOKEN_DATA k =>
                      match collect_key k data with
                      | Some d => Some (append_topic d)
                      | None => default
                      end
                  end in
                match piece with
                | None => expand_loop f format data hostname written
                | Some text =>
                    expand_loop f format data hostname
                      (written ++ (if leading_slash then "/" else "") ++ text)%string
                end
            end
  end.

(** [expand_topic] with a format and a host name that are not null: what it
    writes to the topic. *)
Definition expand_topic (format : string) (data : data_t) (hostname : string)
  : topic_result :=
  expand_loop (S (String.length format)) format data hostname EmptyString.

(** The keywords of a format, in the order in which [expand_topic] tests
    them. *)
Definition topic_keywords : list string :=
  ["hostname"; "type"; "model"; "subtype"; "channel"; "id"; "protocol"].

(** A scanning loop passes every character of [s]. *)
Fixpoint passes (stop : ascii -> bool) (s : string) : bool :=
  match s with
  | EmptyString => true
  | String c rest => negb ((nat_of_ascii c =? 0)%nat || stop c) && passes stop rest
  end.

(** A format of one token: [[key]], [[/key]], [[key:default]] or
    [[/key:default]]. *)
Definition one_token (slash : bool) (t : string) (default : option string) : string :=
  ("[" ++ (if slash then "/" else "") ++ t
   ++ match default with Some d => ":" ++ d | None => "" end ++ "]")%string.

(** * Properties *)

(** A value that fits 32 bits is its own conversion to [unsigned]. *)
Ltac u32_small := unfold u32; apply Z.mod_small; lia.

(** ** Lists and rows *)

Lemma nth_list_set_eq {A : Type} (d v : A) (n : nat) (l : list A) :
  nth n (list_set d n v l) d = v.
Proof.
  revert l; induction n as [|n IH]; intros [|x t]; simpl; auto.
Qed.

Lemma nth_list_set_neq {A : Type} (d v : A) (n m : nat) (l : list A) :
  n <> m -> nth m (list_set d n v l) d = nth m l d.
Proof.
  revert m l; induction n as [|n IH]; intros [|m] [|x t] Hneq; simpl; auto;
    try congruence.
  - destruct m; reflexivity.
  - rewrite IH by congruence. destruct m; reflexivity.
Qed.

Lemma byte_at_set_byte_eq (b : bitrow) (i v : Z) :
  byte_at (set_byte b i v) i = v.
Proof. unfold byte_at, set_byte. apply nth_list_set_eq. Qed.

Lemma byte_at_set_byte_neq (b : bitrow) (i j v : Z) :
  0 <= i -> 0 <= j -> i <> j -> byte_at (set_byte b i v) j = byte_at b j.
Proof.
  intros Hi Hj Hne. unfold byte_at, set_byte. apply nth_list_set_neq. lia.
Qed.

Lemma row_bytes_set_row_byte (b : bitbuffer_t) (r i v : Z) :
  row_bytes (set_row_byte b r i v) r = set_byte (row_bytes b r) i v.
Proof. unfold row_bytes at 1, set_row_byte; simpl. apply nth_list_set_eq. Qed.

Lemma row_bits_set_row_byte (b : bitbuffer_t) (r i v k : Z) :
  row_bits (set_row_byte b r i v) k = row_bits b k.
Proof. reflexivity. Qed.

Lemma is_byte_byte_at (b : bitrow) (i : Z) : Forall is_byte b -> is_byte (byte_at b i).
Proof.
  intros H. unfold byte_at.
  destruct (Nat.lt_ge_cases (Z.to_nat i) (List.length b)) as [Hlt|Hge].
  - rewrite Forall_forall in H. apply H, nth_In, Hlt.
  - rewrite nth_overflow by exact Hge. unfold is_byte; lia.
Qed.

(** At a byte boundary the byte accessor returns the stored byte. *)
Lemma bitrow_get_byte_aligned (b : bitrow) (k : Z) :
  Forall is_byte b -> 0 <= k -> bitrow_get_byte b (k * 8) = byte_at b k.
Proof.
  intros Hb Hk. unfold bitrow_get_byte.
  assert (Hs : Z.shiftr (k * 8) 3 = k).
  { rewrite Z.shiftr_div_pow2 by lia. change (2 ^ 3) with 8. apply Z.div_mul; lia. }
  assert (Hl : Z.land (k * 8) 7 = 0).
  { change 7 with (Z.ones 3). rewrite Z.land_ones by lia. change (2 ^ 3) with 8.
    apply Z.mod_mul; lia. }
  rewrite Hs, Hl. change (8 - 0) with 8.
  pose proof (is_byte_byte_at b k Hb) as H1.
  pose proof (is_byte_byte_at b (k + 1) Hb) as H2.
  unfold is_byte in *.
  rewrite Z.shiftl_0_r.
  rewrite (Z.shiftr_div_pow2 _ 8) by lia. change (2 ^ 8) with 256.
  rewrite Z.div_small by lia. rewrite Z.lor_0_r.
  unfold u8. apply Z.mod_small; lia.
Qed.

(** ** The byte-sum checksum of [parse_msg] *)

Lemma bsum_loop_sum (n : nat) (bits : bitrow) (i acc : Z) :
  Forall is_byte bits -> 0 <= i -> (i + Z.of_nat n) * 8 <= 4294967296 ->
  0 <= acc < 256 ->
  bsum_loop n bits i acc = (acc + sum_bytes (row_prefix bits i n)) mod 256.
Proof.
  intros Hb. revert i acc. induction n as [|n IH]; intros i acc Hi Hn Hacc.
  - simpl. rewrite Z.add_0_r, Z.mod_small by lia. reflexivity.
  - cbn [bsum_loop row_prefix sum_bytes fold_right].
    assert (Hu : u32 (i * 8) = i * 8) by u32_small.
    rewrite Hu, bitrow_get_byte_aligned by assumption.
    rewrite IH; try lia.
    + unfold u8. fold (sum_bytes (row_prefix bits (i + 1) n)).
      rewrite Zplus_mod_idemp_l. f_equal. lia.
    + unfold u8. apply Z.mod_pos_bound. lia.
Qed.

Lemma sum_row_prefix_set_byte (n : nat) (bits : bitrow) (j i v : Z) :
  0 <= j -> j <= i < j + Z.of_nat n ->
  sum_bytes (row_prefix (set_byte bits i v) j n)
  = sum_bytes (row_prefix bits j n) - byte_at bits i + v.
Proof.
  revert j. induction n as [|n IH]; intros j Hj Hi.
  - simpl in Hi. lia.
  - cbn [row_prefix sum_bytes fold_right].
    fold (sum_bytes (row_prefix (set_byte bits i v) (j + 1) n)).
    fold (sum_bytes (row_prefix bits (j + 1) n)).
    destruct (Z.eq_dec i j) as [->|Hne].
    + rewrite byte_at_set_byte_eq.
      assert (Hrest : forall m k, j < k ->
                row_prefix (set_byte bits j v) k m = row_prefix bits k m).
      { induction m as [|m IHm]; intros k Hk; simpl; [reflexivity|].
        rewrite byte_at_set_byte_neq by lia. rewrite IHm by lia. reflexivity. }
      rewrite Hrest by lia. lia.
    + rewrite byte_at_set_byte_neq by lia.
      rewrite IH by lia. lia.
Qed.

(** A call of [parse_msg] that returns has read its [crc] inside the row, and
    its return value is that of the checksum stage. *)
Lemma parse_msg_returns (bmsg : bitbuffer_t) (row r : Z) (msg : message_t) :
  parse_msg bmsg row = Some (r, msg) ->
  8 <= row_bits bmsg row /\ r = (if checksum_ok bmsg row then 1 else 0).
Proof.
  unfold parse_msg.
  destruct (row_bits bmsg row <? 8) eqn:E8; [discriminate|].
  apply Z.ltb_ge in E8.
  destruct (checksum_ok bmsg row); cbn [negb].
  - repeat match goal with |- context [let '(_, _) := ?x in _] => destruct x end.
    match goal with |- context [if ?c then None else _] => destruct c end;
      [discriminate|].
    intros H. injection H as <- _. split; [assumption | reflexivity].
  - intros H. injection H as <- _. split; [assumption | reflexivity].
Qed.

(** A failed checksum makes [parse_msg] return 0, with nothing but [crc]
    set. *)
Lemma parse_msg_rejects (bmsg : bitbuffer_t) (row : Z) :
  8 <= row_bits bmsg row -> checksum_ok bmsg row = false ->
  parse_msg bmsg row
  = Some (0, mk_message 0 0 [] 0 0 [] 0 []
               (bitrow_get_byte (row_bytes bmsg row) (u32 (row_bits bmsg row - 8)))).
Proof.
  intros H8 Hc. unfold parse_msg.
  destruct (row_bits bmsg row <? 8) eqn:E8; [apply Z.ltb_lt in E8; lia|].
  rewrite Hc. reflexivity.
Qed.

Lemma Forall_list_set {A : Type} (P : A -> Prop) (d v : A) (n : nat) (l : list A) :
  P d -> P v -> Forall P l -> Forall P (list_set d n v l).
Proof.
  intros Hd Hv. revert l. induction n as [|n IH]; intros [|x t] Hl; simpl.
  - constructor; auto.
  - inversion Hl; subst. constructor; auto.
  - constructor; auto.
  - inversion Hl; subst. constructor; auto.
Qed.

(** The byte sum that [parse_msg] forms is the sum of the whole bytes of the
    row modulo 256. *)
Lemma parse_msg_accepts_sum (bmsg : bitbuffer_t) (row : Z) :
  Forall is_byte (row_bytes bmsg row) ->
  0 <= row_bits bmsg 0 < 65536 ->
  bsum_loop (Z.to_nat (row_bits bmsg 0 / 8)) (row_bytes bmsg row) 0 0
  = sum_bytes (row_prefix (row_bytes bmsg row) 0 (Z.to_nat (row_bits bmsg 0 / 8))) mod 256.
Proof.
  intros Hb Hbits.
  assert (Hn : 0 <= row_bits bmsg 0 / 8 < 8192).
  { split; [apply Z.div_pos; lia | apply Z.div_lt_upper_bound; lia]. }
  rewrite bsum_loop_sum by (try assumption; lia). reflexivity.
Qed.

Lemma checksum_ok_sum (bmsg : bitbuffer_t) (row : Z) :
  Forall is_byte (row_bytes bmsg row) ->
  0 <= row_bits bmsg 0 < 65536 ->
  checksum_ok bmsg row
  = (sum_bytes (row_prefix (row_bytes bmsg row) 0 (Z.to_nat (row_bits bmsg 0 / 8))) mod 256
     =? 0).
Proof.
  intros Hb Hbits. unfold checksum_ok.
  rewrite parse_msg_accepts_sum by assumption. reflexivity.
Qed.

(** Replacing one byte of a region that adds up to 0 by a different byte
    gives a region that does not. *)
Lemma checksum_ok_set_row_byte (bmsg : bitbuffer_t) (row i v : Z) :
  Forall is_byte (row_bytes bmsg row) ->
  0 <= row_bits bmsg 0 < 65536 ->
  checksum_ok bmsg row = true ->
  0 <= i < row_bits bmsg 0 / 8 -> is_byte v -> v <> byte_at (row_bytes bmsg row) i ->
  checksum_ok (set_row_byte bmsg row i v) row = false.
Proof.
  intros Hb Hbits Hacc Hi Hv Hne.
  rewrite checksum_ok_sum in Hacc by assumption. apply Z.eqb_eq in Hacc.
  rewrite checksum_ok_sum.
  - rewrite row_bits_set_row_byte, row_bytes_set_row_byte.
    rewrite sum_row_prefix_set_byte by lia.
    pose proof (is_byte_byte_at (row_bytes bmsg row) i Hb) as Ho.
    unfold is_byte in *. apply Z.eqb_neq. intros Hz.
    apply Z.mod_divide in Hacc; [|lia]. apply Z.mod_divide in Hz; [|lia].
    destruct Hacc as [a Ha]. destruct Hz as [c Hc]. lia.
  - rewrite row_bytes_set_row_byte. unfold set_byte.
    apply Forall_list_set; auto. unfold is_byte; lia.
  - rewrite row_bits_set_row_byte. exact Hbits.
Qed.

(** C1: the checksum stage of [parse_msg] accepts a decoded region exactly
    when the sum of its bytes is 0 modulo 256, and so does the return value
    of every call of [parse_msg] that returns: it is 1 exactly for such a
    region, and it is 0 for every other region of at least one byte.
    Replacing any one byte of an accepted region by a different byte makes
    the stage reject and [parse_msg] return 0. *)
Theorem cm921_checksum_accepts_iff_sum_zero (bmsg : bitbuffer_t) (row : Z) :
  Forall is_byte (row_bytes bmsg row) ->
  0 <= row_bits bmsg 0 < 65536 ->
  let n := row_bits bmsg 0 / 8 in
  let region := row_prefix (row_bytes bmsg row) 0 (Z.to_nat n) in
  (checksum_ok bmsg row = true <-> sum_bytes region mod 256 = 0) /\
  (forall r msg, parse_msg bmsg row = Some (r, msg) ->
     (r = 1 <-> sum_bytes region mod 256 = 0)) /\
  (8 <= row_bits bmsg row -> sum_bytes region mod 256 <> 0 ->
   exists msg, parse_msg bmsg row = Some (0, msg)) /\
  (checksum_ok bmsg row = true ->
   forall i v, 0 <= i < n -> is_byte v -> v <> byte_at (row_bytes bmsg row) i ->
     checksum_ok (set_row_byte bmsg row i v) row = false /\
     (8 <= row_bits bmsg row ->
      exists msg, parse_msg (set_row_byte bmsg row i v) row = Some (0, msg))).
Proof.
  intros Hb Hbits n region.
  assert (Hsum : checksum_ok bmsg row = (sum_bytes region mod 256 =? 0))
    by (apply checksum_ok_sum; assumption).
  split; [|split; [|split]].
  - rewrite Hsum. apply Z.eqb_eq.
  - intros r msg H. apply parse_msg_returns in H. destruct H as [_ ->].
    rewrite Hsum. destruct (sum_bytes region mod 256 =? 0) eqn:E.
    + apply Z.eqb_eq in E. tauto.
    + apply Z.eqb_neq in E. split; [discriminate | tauto].
  - intros H8 Hne. eexists. apply parse_msg_rejects; [assumption|].
    rewrite Hsum. apply Z.eqb_neq. exact Hne.
  - intros Hacc i v Hi Hv Hne.
    assert (Hrej : checksum_ok (set_row_byte bmsg row i v) row = false)
      by (apply checksum_ok_set_row_byte; assumption).
    split; [exact Hrej|].
    intros H8. eexists. apply parse_msg_rejects; [|exact Hrej].
    rewrite row_bits_set_row_byte. exact H8.
Qed.

Lemma cm921_checksum_accepts_iff_sum_zero_witness :
  let region := row_prefix (row_bytes cm921_sample_region 0) 0 8 in
  (checksum_ok cm921_sample_region 0 = true <-> sum_bytes region mod 256 = 0) /\
  (forall r msg, parse_msg cm921_sample_region 0 = Some (r, msg) ->
     (r = 1 <-> sum_bytes region mod 256 = 0)) /\
  (8 <= row_bits cm921_sample_region 0 -> sum_bytes region mod 256 <> 0 ->
   exists msg, parse_msg cm921_sample_region 0 = Some (0, msg)) /\
  (checksum_ok cm921_sample_region 0 = true ->
   forall i v, 0 <= i < 8 -> is_byte v -> v <> byte_at (row_bytes cm921_sample_region 0) i ->
     checksum_ok (set_row_byte cm921_sample_region 0 i v) 0 = false /\
     (8 <= row_bits cm921_sample_region 0 ->
      exists msg, parse_msg (set_row_byte cm921_sample_region 0 i v) 0 = Some (0, msg))).
Proof.
  apply (cm921_checksum_accepts_iff_sum_zero cm921_sample_region 0).
  - repeat constructor; unfold is_byte; lia.
  - change (0 <= 64 < 65536); lia.
Defined.

(** ** Device identifiers *)

(** C3, as stated, does not hold: the identifier 04 00 2a has device type 1,
    which [device_map] names CTL, not TRV. *)
Lemma decode_device_id_04_not_TRV :
  ~ (dev_name_of [0x04; 0x00; 0x2A] = "TRV" /\ dev_serial_of [0x04; 0x00; 0x2A] = 42).
Proof. intros [H _]. vm_compute in H. discriminate H. Qed.

(** C3, amended: the identifier 04 00 2a decodes to the tag CTL and the serial
    number 42, printed as CTL:000042. *)
Theorem decode_device_id_04_is_CTL :
  dev_name_of [0x04; 0x00; 0x2A] = "CTL"
  /\ dev_serial_of [0x04; 0x00; 0x2A] = 42
  /\ decode_device_id [0x04; 0x00; 0x2A] = "CTL:000042".
Proof. repeat split; vm_compute; reflexivity. Qed.

(** The tag TRV belongs to device type 4, the first byte 10. *)
Lemma decode_device_id_10_is_TRV :
  decode_device_id [0x10; 0x00; 0x2A] = "TRV:000042".
Proof. vm_compute; reflexivity. Qed.

(** ** Command interpretation *)

(** C4: for command 2309, three payload bytes 01 09 c4 add zone 1 and
    setpoint 25 after the device identifiers; a payload length of 2 adds only
    the field unknown with the raw command code. *)
Theorem interpret_message_2309 (msg : message_t) (data : data_t) :
  command msg = 0x2309 ->
  (payload_length msg = 3 -> payload msg = [0x01; 0x09; 0xC4] ->
   interpret_message msg data
   = data_append (decode_device_ids msg data 1)
       [mk_field "zone" "" (DATA_INT 1); mk_field "setpoint" "" (DATA_DOUBLE 25)])
  /\
  (payload_length msg = 2 ->
   interpret_message msg data
   = data_append (decode_device_ids msg data 1)
       [mk_field "unknown" "" (DATA_FORMAT "%04x" (DATA_INT 0x2309))]).
Proof.
  intros Hc. split.
  - intros Hl Hp. unfold interpret_message. rewrite Hc, Hl, Hp. reflexivity.
  - intros Hl. unfold interpret_message, unknown_field. rewrite Hc, Hl. reflexivity.
Qed.

Lemma interpret_message_2309_witness :
  interpret_message (mk_message 0 0 [] 0x2309 3 [0x01; 0x09; 0xC4] 0 [] 3) []
  = [mk_field "Device IDs" "" (DATA_STRING "");
     mk_field "zone" "" (DATA_INT 1); mk_field "setpoint" "" (DATA_DOUBLE 25)]
  /\
  interpret_message (mk_message 0 0 [] 0x2309 2 [0x01; 0x09] 0 [] 0xC9) []
  = [mk_field "Device IDs" "" (DATA_STRING "");
     mk_field "unknown" "" (DATA_FORMAT "%04x" (DATA_INT 0x2309))].
Proof.
  split.
  - apply (proj1 (interpret_message_2309
                    (mk_message 0 0 [] 0x2309 3 [0x01; 0x09; 0xC4] 0 [] 3) []
                    eq_refl)); reflexivity.
  - apply (proj2 (interpret_message_2309
                    (mk_message 0 0 [] 0x2309 2 [0x01; 0x09] 0 [] 0xC9) []
                    eq_refl)); reflexivity.
Defined.

(** ** The stages of [honeywell_cm921_decode] *)

Lemma search_from_absent (n : nat) (bits : bitrow) (len pos : Z) (pattern : bitrow) (plen : Z) :
  (forall p, pos <= p -> p + plen <= len ->
     match_at (Z.to_nat plen) bits p pattern 0 = false) ->
  search_from n bits len pos pattern plen = len.
Proof.
  revert pos. induction n as [|n IH]; intros pos Habs; simpl; [reflexivity|].
  destruct (pos + plen <=? len) eqn:E; simpl.
  - apply Z.leb_le in E. rewrite (Habs pos) by lia.
    apply IH. intros p Hp. apply Habs. lia.
  - apply IH. intros p Hp. apply Habs. lia.
Qed.

Lemma cm921_zero_row_no_preamble : preamble_absent cm921_zero_row.
Proof.
  intros pos Hpos _.
  assert (Hz : forall k, byte_at (row_bytes cm921_zero_row 0) k = 0).
  { intros k. unfold byte_at. simpl.
    generalize (Z.to_nat k); intros n.
    do 8 (destruct n as [|n]; [reflexivity|]). destruct n; reflexivity. }
  change (Z.to_nat preamble_bit_length) with (S (S 28)).
  cbn [match_at].
  assert (H1 : bitrow_get_bit (row_bytes cm921_zero_row 0) (pos + 1) = 0).
  { unfold bitrow_get_bit. rewrite Hz. rewrite Z.shiftr_0_l. reflexivity. }
  rewrite H1. change (bitrow_get_bit preamble_pattern (0 + 1)) with 1.
  change (0 =? 1) with false. rewrite andb_false_l, andb_false_r. reflexivity.
Qed.

(** C9, as stated, does not hold: a single row that is long enough and does
    not contain the preamble is rejected with the length abort, not with a
    reason of its own. *)
Lemma cm921_no_preamble_not_distinct :
  ~ (forall debug b, num_rows b = 1 -> 60 <= row_bits b 0 -> preamble_absent b ->
       exists code, honeywell_cm921_decode debug b = Some (code, None)
                    /\ code <> DECODE_ABORT_LENGTH).
Proof.
  intros H.
  destruct (H true cm921_zero_row eq_refl
              ltac:(vm_compute; discriminate) cm921_zero_row_no_preamble)
    as [code [Hd Hne]].
  vm_compute in Hd. injection Hd as Hcode. apply Hne. rewrite <- Hcode. reflexivity.
Qed.

(** C9, amended: a single row shorter than 60 bits is rejected with the
    length abort, and so is a single row of at least 60 bits in which the
    preamble does not occur. *)
Theorem cm921_preamble_stage_rejections (debug : bool) (b : bitbuffer_t) :
  num_rows b = 1 ->
  (row_bits b 0 < 60 -> honeywell_cm921_decode debug b = Some (DECODE_ABORT_LENGTH, None))
  /\
  (60 <= row_bits b 0 -> preamble_absent b ->
   honeywell_cm921_decode debug b = Some (DECODE_ABORT_LENGTH, None)).
Proof.
  intros Hrows. unfold honeywell_cm921_decode, cm921_packet, cm921_bytes.
  rewrite Hrows. change (negb (1 =? 1)) with false. cbn [orb].
  split.
  - intros Hlt. apply Z.ltb_lt in Hlt. rewrite Hlt. reflexivity.
  - intros Hge Habs.
    assert (E : (row_bits b 0 <? 60) = false) by (apply Z.ltb_ge; lia).
    rewrite E.
    unfold bitbuffer_search. rewrite search_from_absent.
    + assert (E2 : (row_bits b 0 - (row_bits b 0 + preamble_bit_length) <? 8) = true).
      { apply Z.ltb_lt. unfold preamble_bit_length. lia. }
      rewrite E2. reflexivity.
    + intros p Hp Hle. apply Habs; lia.
Qed.

Lemma cm921_preamble_stage_rejections_witness :
  honeywell_cm921_decode true cm921_short_row = Some (DECODE_ABORT_LENGTH, None)
  /\ honeywell_cm921_decode true cm921_zero_row = Some (DECODE_ABORT_LENGTH, None).
Proof.
  split.
  - apply (proj1 (cm921_preamble_stage_rejections true cm921_short_row eq_refl)).
    vm_compute; reflexivity.
  - apply (proj2 (cm921_preamble_stage_rejections true cm921_zero_row eq_refl)).
    + vm_compute; discriminate.
    + exact cm921_zero_row_no_preamble.
Defined.

(** ** Sign extension of the 12-bit temperature *)

Lemma Z_range_cases (P : Z -> Prop) (n : nat) :
  (forall k, (k < n)%nat -> P (Z.of_nat k)) ->
  forall x, 0 <= x < Z.of_nat n -> P x.
Proof.
  intros H x Hx. rewrite <- (Z2Nat.id x) by lia. apply H. lia.
Qed.

Lemma forallb_seq (f : nat -> bool) (n : nat) :
  forallb f (seq 0 n) = true -> forall k, (k < n)%nat -> f k = true.
Proof.
  intros H k Hk. rewrite forallb_forall in H. apply H. apply in_seq. lia.
Qed.

(** In [auriol_afw2a1_decode] the shifts do extend the sign: the tenths are
    the 12-bit field read as a two's-complement number. *)
Lemma auriol_temp_sign_extended (b : bitrow) :
  is_byte (byte_at b 1) -> is_byte (byte_at b 2) ->
  auriol_temp_tenths b
  = signed12 (Z.land (byte_at b 1) 0x0f * 256 + byte_at b 2).
Proof.
  unfold auriol_temp_tenths, auriol_temp_raw.
  generalize (byte_at b 1) (byte_at b 2). intros x y Hx Hy.
  revert y Hy. pattern x. revert x Hx.
  refine (Z_range_cases _ 256 _). intros i Hi.
  refine (Z_range_cases _ 256 _). intros j Hj.
  pose (f := fun i j : nat =>
    Z.shiftr (i16 (Z.lor (Z.shiftl (Z.land (Z.of_nat i) 15) 12) (Z.shiftl (Z.of_nat j) 4))) 4
    =? signed12 (Z.land (Z.of_nat i) 15 * 256 + Z.of_nat j)).
  assert (Hall : forallb (fun i => forallb (f i) (seq 0 256)) (seq 0 256) = true)
    by (vm_compute; reflexivity).
  apply Z.eqb_eq.
  exact (forallb_seq _ _ (forallb_seq _ _ Hall i Hi) j Hj).
Qed.

Lemma auriol_temp_minus_one :
  auriol_temp_tenths [0x90; 0x8f; 0xff; 0xa3; 0xa0] = -1.
Proof. vm_compute; reflexivity. Qed.

(** In [holman_ws5029pwm_decode] they do not: the tenths are the 12-bit field
    read as an unsigned number. *)
Lemma holman_pwm_temp_unsigned (b : bitrow) :
  is_byte (byte_at b 4) -> is_byte (byte_at b 5) ->
  holman_pwm_temp_tenths b = Z.land (byte_at b 4) 0x0f * 256 + byte_at b 5.
Proof.
  unfold holman_pwm_temp_tenths, holman_pwm_temp_raw.
  generalize (byte_at b 4) (byte_at b 5). intros x y Hx Hy.
  revert y Hy. pattern x. revert x Hx.
  refine (Z_range_cases _ 256 _). intros i Hi.
  refine (Z_range_cases _ 256 _). intros j Hj.
  pose (f := fun i j : nat =>
    Z.shiftr (u16 (i16 (Z.lor (Z.shiftl (Z.land (Z.of_nat i) 15) 12)
                               (Z.shiftl (Z.of_nat j) 4)))) 4
    =? Z.land (Z.of_nat i) 15 * 256 + Z.of_nat j).
  assert (Hall : forallb (fun i => forallb (f i) (seq 0 256)) (seq 0 256) = true)
    by (vm_compute; reflexivity).
  apply Z.eqb_eq.
  exact (forallb_seq _ _ (forallb_seq _ _ Hall i Hi) j Hj).
Qed.

(** C6 at [holman_ws5029pwm_decode]: [temp_raw] is declared [uint16_t], so
    the shift does not extend the sign.  For the packet [holman_minus_one],
    whose 12-bit temperature field is fff (minus one), the decoder accepts
    and reports 4095 tenths, 409.5 degrees. *)
Theorem holman_pwm_temperature_not_sign_extended :
  let b := row_bytes (bitbuffer_invert holman_minus_one) 0 in
  Z.land (byte_at b 4) 0x0f * 256 + byte_at b 5 = 0xFFF
  /\ holman_pwm_temp_tenths b = 4095
  /\ signed12 0xFFF = -1
  /\ exists others1 others2,
       holman_ws5029pwm_decode holman_minus_one
       = (1, Some (others1
                   ++ [mk_field "temperature_C" "Temperature"
                         (DATA_FORMAT "%.01f C" (DATA_DOUBLE (ratio 4095 10)))]
                   ++ others2)%list).
Proof.
  cbv zeta. repeat split; try (vm_compute; reflexivity).
  eexists [_; _; _], _. vm_compute. reflexivity.
Qed.

(** ** The consensus row of [auriol_afw2a1_decode] *)

(** C10 at [auriol_afw2a1_decode]: for twelve rows of 36 bits, one of which
    differs, the consensus search finds no row, the row-count and length
    checks pass, and the not-found result [-1] is used as the row index. *)
Theorem auriol_not_found_used_as_index :
  num_rows auriol_mixed_rows = 12
  /\ all_rows_have 12 auriol_mixed_rows 0 36 = true
  /\ bitbuffer_find_repeated_row auriol_mixed_rows 12 36 = -1
  /\ bb_row auriol_mixed_rows (bitbuffer_find_repeated_row auriol_mixed_rows 12 36) = None
  /\ auriol_afw2a1_decode auriol_mixed_rows = None.
Proof. repeat split; vm_compute; reflexivity. Qed.

(** ** Calibeur RF-104 *)

Lemma bytes_equal_differs (n : nat) (a b : bitrow) (j i : Z) :
  j <= i < j + Z.of_nat n -> byte_at a i <> byte_at b i -> bytes_equal n a b j = false.
Proof.
  revert j. induction n as [|n IH]; intros j Hi Hne; [simpl in Hi; lia|].
  cbn [bytes_equal]. destruct (Z.eq_dec i j) as [->|Hij].
  - apply Z.eqb_neq in Hne. rewrite Hne. reflexivity.
  - rewrite (IH (j + 1)) by (assumption || lia). apply andb_false_r.
Qed.

(** C7, as stated, does not hold: with row 1 of 21 bits, rows 1 and 2 equal
    and [crc8] of the three bytes 0, the decoder emits nothing. *)
Lemma calibeur_parity_zero_rejected :
  ~ (forall time_str b,
       row_bits b 1 = 21 ->
       bytes_equal 3 (row_bytes b 1) (row_bytes b 2) 0 = true ->
       crc8 (row_bytes b 1) 3 0x80 0 = 0 ->
       exists data, calibeur_rf104_callback time_str b = (1, Some data)).
Proof.
  intros H.
  destruct (H "" calibeur_parity_zero eq_refl eq_refl eq_refl) as [data Hd].
  vm_compute in Hd. discriminate Hd.
Qed.

(** C7, amended: with row 1 of 21 bits, rows 1 and 2 equal over three bytes
    and [crc8] of the three bytes (polynomial 0x80, initial value 0) not 0,
    the decoder emits a Reading with a temperature and a humidity and returns
    1; if one of the three bytes differs between the rows it emits nothing and
    returns 0. *)
Theorem calibeur_emits_on_odd_parity (time_str : string) (b : bitbuffer_t) :
  row_bits b 1 = 21 ->
  (bytes_equal 3 (row_bytes b 1) (row_bytes b 2) 0 = true ->
   crc8 (row_bytes b 1) 3 0x80 0 <> 0 ->
   exists id temperature humidity,
     calibeur_rf104_callback time_str b
     = (1, Some [mk_field "time" "" (DATA_STRING time_str);
                 mk_field "model" "" (DATA_STRING "Calibeur RF-104");
                 mk_field "id" "" (DATA_INT id);
                 mk_field "temperature_C" "Temperature"
                   (DATA_FORMAT "%.1f C" (DATA_DOUBLE temperature));
                 mk_field "humidity" "Humidity"
                   (DATA_FORMAT "%2.0f %%" (DATA_DOUBLE humidity))]))
  /\
  (forall i, 0 <= i < 3 -> byte_at (row_bytes b 1) i <> byte_at (row_bytes b 2) i ->
   calibeur_rf104_callback time_str b = (0, None)).
Proof.
  intros Hbits. unfold calibeur_rf104_callback. rewrite Hbits.
  change (21 =? 21) with true. cbn [andb]. split.
  - intros Heq Hcrc. apply Z.eqb_neq in Hcrc. rewrite Hcrc, Heq. cbn [negb andb].
    unfold calibeur_reading, data_make. eauto.
  - intros i Hi Hne. rewrite (bytes_equal_differs 3 _ _ 0 i) by (assumption || lia).
    rewrite andb_false_r. reflexivity.
Qed.

Lemma calibeur_emits_on_odd_parity_witness :
  (exists id temperature humidity,
     calibeur_rf104_callback "12:00" calibeur_parity_odd
     = (1, Some [mk_field "time" "" (DATA_STRING "12:00");
                 mk_field "model" "" (DATA_STRING "Calibeur RF-104");
                 mk_field "id" "" (DATA_INT id);
                 mk_field "temperature_C" "Temperature"
                   (DATA_FORMAT "%.1f C" (DATA_DOUBLE temperature));
                 mk_field "humidity" "Humidity"
                   (DATA_FORMAT "%2.0f %%" (DATA_DOUBLE humidity))]))
  /\ calibeur_rf104_callback "12:00" (set_row_byte calibeur_parity_odd 2 1 0x73) = (0, None).
Proof.
  split.
  - apply (proj1 (calibeur_emits_on_odd_parity "12:00" calibeur_parity_odd eq_refl)).
    + vm_compute; reflexivity.
    + vm_compute; discriminate.
  - apply (proj2 (calibeur_emits_on_odd_parity "12:00"
                    (set_row_byte calibeur_parity_odd 2 1 0x73) eq_refl) 1).
    + lia.
    + vm_compute; discriminate.
Defined.

(** ** Termination and bounds of the loops of [honeywell_cm921_decode] *)

Lemma is_byte_lor (a c : Z) : is_byte a -> is_byte c -> is_byte (Z.lor a c).
Proof.
  unfold is_byte. intros Ha Hc.
  assert (H0 : 0 <= Z.lor a c) by (apply Z.lor_nonneg; lia).
  split; [exact H0|].
  destruct (Z.eq_dec (Z.lor a c) 0) as [E|E]; [lia|].
  change 256 with (2 ^ 8). apply Z.log2_lt_pow2; [lia|].
  rewrite Z.log2_lor by lia.
  assert (La : Z.log2 a < 8).
  { destruct (Z.eq_dec a 0) as [->|]; [reflexivity|]. apply Z.log2_lt_pow2; lia. }
  assert (Lc : Z.log2 c < 8).
  { destruct (Z.eq_dec c 0) as [->|]; [reflexivity|]. apply Z.log2_lt_pow2; lia. }
  lia.
Qed.

Lemma land_1_cases (x : Z) : Z.land x 1 = 0 \/ Z.land x 1 = 1.
Proof.
  change 1 with (Z.ones 1) at 1 2. rewrite Z.land_ones by lia.
  change (2 ^ 1) with 2. pose proof (Z.mod_pos_bound x 2). lia.
Qed.

Lemma bitrow_get_bit_cases (bits : bitrow) (p : Z) :
  bitrow_get_bit bits p = 0 \/ bitrow_get_bit bits p = 1.
Proof. unfold bitrow_get_bit. apply land_1_cases. Qed.

Lemma length_list_set {A : Type} (d v : A) (n : nat) (l : list A) :
  List.length (list_set d n v l) = Nat.max (List.length l) (S n).
Proof.
  revert l. induction n as [|n IH]; intros [|x t]; simpl; try reflexivity.
  - destruct (List.length t); reflexivity.
  - rewrite IH. reflexivity.
  - rewrite IH. reflexivity.
Qed.

Lemma is_byte_shifted_bit (bit k : Z) :
  bit = 0 \/ bit = 1 -> 0 <= k <= 7 -> is_byte (Z.shiftl bit k).
Proof.
  intros Hb Hk. unfold is_byte. rewrite Z.shiftl_mul_pow2 by lia.
  assert (0 < 2 ^ k) by (apply Z.pow_pos_nonneg; lia).
  assert (2 ^ k <= 2 ^ 7) by (apply Z.pow_le_mono_r; lia).
  change (2 ^ 7) with 128 in *. destruct Hb as [-> | ->]; lia.
Qed.

Lemma bitbuffer_add_bit_row0 (b : bitbuffer_t) (bit : Z) :
  num_rows b = 0 \/ num_rows b = 1 ->
  num_rows (bitbuffer_add_bit b bit) = 1
  /\ row_bits (bitbuffer_add_bit b bit) 0 = row_bits b 0 + 1
  /\ row_bytes (bitbuffer_add_bit b bit) 0
     = set_byte (row_bytes b 0) (row_bits b 0 / 8)
         (Z.lor (byte_at (row_bytes b 0) (row_bits b 0 / 8))
                (Z.shiftl bit (7 - row_bits b 0 mod 8))).
Proof.
  intros Hr.
  assert (Hrow : (if num_rows b =? 0 then 1 else num_rows b) = 1).
  { destruct Hr as [-> | ->]; reflexivity. }
  unfold bitbuffer_add_bit. rewrite Hrow. change (1 - 1) with 0.
  repeat split.
  - unfold row_bits at 1. cbn [bits_per_row]. apply nth_list_set_eq.
  - unfold row_bytes at 1. cbn [bb]. apply nth_list_set_eq.
Qed.

Lemma acc_wf_zero : acc_wf bitbuffer_zero 0.
Proof. unfold acc_wf. cbn. repeat split; try lia. constructor. Qed.

(** One more bit keeps the buffer well formed. *)
Lemma bitbuffer_add_bit_wf (b : bitbuffer_t) (n bit : Z) :
  acc_wf b n -> bit = 0 \/ bit = 1 -> acc_wf (bitbuffer_add_bit b bit) (n + 1).
Proof.
  intros (Hr & Hn & Hn0 & Hby & Hlen) Hbit.
  destruct (bitbuffer_add_bit_row0 b bit Hr) as (R1 & R2 & R3).
  unfold acc_wf. rewrite R1, R2, R3, Hn.
  assert (Hq : 0 <= n / 8) by (apply Z.div_pos; lia).
  assert (Hm : 0 <= n mod 8 < 8) by (apply Z.mod_pos_bound; lia).
  pose proof (Z.div_mod n 8 ltac:(lia)) as Hdm.
  repeat split; try lia; auto.
  - unfold set_byte. apply Forall_list_set; [unfold is_byte; lia | | exact Hby].
    apply is_byte_lor; [apply is_byte_byte_at; exact Hby|].
    apply is_byte_shifted_bit; [exact Hbit | lia].
  - unfold set_byte. rewrite length_list_set. lia.
Qed.

Lemma add_byte_bits_wf (k : nat) (i byte : Z) (b : bitbuffer_t) (n : Z) :
  acc_wf b n -> acc_wf (add_byte_bits k i byte b) (n + Z.of_nat k).
Proof.
  revert i b n. induction k as [|k IH]; intros i b n Hwf.
  - simpl. rewrite Z.add_0_r. exact Hwf.
  - cbn [add_byte_bits].
    replace (n + Z.of_nat (S k)) with ((n + 1) + Z.of_nat k) by lia.
    apply IH. apply bitbuffer_add_bit_wf; [exact Hwf | apply land_1_cases].
Qed.

(** [get_byte] returns: its loop runs once at most. *)
Lemma get_byte_returns (b : bitbuffer_t) (row pos end_ : Z) :
  exists r out, get_byte 2 b row pos end_ = Some (r, out)
                /\ (r = 10 -> pos + 10 < end_).
Proof.
  unfold get_byte. cbn [get_byte_loop].
  assert (E1 : (pos <? pos + 10) = true) by (apply Z.ltb_lt; lia).
  assert (E2 : (pos + 1 + 8 + 1 <? pos + 10) = false) by (apply Z.ltb_ge; lia).
  rewrite E1, E2.
  repeat match goal with
  | |- context [if ?c then _ else _] =>
      let E := fresh "E" in destruct c eqn:E
  end;
  eexists _, _; (split; [reflexivity | unfold DECODE_ABORT_LENGTH, DECODE_FAIL_SANITY; lia]).
Qed.

(** The frame-stripping loop finishes within [end_ - pos + 1] rounds and
    leaves whole bytes, no more bits than it has consumed. *)
Lemma strip_loop_returns (fuel : nat) (b : bitbuffer_t) (row end_ : Z) :
  forall (pos : Z) (bytes : bitbuffer_t) (n : Z),
  acc_wf bytes n -> n mod 8 = 0 -> (Z.to_nat (end_ - pos) < fuel)%nat ->
  exists bytes' n',
    strip_loop fuel b row pos end_ bytes = Some bytes'
    /\ acc_wf bytes' n' /\ n' mod 8 = 0 /\ n <= n' <= n + Z.max 0 (end_ - pos).
Proof.
  induction fuel as [|fuel IH]; intros pos bytes n Hwf Hmod Hfuel; [lia|].
  cbn [strip_loop]. destruct (pos <? end_) eqn:Epos.
  - apply Z.ltb_lt in Epos.
    destruct (get_byte_returns b row pos end_) as (r & out & Hg & Hr).
    rewrite Hg. destruct (r =? 10) eqn:Er; cbn [negb].
    + apply Z.eqb_eq in Er. specialize (Hr Er).
      destruct (IH (pos + 10) (add_byte_bits 8 0 out bytes) (n + 8))
        as (bytes' & n' & Hs & Hwf' & Hmod' & Hn').
      * apply (add_byte_bits_wf 8 0 out bytes n Hwf).
      * rewrite <- Z.add_mod_idemp_l, Hmod by lia. reflexivity.
      * lia.
      * exists bytes', n'. split; [exact Hs|]. split; [exact Hwf'|].
        split; [exact Hmod' | lia].
    + exists bytes, n. split; [reflexivity|]. split; [exact Hwf|].
      split; [exact Hmod | lia].
  - exists bytes, n. split; [reflexivity|]. split; [exact Hwf|].
    split; [exact Hmod | lia].
Qed.

Lemma search_from_nonneg (n : nat) (bits : bitrow) (len pos : Z) (pattern : bitrow) (plen : Z) :
  0 <= len -> 0 <= pos -> 0 <= search_from n bits len pos pattern plen.
Proof.
  revert pos. induction n as [|n IH]; intros pos Hlen Hpos; simpl; [exact Hlen|].
  destruct (_ && _); [exact Hpos | apply IH; lia].
Qed.

(** The first stages return: the length abort, or whole re-assembled bytes. *)
Lemma cm921_bytes_returns (b : bitbuffer_t) :
  0 <= row_bits b 0 < 65536 ->
  cm921_bytes b = Return DECODE_ABORT_LENGTH
  \/ exists bytes n, cm921_bytes b = Next bytes
                     /\ acc_wf bytes n /\ n mod 8 = 0 /\ n < 65536.
Proof.
  intros Hbits. unfold cm921_bytes.
  destruct (negb (num_rows b =? 1) || (row_bits b 0 <? 60)); [left; reflexivity|].
  set (start := bitbuffer_search b 0 0 preamble_pattern preamble_bit_length
                + preamble_bit_length).
  assert (Hstart : 30 <= start).
  { subst start. unfold bitbuffer_search, preamble_bit_length.
    pose proof (search_from_nonneg (Z.to_nat (row_bits b 0 - 0)) (row_bytes b 0)
                  (row_bits b 0) 0 preamble_pattern 30 ltac:(lia) ltac:(lia)).
    lia. }
  destruct (row_bits b 0 - start <? 8); [left; reflexivity|].
  right.
  destruct (strip_loop_returns (S (Z.to_nat (row_bits b 0 - start))) b 0
              (start + (row_bits b 0 - start)) start bitbuffer_zero 0)
    as (bytes & n & Hs & Hwf & Hmod & Hn).
  - exact acc_wf_zero.
  - reflexivity.
  - lia.
  - rewrite Hs. exists bytes, n. split; [reflexivity|]. split; [exact Hwf|].
    split; [exact Hmod | lia].
Qed.

Section FooterScan.

Variable bits : bitrow.
Hypothesis Hby : Forall is_byte bits.
Hypothesis H53 : byte_at bits 2 = 0x53.

(** The footer scan stops at the last header byte at the latest. *)
Lemma footer_loop_bounds (fuel : nat) :
  forall (k seen : Z),
  2 <= k -> k * 8 < 4294967296 -> (Z.to_nat (k - 2) < fuel)%nat ->
  exists k' seen',
    footer_loop fuel bits (k * 8) seen = Some (k' * 8, seen')
    /\ 2 <= k' <= k
    /\ ((k' = k /\ seen' = seen) \/ (k' < k /\ seen' = 1))
    /\ byte_at bits k' <> 0x55.
Proof.
  induction fuel as [|fuel IH]; intros k seen Hk Hmax Hfuel; [lia|].
  cbn [footer_loop].
  assert (Hu : u32 (k * 8) = k * 8) by u32_small.
  rewrite Hu, bitrow_get_byte_aligned by (assumption || lia).
  destruct (byte_at bits k =? 0x55) eqn:E.
  - apply Z.eqb_eq in E.
    assert (Hk3 : 3 <= k).
    { destruct (Z.eq_dec k 2) as [->|]; [rewrite H53 in E; discriminate E | lia]. }
    replace (k * 8 - 8) with ((k - 1) * 8) by lia.
    destruct (IH (k - 1) 1) as (k' & seen' & Hf & Hk' & Hseen & Hne); try lia.
    exists k', seen'. repeat split; try assumption; try lia.
  - apply Z.eqb_neq in E. exists k, seen. repeat split; try lia; auto.
Qed.

End FooterScan.

(** After a header check that passed, the footer scan returns and [fi] has
    stayed between the last header byte and the last byte of [bytes]. *)
Lemma footer_scan_in_bounds (bytes : bitbuffer_t) (n : Z) :
  acc_wf bytes n -> n mod 8 = 0 -> n < 4294967296 ->
  bitrow_get_byte (row_bytes bytes 0) 16 = 0x53 ->
  exists k seen_aa,
    footer_loop (S (Z.to_nat n)) (row_bytes bytes 0) (n - 8) 0 = Some (k * 8, seen_aa)
    /\ 16 <= k * 8 <= n - 8
    /\ ((k * 8 = n - 8 /\ seen_aa = 0) \/ (k * 8 < n - 8 /\ seen_aa = 1))
    /\ byte_at (row_bytes bytes 0) 2 = 0x53.
Proof.
  intros (Hr & Hn & Hn0 & Hby & Hlen) Hmod Hmax Eh.
  change 16 with (2 * 8) in Eh. rewrite bitrow_get_byte_aligned in Eh by (assumption || lia).
  assert (Hlen3 : (3 <= List.length (row_bytes bytes 0))%nat).
  { destruct (Nat.lt_ge_cases (List.length (row_bytes bytes 0)) 3) as [Hlt|]; [|assumption].
    unfold byte_at in Eh. rewrite nth_overflow in Eh; [discriminate Eh|].
    change (Z.to_nat 2) with 2%nat. lia. }
  pose proof (Z.div_mod n 8 ltac:(lia)) as Hdm. rewrite Hmod, Z.add_0_r in Hdm.
  assert (Hq : 3 <= n / 8) by lia.
  replace (n - 8) with ((n / 8 - 1) * 8) by lia.
  destruct (footer_loop_bounds (row_bytes bytes 0) Hby Eh (S (Z.to_nat n)) (n / 8 - 1) 0)
    as (k' & seen' & Hf & Hk' & Hseen & Hne); try lia.
  exists k', seen'. split; [exact Hf|]. split; [lia|]. split; [lia | exact Eh].
Qed.

(** The header check and the footer scan return: a sanity failure, or the
    offset of the footer, which lies after the header and before the last
    byte of [bytes]. *)
Lemma cm921_footer_returns (bytes : bitbuffer_t) (n : Z) :
  acc_wf bytes n -> n mod 8 = 0 -> n < 4294967296 ->
  cm921_footer bytes = Return DECODE_FAIL_SANITY
  \/ exists fi, cm921_footer bytes = Next fi
                /\ 24 <= fi <= n - 16 /\ fi mod 8 = 0.
Proof.
  intros Hwf Hmod Hmax. unfold cm921_footer.
  destruct (negb (bitrow_get_byte (row_bytes bytes 0) 0 =? 0x33)
            || negb (bitrow_get_byte (row_bytes bytes 0) 8 =? 0x55)
            || negb (bitrow_get_byte (row_bytes bytes 0) 16 =? 0x53)) eqn:Eh;
    [left; reflexivity|].
  apply orb_false_elim in Eh. destruct Eh as [_ Eh].
  apply negb_false_iff, Z.eqb_eq in Eh.
  destruct (footer_scan_in_bounds bytes n Hwf Hmod Hmax Eh)
    as (k & seen & Hf & Hk & Hseen & H53).
  destruct Hwf as (Hr & Hn & Hn0 & Hby & Hlen).
  rewrite Hn, Hf.
  assert (Hu : u32 (k * 8) = k * 8) by u32_small.
  rewrite Hu, bitrow_get_byte_aligned by (assumption || lia).
  destruct ((seen =? 0) || negb (byte_at (row_bytes bytes 0) k =? 0x35)) eqn:Ef;
    [left; reflexivity|].
  right. exists (k * 8).
  apply orb_false_elim in Ef. destruct Ef as [Es E35].
  apply Z.eqb_neq in Es. apply negb_false_iff, Z.eqb_eq in E35.
  assert (Hk2 : k <> 2) by (intros ->; rewrite H53 in E35; discriminate E35).
  assert (Hd : n = 8 * (n / 8)) by (pose proof (Z.div_mod n 8 ltac:(lia)); lia).
  split; [reflexivity|]. split; [lia|]. apply Z.mod_mul. lia.
Qed.

(** The frame-stripping loop reads the row between [pos] and [end_] only. *)
Lemma get_byte_bits_ext (n : nat) (bits bits' : bitrow) (pos out : Z) :
  same_bits bits bits' pos (pos + Z.of_nat n) ->
  get_byte_bits n bits pos out = get_byte_bits n bits' pos out.
Proof.
  revert pos out. induction n as [|n IH]; intros pos out Hs; [reflexivity|].
  cbn [get_byte_bits]. rewrite (Hs pos) by lia.
  apply IH. intros p Hp. apply Hs. lia.
Qed.

Lemma get_byte_loop_ext (fuel : nat) (bits bits' : bitrow) (bend end_ : Z) :
  forall pos out, same_bits bits bits' pos end_ ->
  get_byte_loop fuel bits pos bend end_ out = get_byte_loop fuel bits' pos bend end_ out.
Proof.
  induction fuel as [|fuel IH]; intros pos out Hs; [reflexivity|].
  cbn [get_byte_loop].
  destruct (pos <? bend); [|reflexivity].
  destruct (pos >=? end_) eqn:E1; [reflexivity|].
  rewrite (Hs pos) by lia.
  destruct (negb (bitrow_get_bit bits' pos =? 0)); [reflexivity|].
  destruct (pos + 1 + 8 >=? end_) eqn:E2; [reflexivity|].
  rewrite (get_byte_bits_ext 8 bits bits' (pos + 1) out)
    by (intros p Hp; apply Hs; lia).
  rewrite (Hs (pos + 1 + 8)) by lia.
  destruct (negb (bitrow_get_bit bits' (pos + 1 + 8) =? 1)); [reflexivity|].
  destruct (pos + 1 + 8 + 1 >=? end_) eqn:E4; [reflexivity|].
  apply IH. intros p Hp. apply Hs. lia.
Qed.

Lemma strip_loop_ext (fuel : nat) (b b' : bitbuffer_t) (row end_ : Z) :
  forall pos bytes, same_bits (row_bytes b row) (row_bytes b' row) pos end_ ->
  strip_loop fuel b row pos end_ bytes = strip_loop fuel b' row pos end_ bytes.
Proof.
  induction fuel as [|fuel IH]; intros pos bytes Hs; [reflexivity|].
  cbn [strip_loop]. destruct (pos <? end_); [|reflexivity].
  unfold get_byte. rewrite (get_byte_loop_ext 2 _ _ _ _ pos 0 Hs).
  destruct (get_byte_loop 2 (row_bytes b' row) pos (pos + 10) end_ 0) as [[r byte]|];
    [|reflexivity].
  destruct (negb (r =? 10)); [reflexivity|].
  apply IH. intros p Hp. apply Hs. lia.
Qed.

(** The pattern search reads the row below its bit length only. *)
Lemma match_at_ext (n : nat) (bits bits' pattern : bitrow) (pos ppos : Z) :
  same_bits bits bits' pos (pos + Z.of_nat n) ->
  match_at n bits pos pattern ppos = match_at n bits' pos pattern ppos.
Proof.
  revert pos ppos. induction n as [|n IH]; intros pos ppos Hs; [reflexivity|].
  cbn [match_at]. rewrite (Hs pos) by lia. f_equal.
  apply IH. intros p Hp. apply Hs. lia.
Qed.

Lemma search_from_ext (n : nat) (bits bits' pattern : bitrow) (len plen : Z) :
  0 <= plen -> forall pos, same_bits bits bits' pos len ->
  search_from n bits len pos pattern plen = search_from n bits' len pos pattern plen.
Proof.
  intros Hplen. induction n as [|n IH]; intros pos Hs; [reflexivity|].
  cbn [search_from]. destruct (pos + plen <=? len) eqn:E; cbn [andb].
  - apply Z.leb_le in E.
    rewrite (match_at_ext (Z.to_nat plen) bits bits' pattern pos 0)
      by (intros p Hp; apply Hs; lia).
    destruct (match_at (Z.to_nat plen) bits' pos pattern 0); [reflexivity|].
    apply IH. intros p Hp. apply Hs. lia.
  - apply IH. intros p Hp. apply Hs. lia.
Qed.

(** The stages up to the frame stripping depend on the bits of the row
    only: nothing is read at or after [bits_per_row[0]]. *)
Lemma cm921_bytes_ext (b b' : bitbuffer_t) :
  num_rows b' = num_rows b -> row_bits b' 0 = row_bits b 0 ->
  same_bits (row_bytes b 0) (row_bytes b' 0) 0 (row_bits b 0) ->
  cm921_bytes b' = cm921_bytes b.
Proof.
  intros Hrows Hbits Hs. unfold cm921_bytes. rewrite Hrows, Hbits.
  destruct (negb (num_rows b =? 1) || (row_bits b 0 <? 60)) eqn:E0; [reflexivity|].
  apply orb_false_elim in E0. destruct E0 as [_ E0]. apply Z.ltb_ge in E0.
  assert (Hsearch : bitbuffer_search b' 0 0 preamble_pattern preamble_bit_length
                    = bitbuffer_search b 0 0 preamble_pattern preamble_bit_length).
  { unfold bitbuffer_search. rewrite Hbits. symmetry.
    apply search_from_ext; [unfold preamble_bit_length; lia | exact Hs]. }
  rewrite Hsearch.
  set (start := bitbuffer_search b 0 0 preamble_pattern preamble_bit_length
                + preamble_bit_length).
  destruct (row_bits b 0 - start <? 8); [reflexivity|].
  assert (Hstart : 0 <= start).
  { subst start. unfold bitbuffer_search, preamble_bit_length.
    pose proof (search_from_nonneg (Z.to_nat (row_bits b 0 - 0)) (row_bytes b 0)
                  (row_bits b 0) 0 preamble_pattern 30 ltac:(lia) ltac:(lia)). lia. }
  rewrite (strip_loop_ext _ b' b 0 (start + (row_bits b 0 - start)) start bitbuffer_zero).
  - reflexivity.
  - intros p Hp. symmetry. apply Hs. lia.
Qed.

(** The counted loops of [parse_msg] run at most 3 and 255 times. *)
Lemma next_range (bits : bitrow) (ipos num_bytes : Z) :
  0 <= fst (next bits ipos num_bytes) < 256.
Proof.
  unfold next. destruct (u32 (ipos + 8) >=? u32 (num_bytes * 8)); cbn [fst].
  - vm_compute. split; [discriminate | reflexivity].
  - unfold bitrow_get_byte, u8. apply Z.mod_pos_bound. lia.
Qed.

Lemma length_next_n (n : nat) (bits : bitrow) (ipos num_bytes : Z) :
  List.length (fst (next_n n bits ipos num_bytes)) = n.
Proof.
  revert ipos. induction n as [|n IH]; intros ipos; [reflexivity|].
  cbn [next_n]. destruct (next bits ipos num_bytes) as [r ipos1].
  specialize (IH ipos1). destruct (next_n n bits ipos1 num_bytes) as [rs ipos2].
  cbn [fst] in *. cbn [List.length]. rewrite IH. reflexivity.
Qed.

Lemma length_read_device_ids (n : nat) (bits : bitrow) (ipos num_bytes : Z) :
  List.length (fst (read_device_ids n bits ipos num_bytes)) = n.
Proof.
  revert ipos. induction n as [|n IH]; intros ipos; [reflexivity|].
  cbn [read_device_ids]. destruct (next_n 3 bits ipos num_bytes) as [id ipos1].
  specialize (IH ipos1). destruct (read_device_ids n bits ipos1 num_bytes) as [ids ipos2].
  cbn [fst] in *. cbn [List.length]. rewrite IH. reflexivity.
Qed.

Lemma parse_msg_counts (bmsg : bitbuffer_t) (row r : Z) (msg : message_t) :
  parse_msg bmsg row = Some (r, msg) ->
  0 <= num_device_ids msg <= 3
  /\ 0 <= payload_length msg <= 255
  /\ List.length (device_id msg) = Z.to_nat (num_device_ids msg)
  /\ List.length (payload msg) = Z.to_nat (payload_length msg).
Proof.
  unfold parse_msg.
  destruct (row_bits bmsg row <? 8); [discriminate|].
  destruct (negb (checksum_ok bmsg row)).
  { intros H. injection H as _ <-. cbn. repeat split; lia. }
  destruct (next (row_bytes bmsg row) 0 (row_bits bmsg 0 / 8)) as [header_ ipos1].
  pose proof (length_read_device_ids (Z.to_nat (Z.land (Z.shiftr header_ 2) 3))
                (row_bytes bmsg row) ipos1 (row_bits bmsg 0 / 8)) as Hids.
  destruct (read_device_ids _ _ ipos1 _) as [ids ipos2].
  destruct (next (row_bytes bmsg row) ipos2 (row_bits bmsg 0 / 8)) as [c_hi ipos3].
  destruct (next (row_bytes bmsg row) ipos3 (row_bits bmsg 0 / 8)) as [c_lo ipos4].
  pose proof (next_range (row_bytes bmsg row) ipos4 (row_bits bmsg 0 / 8)) as Hpl.
  destruct (next (row_bytes bmsg row) ipos4 (row_bits bmsg 0 / 8)) as [plen ipos5].
  pose proof (length_next_n (Z.to_nat plen) (row_bytes bmsg row) ipos5
                (row_bits bmsg 0 / 8)) as Hpay.
  destruct (next_n (Z.to_nat plen) _ ipos5 _) as [payload_ ipos6].
  destruct (8 <? u32 (row_bits bmsg row - 8 - ipos6)); [discriminate|].
  intros H. injection H as _ <-.
  cbn [fst snd num_device_ids payload_length device_id payload] in *.
  assert (Hn : 0 <= Z.land (Z.shiftr header_ 2) 3 < 4).
  { change 3 with (Z.ones 2). rewrite Z.land_ones by lia. apply Z.mod_pos_bound. lia. }
  repeat split; try lia; assumption.
Qed.

(** The loops of the decoder finish: the stages before [parse_msg] return a
    rejection or hand over a packet. *)
Lemma cm921_packet_returns (b : bitbuffer_t) :
  0 <= row_bits b 0 < 65536 ->
  cm921_packet b = Return DECODE_ABORT_LENGTH
  \/ cm921_packet b = Return DECODE_FAIL_SANITY
  \/ exists packet man_errors, cm921_packet b = Next (packet, man_errors).
Proof.
  intros Hbits. unfold cm921_packet.
  destruct (cm921_bytes_returns b Hbits) as [-> | (bytes & n & -> & Hwf & Hmod & Hn)].
  { left. reflexivity. }
  destruct (cm921_footer_returns bytes n Hwf Hmod ltac:(lia)) as [-> | (fi & -> & _)].
  { right. left. reflexivity. }
  right. right. destruct (cm921_manchester bytes fi) as [packet man_errors].
  exists packet, man_errors. reflexivity.
Qed.

(** A call of the decoder that returns has one of its three outcomes. *)
Lemma cm921_decode_returns (debug : bool) (b : bitbuffer_t) (code : Z) (out : option data_t) :
  0 <= row_bits b 0 < 65536 ->
  honeywell_cm921_decode debug b = Some (code, out) ->
  (code = 1 /\ out <> None)
  \/ ((code = DECODE_ABORT_LENGTH \/ code = DECODE_FAIL_SANITY) /\ out = None).
Proof.
  intros Hbits. unfold honeywell_cm921_decode.
  destruct (cm921_packet_returns b Hbits) as [-> | [-> | (packet & man_errors & ->)]].
  - intros H. injection H as <- <-. right. split; [left|]; reflexivity.
  - intros H. injection H as <- <-. right. split; [right|]; reflexivity.
  - destruct (negb debug && negb (man_errors =? 0)).
    { intros H. injection H as <- <-. right. split; [right|]; reflexivity. }
    destruct (parse_msg packet 0) as [[ok message]|]; [|discriminate].
    intros H. injection H as <- <-. left. split; [reflexivity | discriminate].
Qed.

(** A call of the decoder is without a return exactly when it reaches
    [parse_msg] and [parse_msg] leaves the memory of the packet. *)
Lemma cm921_decode_undefined (debug : bool) (b : bitbuffer_t) :
  0 <= row_bits b 0 < 65536 ->
  honeywell_cm921_decode debug b = None
  <-> exists packet man_errors,
        cm921_packet b = Next (packet, man_errors)
        /\ (debug = true \/ man_errors = 0)
        /\ parse_msg packet 0 = None.
Proof.
  intros Hbits. unfold honeywell_cm921_decode.
  destruct (cm921_packet_returns b Hbits) as [-> | [-> | (packet & man_errors & ->)]].
  - split; [discriminate | intros (p & m & H & _); discriminate H].
  - split; [discriminate | intros (p & m & H & _); discriminate H].
  - split.
    + intros H. exists packet, man_errors. split; [reflexivity|].
      destruct debug; cbn [negb andb] in H.
      * split; [left; reflexivity|].
        destruct (parse_msg packet 0) as [[ok message]|]; [discriminate H | reflexivity].
      * destruct (man_errors =? 0) eqn:E; cbn [negb] in H; [|discriminate H].
        apply Z.eqb_eq in E. split; [right; exact E|].
        destruct (parse_msg packet 0) as [[ok message]|]; [discriminate H | reflexivity].
    + intros (p & m & H & Hd & Hp). injection H as <- <-.
      assert (E : negb debug && negb (man_errors =? 0) = false).
      { destruct Hd as [-> | ->]; [reflexivity | apply andb_false_r]. }
      rewrite E, Hp. reflexivity.
Qed.

(** C8, as stated, does not hold of the code.  The loops of
    [honeywell_cm921_decode] itself are bounded by the row: the stages up to
    the Manchester decoding finish for every row; the frame-stripping loop
    finishes within one round per bit of [end_ - pos] and reads the row
    between [pos] and [end_] only, and the stages up to it read nothing at
    or after the row's bit length; the footer scan, entered after the header
    check, stops with [fi] between the last header byte and the last byte of
    [bytes].  The reads of [parse_msg] are not bounded by the row.  A call
    of the decoder that returns has the value 1 and a Reading, or a
    rejection and none; but the call is without a return exactly when it
    reaches [parse_msg] and [parse_msg] leaves the memory of the packet.
    That happens on [cm921_empty_region_row], whose decoded region is empty,
    so that the checksum passes and [crc] is read at bit [(unsigned)(0 - 8)];
    and on [cm921_overrun_row], whose region 00 00 00 05 fb passes the
    checksum and announces five payload bytes where one byte is left: the
    payload loop runs to bit 72 of a row of 40 bits, and the unparsed bits,
    [(40 - 8) - 72] converted to [unsigned], are copied into an allocation
    of one byte. *)
Theorem cm921_parse_msg_leaves_row (debug : bool) (b : bitbuffer_t) :
  0 <= row_bits b 0 < 65536 ->
  cm921_packet b <> Unfinished
  /\ (forall pos end_,
        strip_loop (S (Z.to_nat (end_ - pos))) b 0 pos end_ bitbuffer_zero <> None)
  /\ (forall fuel b' pos end_ bytes,
        same_bits (row_bytes b 0) (row_bytes b' 0) pos end_ ->
        strip_loop fuel b 0 pos end_ bytes = strip_loop fuel b' 0 pos end_ bytes)
  /\ (forall b',
        num_rows b' = num_rows b -> row_bits b' 0 = row_bits b 0 ->
        same_bits (row_bytes b 0) (row_bytes b' 0) 0 (row_bits b 0) ->
        cm921_bytes b' = cm921_bytes b)
  /\ (forall bytes,
        cm921_bytes b = Next bytes -> cm921_header_ok bytes ->
        exists fi seen_aa,
          footer_loop (S (Z.to_nat (row_bits bytes 0))) (row_bytes bytes 0)
                      (row_bits bytes 0 - 8) 0 = Some (fi, seen_aa)
          /\ 16 <= fi <= row_bits bytes 0 - 8)
  /\ (forall code out,
        honeywell_cm921_decode debug b = Some (code, out) ->
        (code = 1 /\ out <> None)
        \/ ((code = DECODE_ABORT_LENGTH \/ code = DECODE_FAIL_SANITY) /\ out = None))
  /\ (honeywell_cm921_decode debug b = None
      <-> exists packet man_errors,
            cm921_packet b = Next (packet, man_errors)
            /\ (debug = true \/ man_errors = 0)
            /\ parse_msg packet 0 = None)
  /\ (cm921_packet cm921_empty_region_row = Next (bitbuffer_zero, 0)
      /\ row_bits bitbuffer_zero 0 = 0
      /\ checksum_ok bitbuffer_zero 0 = true
      /\ parse_msg bitbuffer_zero 0 = None
      /\ honeywell_cm921_decode debug cm921_empty_region_row = None)
  /\ (let packet := mk_bitbuffer 1 [40] [[0x00; 0x00; 0x00; 0x05; 0xfb]] in
      cm921_packet cm921_overrun_row = Next (packet, 0)
      /\ checksum_ok packet 0 = true
      /\ fst (next (row_bytes packet 0) 24 5) = 5
      /\ snd (next_n 5 (row_bytes packet 0) 32 5) = 72
      /\ u32 ((row_bits packet 0 - 8) - 72) = 4294967256
      /\ parse_msg packet 0 = None
      /\ honeywell_cm921_decode debug cm921_overrun_row = None).
Proof.
  intros Hbits.
  split; [|split; [|split; [|split; [|split; [|split; [|split; [|split]]]]]]].
  - destruct (cm921_packet_returns b Hbits) as [-> | [-> | (packet & man_errors & ->)]];
      discriminate.
  - intros pos end_.
    destruct (strip_loop_returns (S (Z.to_nat (end_ - pos))) b 0 end_ pos bitbuffer_zero 0)
      as (bytes & n & Hs & _).
    + exact acc_wf_zero.
    + reflexivity.
    + lia.
    + rewrite Hs. discriminate.
  - intros fuel b' pos end_ bytes Hs. apply strip_loop_ext. exact Hs.
  - intros b' Hrows Hrb Hs. apply cm921_bytes_ext; assumption.
  - intros bytes Hb (_ & _ & H53).
    destruct (cm921_bytes_returns b Hbits) as [E | (bytes0 & n & E & Hwf & Hmod & Hn)];
      rewrite E in Hb; [discriminate Hb|].
    injection Hb as <-.
    destruct (footer_scan_in_bounds bytes0 n Hwf Hmod ltac:(lia) H53)
      as (k & seen & Hf & Hk & _).
    destruct Hwf as (_ & Hrb & _). rewrite Hrb.
    exists (k * 8), seen. split; [exact Hf | exact Hk].
  - intros code out. apply cm921_decode_returns. exact Hbits.
  - apply cm921_decode_undefined. exact Hbits.
  - repeat split; try (vm_compute; reflexivity).
    destruct debug; vm_compute; reflexivity.
  - cbv zeta. repeat split; try (vm_compute; reflexivity).
    destruct debug; vm_compute; reflexivity.
Qed.

Lemma cm921_parse_msg_leaves_row_witness :
  exists packet man_errors,
    cm921_packet cm921_overrun_row = Next (packet, man_errors)
    /\ (true = true \/ man_errors = 0)
    /\ parse_msg packet 0 = None.
Proof.
  destruct (cm921_parse_msg_leaves_row true cm921_overrun_row
              ltac:(change (0 <= 182 < 65536); lia)) as (_ & _ & _ & _ & _ & _ & H & _).
  apply (proj1 H). vm_compute. reflexivity.
Defined.

(** ** Manchester errors *)

Section ManchesterStop.

Variables (bits : bitrow) (len p : Z).
Hypothesis Hp : p < len.
Hypothesis Hinv : invalid_pair bits p.

(** The Manchester decoding stops at the first invalid pair. *)
Lemma manchester_loop_stops (fuel : nat) :
  forall (ipos : Z) (outbuf : bitbuffer_t),
  ipos <= p -> (p - ipos) mod 2 = 0 -> (Z.to_nat (p - ipos) < fuel)%nat ->
  exists q, fst (manchester_loop fuel bits len ipos outbuf) = q + 2 /\ ipos <= q <= p.
Proof.
  induction fuel as [|fuel IH]; intros ipos outbuf Hle Hpar Hfuel; [lia|].
  cbn [manchester_loop].
  assert (E : (ipos <? len) = true) by (apply Z.ltb_lt; lia). rewrite E.
  destruct (bitrow_get_bit bits ipos =? bitrow_get_bit bits (ipos + 1)) eqn:Eb.
  - exists ipos. split; [reflexivity | lia].
  - apply Z.eqb_neq in Eb.
    assert (Hne : ipos <> p) by (intros ->; apply Eb; exact Hinv).
    assert (Hstep : ipos + 2 <= p).
    { destruct (Z.eq_dec (ipos + 1) p) as [E1|E1]; [|lia].
      replace (p - ipos) with 1 in Hpar by lia. discriminate Hpar. }
    destruct (IH (ipos + 2) (bitbuffer_add_bit outbuf (bitrow_get_bit bits ipos)))
      as (q & Hq & Hr); try lia.
    + replace (p - (ipos + 2)) with (p - ipos + (-1) * 2) by lia.
      rewrite Z.mod_add by lia. exact Hpar.
    + exists q. split; [exact Hq | lia].
Qed.

End ManchesterStop.

(** An invalid pair between the header and the footer leaves a non-zero
    [man_errors]. *)
Lemma cm921_manchester_counts (bytes : bitbuffer_t) (n fi p : Z) :
  row_bits bytes 0 = n -> n < 65536 -> 24 <= fi <= n - 16 ->
  24 <= p < fi -> (p - 24) mod 2 = 0 -> invalid_pair (row_bytes bytes 0) p ->
  snd (cm921_manchester bytes fi) <> 0.
Proof.
  intros Hn Hmax Hfi Hp Hpar Hinv. unfold cm921_manchester, bitbuffer_manchester_decode.
  assert (Hu : u32 fi = fi) by u32_small.
  rewrite Hu.
  assert (Hnb : u32 (fi - 24) = fi - 24) by u32_small.
  rewrite Hnb, Hn.
  assert (Hcap : u32 (24 + (fi - 24) * 2) = 2 * fi - 24)
    by (unfold u32; rewrite Z.mod_small; lia).
  rewrite Hcap.
  set (len := if negb (fi - 24 =? 0) && (2 * fi - 24 <? n) then 2 * fi - 24 else n).
  assert (Hlen : p < len).
  { subst len. destruct (negb (fi - 24 =? 0) && (2 * fi - 24 <? n)); lia. }
  destruct (manchester_loop_stops (row_bytes bytes 0) len p Hlen Hinv
              (Z.to_nat len) 24 bitbuffer_zero) as (q & Hq & Hr); try lia.
  destruct (manchester_loop (Z.to_nat len) (row_bytes bytes 0) len 24 bitbuffer_zero)
    as [fpos packet].
  cbn [fst] in Hq. subst fpos. cbn [snd].
  unfold u32. rewrite Z.mod_small; lia.
Qed.

(** C5: when [_DEBUG] is not defined, a packet whose Manchester decoding
    leaves a non-zero error count is rejected with [DECODE_FAIL_SANITY] and no
    Reading is emitted; the error count is not zero whenever a pair between
    the header and the footer is invalid. *)
Theorem cm921_production_rejects_manchester_errors (b bytes : bitbuffer_t) (fi : Z) :
  0 <= row_bits b 0 < 65536 ->
  cm921_bytes b = Next bytes ->
  cm921_footer bytes = Next fi ->
  (snd (cm921_manchester bytes fi) <> 0 ->
   honeywell_cm921_decode false b = Some (DECODE_FAIL_SANITY, None))
  /\
  (forall p, 24 <= p < fi -> (p - 24) mod 2 = 0 -> invalid_pair (row_bytes bytes 0) p ->
   snd (cm921_manchester bytes fi) <> 0).
Proof.
  intros Hbits Hb Hf. split.
  - intros Hne. unfold honeywell_cm921_decode, cm921_packet. rewrite Hb, Hf.
    destruct (cm921_manchester bytes fi) as [packet man_errors]. cbn [snd] in Hne.
    apply Z.eqb_neq in Hne. rewrite Hne. reflexivity.
  - intros p Hp Hpar Hinv.
    destruct (cm921_bytes_returns b Hbits) as [E | (bytes0 & n & E & Hwf & Hmod & Hn)];
      rewrite E in Hb; [discriminate Hb|].
    injection Hb as <-.
    destruct (cm921_footer_returns bytes0 n Hwf Hmod ltac:(lia)) as [E2 | (fi0 & E2 & Hfi & _)];
      rewrite E2 in Hf; [discriminate Hf|].
    injection Hf as <-.
    destruct Hwf as (_ & Hrb & _).
    apply (cm921_manchester_counts bytes0 n fi0 p); assumption || lia.
Qed.

Lemma cm921_production_rejects_manchester_errors_witness :
  honeywell_cm921_decode false cm921_man_error_row = Some (DECODE_FAIL_SANITY, None)
  /\ snd (cm921_manchester cm921_man_error_bytes 200) <> 0.
Proof.
  pose proof (cm921_production_rejects_manchester_errors
                cm921_man_error_row cm921_man_error_bytes 200
                ltac:(change (0 <= 302 < 65536); lia)
                ltac:(vm_compute; reflexivity)
                ltac:(vm_compute; reflexivity)) as [H1 H2].
  assert (Hne : snd (cm921_manchester cm921_man_error_bytes 200) <> 0).
  { apply (H2 56); [lia | reflexivity | vm_compute; reflexivity]. }
  split; [exact (H1 Hne) | exact Hne].
Defined.

(** ** The decoded region *)

Lemma manchester_loop_wf (bits : bitrow) (len : Z) (fuel : nat) :
  forall (ipos : Z) (outbuf : bitbuffer_t) (n : Z),
  acc_wf outbuf n ->
  exists n', acc_wf (snd (manchester_loop fuel bits len ipos outbuf)) n'
             /\ n <= n' <= n + Z.of_nat fuel.
Proof.
  induction fuel as [|fuel IH]; intros ipos outbuf n Hwf.
  - exists n. split; [exact Hwf | lia].
  - cbn [manchester_loop]. destruct (ipos <? len).
    + destruct (bitrow_get_bit bits ipos =? bitrow_get_bit bits (ipos + 1)).
      * exists n. split; [exact Hwf | lia].
      * destruct (IH (ipos + 2) (bitbuffer_add_bit outbuf (bitrow_get_bit bits ipos)) (n + 1))
          as (n' & Hwf' & Hn').
        { apply bitbuffer_add_bit_wf; [exact Hwf | apply bitrow_get_bit_cases]. }
        exists n'. split; [exact Hwf' | lia].
    + exists n. split; [exact Hwf | lia].
Qed.

(** The decoded region that the decoder hands to [parse_msg] has bytes in
    range and a length that fits [uint16_t]. *)
Lemma cm921_packet_wf (b packet : bitbuffer_t) (man_errors : Z) :
  0 <= row_bits b 0 < 65536 ->
  cm921_packet b = Next (packet, man_errors) ->
  Forall is_byte (row_bytes packet 0) /\ 0 <= row_bits packet 0 < 65536.
Proof.
  intros Hbits Hp. unfold cm921_packet in Hp.
  destruct (cm921_bytes_returns b Hbits) as [E | (bytes & n & E & Hwf & Hmod & Hn)];
    rewrite E in Hp; [discriminate Hp|].
  destruct (cm921_footer_returns bytes n Hwf Hmod ltac:(lia)) as [E2 | (fi & E2 & Hfi & _)];
    rewrite E2 in Hp; [discriminate Hp|].
  injection Hp as Hp. unfold cm921_manchester, bitbuffer_manchester_decode in Hp.
  destruct Hwf as (_ & Hrb & Hn0 & _). rewrite Hrb in Hp.
  set (len := if negb (u32 (u32 fi - 24) =? 0) && (u32 (24 + u32 (u32 fi - 24) * 2) <? n)
              then u32 (24 + u32 (u32 fi - 24) * 2) else n) in Hp.
  assert (Hlen : len <= n).
  { subst len. destruct (negb (u32 (u32 fi - 24) =? 0)); cbn [andb]; [|lia].
    destruct (u32 (24 + u32 (u32 fi - 24) * 2) <? n) eqn:E3; [|lia].
    apply Z.ltb_lt in E3. lia. }
  destruct (manchester_loop_wf (row_bytes bytes 0) len (Z.to_nat len) 24 bitbuffer_zero 0)
    as (n' & Hwf' & Hn').
  { exact acc_wf_zero. }
  destruct (manchester_loop (Z.to_nat len) (row_bytes bytes 0) len 24 bitbuffer_zero)
    as [fpos packet0].
  injection Hp as <- _. cbn [snd] in Hwf'.
  destruct Hwf' as (_ & Hrb' & Hn0' & Hby' & _).
  split; [exact Hby' | lia].
Qed.

(** For every decoded region of the decoder the checksum stage accepts
    exactly when the bytes add up to 0 modulo 256. *)
Lemma cm921_decoded_region_checksum (b packet : bitbuffer_t) (man_errors : Z) :
  0 <= row_bits b 0 < 65536 ->
  cm921_packet b = Next (packet, man_errors) ->
  checksum_ok packet 0 = true
  <-> sum_bytes (row_prefix (row_bytes packet 0) 0 (Z.to_nat (row_bits packet 0 / 8)))
        mod 256 = 0.
Proof.
  intros Hbits Hp.
  destruct (cm921_packet_wf b packet man_errors Hbits Hp) as [Hby Hpb].
  rewrite checksum_ok_sum by assumption. apply Z.eqb_eq.
Qed.

(** A region whose bytes do not add up to 0 has at least one byte. *)
Lemma bad_sum_has_byte (bmsg : bitbuffer_t) :
  0 <= row_bits bmsg 0 ->
  sum_bytes (row_prefix (row_bytes bmsg 0) 0 (Z.to_nat (row_bits bmsg 0 / 8))) mod 256 <> 0 ->
  8 <= row_bits bmsg 0.
Proof.
  intros H0 Hsum.
  destruct (Z_lt_le_dec (row_bits bmsg 0) 8) as [Hlt | Hge]; [|exact Hge].
  exfalso. apply Hsum. rewrite Z.div_small by lia. reflexivity.
Qed.

(** ** A failed byte sum *)

(** C2, as stated, does not hold: a packet whose decoded region fails the
    byte sum is still handed to [decoder_output_data]. *)
Lemma cm921_bad_sum_still_emits :
  ~ (forall debug b packet man_errors,
       cm921_packet b = Next (packet, man_errors) ->
       sum_bytes (row_prefix (row_bytes packet 0) 0 (Z.to_nat (row_bits packet 0 / 8)))
         mod 256 <> 0 ->
       exists code, honeywell_cm921_decode debug b = Some (code, None)).
Proof.
  intros H.
  destruct (H false cm921_bad_sum_row
              (mk_bitbuffer 1 [8] [[0x01]]) 0
              ltac:(vm_compute; reflexivity) ltac:(vm_compute; discriminate))
    as [code Hd].
  vm_compute in Hd. discriminate Hd.
Qed.

(** C2, amended: a packet whose decoded region fails the byte sum is never
    interpreted.  When [_DEBUG] is not defined and the Manchester decoding
    has left errors, the packet is rejected before the checksum is looked at,
    with [DECODE_FAIL_SANITY] and no Reading.  In every other case the
    decoder emits a Reading and returns 1; the Reading holds the model and
    the packet text, followed in a [_DEBUG] build by the diagnostic fields of
    a message in which only [crc], the last byte of the region, is set. *)
Theorem cm921_bad_sum_emits_uninterpreted
        (debug : bool) (b packet : bitbuffer_t) (man_errors : Z) :
  0 <= row_bits b 0 < 65536 ->
  cm921_packet b = Next (packet, man_errors) ->
  sum_bytes (row_prefix (row_bytes packet 0) 0 (Z.to_nat (row_bits packet 0 / 8)))
    mod 256 <> 0 ->
  let base := [mk_field "model" "" (DATA_STRING "Honeywell CM921");
               mk_field "Packet" "" (DATA_STRING (hex packet 0))] in
  let crc_ := bitrow_get_byte (row_bytes packet 0) (u32 (row_bits packet 0 - 8)) in
  honeywell_cm921_decode debug b
  = if negb debug && negb (man_errors =? 0)
    then Some (DECODE_FAIL_SANITY, None)
    else Some (1, Some (if debug
                        then cm921_debug_fields (mk_message 0 0 [] 0 0 [] 0 [] crc_)
                                                man_errors base
                        else base)).
Proof.
  intros Hbits Hp Hsum base crc_.
  destruct (cm921_packet_wf b packet man_errors Hbits Hp) as [Hby Hpb].
  assert (H8 : 8 <= row_bits packet 0) by (apply bad_sum_has_byte; [lia | exact Hsum]).
  assert (Hrej : checksum_ok packet 0 = false).
  { rewrite checksum_ok_sum by assumption. apply Z.eqb_neq. exact Hsum. }
  unfold honeywell_cm921_decode. rewrite Hp.
  destruct (negb debug && negb (man_errors =? 0)); [reflexivity|].
  rewrite (parse_msg_rejects packet 0 H8 Hrej). reflexivity.
Qed.

Lemma cm921_bad_sum_emits_uninterpreted_witness :
  honeywell_cm921_decode false cm921_bad_sum_row
  = Some (1, Some [mk_field "model" "" (DATA_STRING "Honeywell CM921");
                   mk_field "Packet" "" (DATA_STRING "01")]).
Proof.
  apply (cm921_bad_sum_emits_uninterpreted false cm921_bad_sum_row
           (mk_bitbuffer 1 [8] [[0x01]]) 0).
  - change (0 <= 102 < 65536); lia.
  - vm_compute; reflexivity.
  - vm_compute; discriminate.
Defined.

(** The whole decoder on the row [cm921_setpoint_row], without [_DEBUG]. *)
Lemma cm921_decode_setpoint_row :
  honeywell_cm921_decode false cm921_setpoint_row
  = Some (1, Some [mk_field "model" "" (DATA_STRING "Honeywell CM921");
                   mk_field "Packet" "" (DATA_STRING "002309030109c403");
                   mk_field "Device IDs" "" (DATA_STRING "");
                   mk_field "zone" "" (DATA_INT 1);
                   mk_field "setpoint" "" (DATA_DOUBLE 25)]).
Proof. vm_compute; reflexivity. Qed.

(** * Further properties of the decoders *)

(** ** Bits of a row *)

Lemma bitrow_get_bit_alt (bits : bitrow) (p : Z) :
  0 <= p ->
  bitrow_get_bit bits p = Z.land (Z.shiftr (byte_at bits (p / 8)) (7 - p mod 8)) 1.
Proof.
  intros Hp. unfold bitrow_get_bit.
  rewrite (Z.shiftr_div_pow2 p 3) by lia. change (2 ^ 3) with 8.
  replace (Z.land p 7) with (p mod 8); [reflexivity|].
  change 7 with (Z.ones 3). rewrite Z.land_ones by lia. reflexivity.
Qed.

(** The eight data bits of [get_byte] spell the byte most significant bit
    first. *)
Lemma get_byte_bits_value (bits : bitrow) (pos : Z) :
  get_byte_bits 8 bits pos 0 = be_value 8 bits pos.
Proof.
  cbn [get_byte_bits be_value].
  repeat match goal with
  | |- context [bitrow_get_bit bits ?q] =>
      let x := fresh "x" in
      let Hx := fresh "Hx" in
      pose proof (bitrow_get_bit_cases bits q) as Hx;
      set (x := bitrow_get_bit bits q) in *; clearbody x
  end.
  repeat match goal with
  | H : _ = 0 \/ _ = 1 |- _ => destruct H as [-> | ->]
  end; reflexivity.
Qed.

(** X1.  [get_byte] returns 10 exactly for a good frame, with the byte that
    the eight data bits spell; otherwise it returns the length abort or the
    sanity failure.  A frame whose stop bit is the last bit before [end_] is
    not accepted. *)
Theorem get_byte_accepts_good_frames (b : bitbuffer_t) (row pos end_ : Z) :
  exists code out,
    get_byte 2 b row pos end_ = Some (code, out)
    /\ (code = 10 <-> good_frame (row_bytes b row) pos end_)
    /\ (code = 10 -> out = be_value 8 (row_bytes b row) (pos + 1))
    /\ (code <> 10 -> code = DECODE_ABORT_LENGTH \/ code = DECODE_FAIL_SANITY).
Proof.
  unfold get_byte, good_frame. cbn [get_byte_loop].
  assert (E1 : (pos <? pos + 10) = true) by (apply Z.ltb_lt; lia).
  assert (E2 : (pos + 1 + 8 + 1 <? pos + 10) = false) by (apply Z.ltb_ge; lia).
  rewrite E1, E2. rewrite get_byte_bits_value.
  replace (pos + 1 + 8) with (pos + 9) by lia.
  replace (pos + 9 + 1) with (pos + 10) by lia.
  destruct (bitrow_get_bit_cases (row_bytes b row) pos) as [B0 | B0];
  destruct (bitrow_get_bit_cases (row_bytes b row) (pos + 9)) as [B9 | B9];
  rewrite B0, B9; cbn [Z.eqb negb];
  destruct (pos >=? end_) eqn:C1; destruct (pos + 9 >=? end_) eqn:C2;
  destruct (pos + 10 >=? end_) eqn:C3;
  eexists _, _; (split; [reflexivity|]);
  unfold DECODE_ABORT_LENGTH, DECODE_FAIL_SANITY;
  repeat split; try (intros; lia); try (intros; discriminate); try tauto;
  try (intros; reflexivity); try (intros [? [? ?]]; lia).
Qed.

(** ** [bitbuffer_add_bit] bit by bit *)

Lemma shifted_bit_test (bit s t : Z) :
  bit = 0 \/ bit = 1 -> 0 <= s < 8 -> 0 <= t < 8 ->
  Z.land (Z.shiftr (Z.shiftl bit s) t) 1 = if s =? t then bit else 0.
Proof.
  intros Hb Hs Ht. revert t Ht. pattern s. revert s Hs.
  refine (Z_range_cases _ 8 _). intros i Hi.
  refine (Z_range_cases _ 8 _). intros j Hj.
  pose (f := fun (b : Z) (i j : nat) =>
    Z.land (Z.shiftr (Z.shiftl b (Z.of_nat i)) (Z.of_nat j)) 1
    =? (if Z.of_nat i =? Z.of_nat j then b else 0)).
  assert (Hall : forallb (fun i => forallb (fun j => f 0 i j && f 1 i j) (seq 0 8)) (seq 0 8)
                 = true) by (vm_compute; reflexivity).
  pose proof (forallb_seq _ _ (forallb_seq _ _ Hall i Hi) j Hj) as H.
  apply andb_prop in H. destruct H as [H0 H1].
  destruct Hb as [-> | ->]; apply Z.eqb_eq; assumption.
Qed.

Lemma acc_ok_zero : acc_ok bitbuffer_zero 0.
Proof.
  split; [exact acc_wf_zero|]. intros p Hp. unfold bitrow_get_bit, byte_at.
  change (row_bytes bitbuffer_zero 0) with (@nil Z).
  assert (E : forall i, nth i (@nil Z) 0 = 0) by (intros [|i]; reflexivity).
  rewrite E, Z.shiftr_0_l. reflexivity.
Qed.

(** One call of [bitbuffer_add_bit] sets bit [n] and leaves the others. *)
Lemma bitbuffer_add_bit_get_bit (b : bitbuffer_t) (n bit : Z) :
  acc_ok b n -> bit = 0 \/ bit = 1 ->
  forall p, 0 <= p ->
    bitrow_get_bit (row_bytes (bitbuffer_add_bit b bit) 0) p
    = if p =? n then bit else bitrow_get_bit (row_bytes b 0) p.
Proof.
  intros [Hwf Hclean] Hbit p Hp.
  destruct Hwf as (Hr & Hn & Hn0 & Hby & Hlen).
  destruct (bitbuffer_add_bit_row0 b bit Hr) as (_ & _ & R3).
  rewrite R3, Hn. rewrite !bitrow_get_bit_alt by assumption.
  assert (Hm : 0 <= n mod 8 < 8) by (apply Z.mod_pos_bound; lia).
  assert (Hpm : 0 <= p mod 8 < 8) by (apply Z.mod_pos_bound; lia).
  assert (Hq : 0 <= n / 8) by (apply Z.div_pos; lia).
  assert (Hpq : 0 <= p / 8) by (apply Z.div_pos; lia).
  pose proof (Z.div_mod n 8 ltac:(lia)) as Hdn.
  pose proof (Z.div_mod p 8 ltac:(lia)) as Hdp.
  destruct (Z.eq_dec (p / 8) (n / 8)) as [Eq | Ne].
  - rewrite Eq, byte_at_set_byte_eq.
    rewrite Z.shiftr_lor, Z.land_lor_distr_l.
    rewrite (shifted_bit_test bit (7 - n mod 8) (7 - p mod 8) Hbit) by lia.
    destruct (p =? n) eqn:Epn.
    + apply Z.eqb_eq in Epn. subst p.
      pose proof (Hclean n ltac:(lia)) as Hc.
      rewrite bitrow_get_bit_alt in Hc by assumption. rewrite Hc.
      rewrite Z.eqb_refl. apply Z.lor_0_l.
    + apply Z.eqb_neq in Epn.
      assert (E : (7 - n mod 8 =? 7 - p mod 8) = false) by (apply Z.eqb_neq; lia).
      rewrite E. apply Z.lor_0_r.
  - rewrite byte_at_set_byte_neq by lia.
    assert (E : (p =? n) = false) by (apply Z.eqb_neq; intros ->; apply Ne; reflexivity).
    rewrite E. reflexivity.
Qed.

Lemma bitbuffer_add_bit_ok (b : bitbuffer_t) (n bit : Z) :
  acc_ok b n -> bit = 0 \/ bit = 1 -> acc_ok (bitbuffer_add_bit b bit) (n + 1).
Proof.
  intros Hok Hbit. split.
  - apply bitbuffer_add_bit_wf; [apply Hok | exact Hbit].
  - intros p Hp. destruct Hok as [Hwf Hclean].
    assert (Hn0 : 0 <= n) by (destruct Hwf as (_ & _ & H & _); exact H).
    rewrite (bitbuffer_add_bit_get_bit b n bit (conj Hwf Hclean) Hbit) by lia.
    assert (E : (p =? n) = false) by (apply Z.eqb_neq; lia).
    rewrite E. apply Hclean. lia.
Qed.

(** The eight calls for one byte append its bits, least significant first. *)
Lemma add_byte_bits_get_bit (k : nat) (byte : Z) :
  forall (i : Z) (b : bitbuffer_t) (n : Z),
  acc_ok b n ->
  acc_ok (add_byte_bits k i byte b) (n + Z.of_nat k)
  /\ forall p, 0 <= p ->
       bitrow_get_bit (row_bytes (add_byte_bits k i byte b) 0) p
       = if (n <=? p) && (p <? n + Z.of_nat k)
         then Z.land (Z.shiftr byte (i + (p - n))) 1
         else bitrow_get_bit (row_bytes b 0) p.
Proof.
  induction k as [|k IH]; intros i b n Hok.
  - cbn [add_byte_bits]. change (Z.of_nat 0) with 0. rewrite Z.add_0_r.
    split; [exact Hok|].
    intros p Hp. destruct (n <=? p) eqn:E1; cbn [andb]; [|reflexivity].
    assert (E2 : (p <? n) = false) by (apply Z.ltb_ge; apply Z.leb_le in E1; lia).
    rewrite E2. reflexivity.
  - cbn [add_byte_bits].
    assert (Hbit : Z.land (Z.shiftr byte i) 1 = 0 \/ Z.land (Z.shiftr byte i) 1 = 1)
      by apply land_1_cases.
    pose proof (bitbuffer_add_bit_ok b n _ Hok Hbit) as Hok1.
    destruct (IH (i + 1) _ (n + 1) Hok1) as [Hok2 Hget].
    assert (Hn0 : 0 <= n) by (destruct Hok as [(_ & _ & H & _) _]; exact H).
    split.
    + replace (n + Z.of_nat (S k)) with (n + 1 + Z.of_nat k) by lia. exact Hok2.
    + intros p Hp. rewrite Hget by assumption.
      rewrite (bitbuffer_add_bit_get_bit b n _ Hok Hbit) by assumption.
      destruct (Z.eq_dec p n) as [-> | Hne].
      * rewrite Z.eqb_refl.
        assert (E1 : ((n + 1 <=? n) && (n <? n + 1 + Z.of_nat k)) = false)
          by (apply andb_false_intro1; apply Z.leb_gt; lia).
        assert (E2 : ((n <=? n) && (n <? n + Z.of_nat (S k))) = true).
        { apply andb_true_intro. split; [apply Z.leb_le | apply Z.ltb_lt]; lia. }
        rewrite E1, E2. f_equal. f_equal. lia.
      * assert (E : (p =? n) = false) by (apply Z.eqb_neq; exact Hne). rewrite E.
        destruct ((n <=? p) && (p <? n + Z.of_nat (S k))) eqn:E3.
        -- apply andb_prop in E3. destruct E3 as [E3 E4].
           apply Z.leb_le in E3. apply Z.ltb_lt in E4.
           assert (E5 : ((n + 1 <=? p) && (p <? n + 1 + Z.of_nat k)) = true).
           { apply andb_true_intro. split; [apply Z.leb_le | apply Z.ltb_lt]; lia. }
           rewrite E5. f_equal. f_equal. lia.
        -- assert (E5 : ((n + 1 <=? p) && (p <? n + 1 + Z.of_nat k)) = false).
           { apply andb_false_iff. apply andb_false_iff in E3.
             destruct E3 as [E3 | E3]; [left; apply Z.leb_gt; apply Z.leb_gt in E3; lia
                                       | right; apply Z.ltb_ge; apply Z.ltb_ge in E3; lia]. }
           rewrite E5. reflexivity.
Qed.

(** ** Frame stripping *)

Lemma get_byte_good (b : bitbuffer_t) (row pos end_ : Z) :
  good_frame (row_bytes b row) pos end_ ->
  get_byte 2 b row pos end_ = Some (10, be_value 8 (row_bytes b row) (pos + 1)).
Proof.
  intros (Hend & B0 & B9). unfold get_byte. cbn [get_byte_loop].
  assert (E1 : (pos <? pos + 10) = true) by (apply Z.ltb_lt; lia).
  assert (E2 : (pos + 1 + 8 + 1 <? pos + 10) = false) by (apply Z.ltb_ge; lia).
  rewrite E1, E2, get_byte_bits_value.
  replace (pos + 1 + 8) with (pos + 9) by lia.
  replace (pos + 9 + 1) with (pos + 10) by lia.
  rewrite B0, B9. cbn [Z.eqb negb].
  assert (C1 : (pos >=? end_) = false) by (rewrite Z.geb_leb; apply Z.leb_gt; lia).
  assert (C2 : (pos + 9 >=? end_) = false) by (rewrite Z.geb_leb; apply Z.leb_gt; lia).
  assert (C3 : (pos + 10 >=? end_) = false) by (rewrite Z.geb_leb; apply Z.leb_gt; lia).
  rewrite C1, C2, C3. reflexivity.
Qed.

Lemma get_byte_bad (b : bitbuffer_t) (row pos end_ : Z) :
  ~ good_frame (row_bytes b row) pos end_ ->
  exists code out, get_byte 2 b row pos end_ = Some (code, out) /\ code <> 10.
Proof.
  intros Hbad. unfold get_byte, good_frame in *. cbn [get_byte_loop].
  assert (E1 : (pos <? pos + 10) = true) by (apply Z.ltb_lt; lia).
  assert (E2 : (pos + 1 + 8 + 1 <? pos + 10) = false) by (apply Z.ltb_ge; lia).
  rewrite E1, E2.
  replace (pos + 1 + 8) with (pos + 9) by lia.
  replace (pos + 9 + 1) with (pos + 10) by lia.
  destruct (bitrow_get_bit_cases (row_bytes b row) pos) as [B0 | B0];
  destruct (bitrow_get_bit_cases (row_bytes b row) (pos + 9)) as [B9 | B9];
  rewrite B0, B9 in *; cbn [Z.eqb negb];
  destruct (pos >=? end_) eqn:C1; destruct (pos + 9 >=? end_) eqn:C2;
  destruct (pos + 10 >=? end_) eqn:C3;
  eexists _, _; (split; [reflexivity|]);
  unfold DECODE_ABORT_LENGTH, DECODE_FAIL_SANITY; lia.
Qed.

(** Bit [j] of the byte that [get_byte] reads is the data bit [7 - j]. *)
Lemma be_value_bit (bits : bitrow) (q j : Z) :
  0 <= j < 8 ->
  Z.land (Z.shiftr (be_value 8 bits q) j) 1 = bitrow_get_bit bits (q + 7 - j).
Proof.
  intros Hj.
  assert (Hc : j = 0 \/ j = 1 \/ j = 2 \/ j = 3 \/ j = 4 \/ j = 5 \/ j = 6 \/ j = 7) by lia.
  cbn [be_value].
  repeat (destruct Hc as [-> | Hc]); try subst j;
  match goal with
  | |- _ = bitrow_get_bit bits ?e =>
      first [ replace e with q by lia
            | replace e with (q + 1) by lia
            | replace e with (q + 1 + 1) by lia
            | replace e with (q + 1 + 1 + 1) by lia
            | replace e with (q + 1 + 1 + 1 + 1) by lia
            | replace e with (q + 1 + 1 + 1 + 1 + 1) by lia
            | replace e with (q + 1 + 1 + 1 + 1 + 1 + 1) by lia
            | replace e with (q + 1 + 1 + 1 + 1 + 1 + 1 + 1) by lia ]
  end;
  repeat match goal with
  | |- context [bitrow_get_bit bits ?q] =>
      let x := fresh "x" in
      let Hx := fresh "Hx" in
      pose proof (bitrow_get_bit_cases bits q) as Hx;
      set (x := bitrow_get_bit bits q) in *; clearbody x
  end;
  repeat match goal with
  | H : _ = 0 \/ _ = 1 |- _ => destruct H as [-> | ->]
  end; reflexivity.
Qed.

(** [k] good frames followed by a bad one: the loop appends the [8 * k] data
    bits, each frame's bits in reverse order. *)
Lemma strip_loop_frames (b : bitbuffer_t) (row end_ : Z) (k : nat) :
  forall (fuel : nat) (pos : Z) (bytes : bitbuffer_t) (n : Z),
  acc_ok bytes n -> (k < fuel)%nat ->
  (forall j, 0 <= j < Z.of_nat k -> good_frame (row_bytes b row) (pos + 10 * j) end_) ->
  ~ good_frame (row_bytes b row) (pos + 10 * Z.of_nat k) end_ ->
  exists out,
    strip_loop fuel b row pos end_ bytes = Some out
    /\ acc_ok out (n + 8 * Z.of_nat k)
    /\ forall p, 0 <= p ->
         bitrow_get_bit (row_bytes out 0) p
         = if (n <=? p) && (p <? n + 8 * Z.of_nat k)
           then bitrow_get_bit (row_bytes b row) (pos + 10 * ((p - n) / 8) + 8 - (p - n) mod 8)
           else bitrow_get_bit (row_bytes bytes 0) p.
Proof.
  induction k as [|k IH]; intros fuel pos bytes n Hok Hfuel Hgood Hbad.
  - destruct fuel as [|fuel]; [lia|]. cbn [strip_loop].
    change (Z.of_nat 0) with 0 in *. rewrite Z.mul_0_r, Z.add_0_r in *.
    assert (Hres : forall p, 0 <= p ->
              bitrow_get_bit (row_bytes bytes 0) p
              = if (n <=? p) && (p <? n)
                then bitrow_get_bit (row_bytes b row) (pos + 10 * ((p - n) / 8) + 8 - (p - n) mod 8)
                else bitrow_get_bit (row_bytes bytes 0) p).
    { intros p Hp. destruct (n <=? p) eqn:E1; cbn [andb]; [|reflexivity].
      assert (E2 : (p <? n) = false) by (apply Z.ltb_ge; apply Z.leb_le in E1; lia).
      rewrite E2. reflexivity. }
    destruct (pos <? end_).
    + destruct (get_byte_bad b row pos end_ Hbad) as (code & out & Hg & Hne).
      rewrite Hg. assert (E : (code =? 10) = false) by (apply Z.eqb_neq; exact Hne).
      rewrite E. cbn [negb]. exists bytes. split; [reflexivity|]. split; assumption.
    + exists bytes. split; [reflexivity|]. split; assumption.
  - destruct fuel as [|fuel]; [lia|]. cbn [strip_loop].
    pose proof (Hgood 0 ltac:(lia)) as Hg0. rewrite Z.mul_0_r, Z.add_0_r in Hg0.
    assert (E : (pos <? end_) = true) by (apply Z.ltb_lt; destruct Hg0; lia).
    rewrite E, (get_byte_good b row pos end_ Hg0). cbn [Z.eqb Pos.eqb negb].
    set (byte := be_value 8 (row_bytes b row) (pos + 1)).
    destruct (add_byte_bits_get_bit 8 byte 0 bytes n Hok) as [Hok1 Hget1].
    change (Z.of_nat 8) with 8 in *.
    destruct (IH fuel (pos + 10) (add_byte_bits 8 0 byte bytes) (n + 8) Hok1)
      as (out & Hs & Hok2 & Hget2).
    + lia.
    + intros j Hj. replace (pos + 10 + 10 * j) with (pos + 10 * (j + 1)) by lia.
      apply Hgood. lia.
    + replace (pos + 10 + 10 * Z.of_nat k) with (pos + 10 * Z.of_nat (S k)) by lia.
      exact Hbad.
    + exists out. split; [exact Hs|]. split.
      * replace (n + 8 * Z.of_nat (S k)) with (n + 8 + 8 * Z.of_nat k) by lia. exact Hok2.
      * intros p Hp. rewrite Hget2 by assumption.
        assert (Hn0 : 0 <= n) by (destruct Hok as [(_ & _ & H & _) _]; exact H).
        destruct (Z_lt_le_dec p n) as [Hlt | Hge].
        { assert (E1 : ((n + 8 <=? p) && (p <? n + 8 + 8 * Z.of_nat k)) = false)
            by (apply andb_false_intro1; apply Z.leb_gt; lia).
          assert (E2 : ((n <=? p) && (p <? n + 8 * Z.of_nat (S k))) = false)
            by (apply andb_false_intro1; apply Z.leb_gt; lia).
          rewrite E1, E2, Hget1 by assumption.
          assert (E3 : ((n <=? p) && (p <? n + 8)) = false)
            by (apply andb_false_intro1; apply Z.leb_gt; lia).
          rewrite E3. reflexivity. }
        destruct (Z_lt_le_dec p (n + 8)) as [Hlt8 | Hge8].
        { assert (E1 : ((n + 8 <=? p) && (p <? n + 8 + 8 * Z.of_nat k)) = false)
            by (apply andb_false_intro1; apply Z.leb_gt; lia).
          assert (E2 : ((n <=? p) && (p <? n + 8 * Z.of_nat (S k))) = true).
          { apply andb_true_intro. split; [apply Z.leb_le | apply Z.ltb_lt]; lia. }
          rewrite E1, E2, Hget1 by assumption.
          assert (E3 : ((n <=? p) && (p <? n + 8)) = true).
          { apply andb_true_intro. split; [apply Z.leb_le | apply Z.ltb_lt]; lia. }
          rewrite E3. unfold byte. rewrite be_value_bit by lia.
          f_equal. rewrite Z.div_small, Z.mod_small by lia. lia. }
        destruct (Z_lt_le_dec p (n + 8 * Z.of_nat (S k))) as [Hin | Hout].
        { assert (E1 : ((n + 8 <=? p) && (p <? n + 8 + 8 * Z.of_nat k)) = true).
          { apply andb_true_intro. split; [apply Z.leb_le | apply Z.ltb_lt]; lia. }
          assert (E2 : ((n <=? p) && (p <? n + 8 * Z.of_nat (S k))) = true).
          { apply andb_true_intro. split; [apply Z.leb_le | apply Z.ltb_lt]; lia. }
          rewrite E1, E2. f_equal.
          replace (p - n) with (p - (n + 8) + 1 * 8) by lia.
          rewrite Z.div_add, Z.mod_add by lia. lia. }
        { assert (E1 : ((n + 8 <=? p) && (p <? n + 8 + 8 * Z.of_nat k)) = false)
            by (apply andb_false_intro2; apply Z.ltb_ge; lia).
          assert (E2 : ((n <=? p) && (p <? n + 8 * Z.of_nat (S k))) = false)
            by (apply andb_false_intro2; apply Z.ltb_ge; lia).
          rewrite E1, E2, Hget1 by assumption.
          assert (E3 : ((n <=? p) && (p <? n + 8)) = false)
            by (apply andb_false_intro2; apply Z.ltb_ge; lia).
          rewrite E3. reflexivity. }
Qed.

(** X2.  In [honeywell_cm921_decode], when the [k] frames after the preamble
    are good and the next one is not, the re-assembled [bytes] hold exactly
    [8 * k] bits, and bit [p] of them is data bit [7 - p mod 8] of frame
    [p / 8]: every byte is stored with its bits in reverse order, and the
    start and stop bits are gone. *)
Theorem cm921_bytes_reverses_frames (bitbuffer : bitbuffer_t) (k : nat) :
  num_rows bitbuffer = 1 ->
  60 <= row_bits bitbuffer 0 ->
  cm921_start bitbuffer + 8 <= row_bits bitbuffer 0 ->
  (forall j, 0 <= j < Z.of_nat k ->
     good_frame (row_bytes bitbuffer 0) (cm921_start bitbuffer + 10 * j)
                (row_bits bitbuffer 0)) ->
  ~ good_frame (row_bytes bitbuffer 0) (cm921_start bitbuffer + 10 * Z.of_nat k)
               (row_bits bitbuffer 0) ->
  exists bytes,
    cm921_bytes bitbuffer = Next bytes
    /\ row_bits bytes 0 = 8 * Z.of_nat k
    /\ forall p, 0 <= p < 8 * Z.of_nat k ->
         bitrow_get_bit (row_bytes bytes 0) p
         = bitrow_get_bit (row_bytes bitbuffer 0)
             (cm921_start bitbuffer + 10 * (p / 8) + 8 - p mod 8).
Proof.
  intros Hrows Hbits Hlen Hgood Hbad. unfold cm921_bytes.
  fold (cm921_start bitbuffer). set (start := cm921_start bitbuffer) in *.
  assert (E1 : (negb (num_rows bitbuffer =? 1) || (row_bits bitbuffer 0 <? 60)) = false).
  { rewrite Hrows. cbn. apply Z.ltb_ge. lia. }
  assert (E2 : (row_bits bitbuffer 0 - start <? 8) = false) by (apply Z.ltb_ge; lia).
  rewrite E1, E2.
  replace (start + (row_bits bitbuffer 0 - start)) with (row_bits bitbuffer 0) by lia.
  assert (Hk : 10 * Z.of_nat k <= row_bits bitbuffer 0 - start).
  { destruct k as [|k]; [cbn; lia|].
    destruct (Hgood (Z.of_nat k) ltac:(lia)) as [H _]. lia. }
  destruct (strip_loop_frames bitbuffer 0 (row_bits bitbuffer 0) k
              (S (Z.to_nat (row_bits bitbuffer 0 - start))) start bitbuffer_zero 0
              acc_ok_zero ltac:(lia) Hgood Hbad) as (out & Hs & Hok & Hget).
  rewrite Hs. exists out. split; [reflexivity|]. split.
  - destruct Hok as [(_ & Hn & _) _]. exact Hn.
  - intros p Hp. rewrite Hget by lia.
    assert (E : ((0 <=? p) && (p <? 0 + 8 * Z.of_nat k)) = true).
    { apply andb_true_intro. split; [apply Z.leb_le | apply Z.ltb_lt]; lia. }
    rewrite E, Z.sub_0_r. reflexivity.
Qed.

Lemma cm921_bytes_reverses_frames_witness :
  exists bytes,
    cm921_bytes cm921_sample_row = Next bytes
    /\ row_bits bytes 0 = 8 * Z.of_nat 27
    /\ forall p, 0 <= p < 8 * Z.of_nat 27 ->
         bitrow_get_bit (row_bytes bytes 0) p
         = bitrow_get_bit (row_bytes cm921_sample_row 0)
             (cm921_start cm921_sample_row + 10 * (p / 8) + 8 - p mod 8).
Proof.
  apply (cm921_bytes_reverses_frames cm921_sample_row 27).
  - reflexivity.
  - change (60 <= 302). lia.
  - vm_compute. discriminate.
  - refine (Z_range_cases _ 27 _). intros i Hi.
    do 27 (destruct i as [|i]; [vm_compute; repeat split|]). lia.
  - vm_compute. intros (H1 & _). discriminate H1.
Defined.

(** ** The footer *)

Section FooterSkip.

Variable bits : bitrow.
Hypothesis Hby : Forall is_byte bits.
Hypothesis H53 : byte_at bits 2 = 0x53.

(** The footer scan steps over bytes 55 only. *)
Lemma footer_loop_skips (fuel : nat) :
  forall (k seen : Z),
  2 <= k -> k * 8 < 4294967296 -> (Z.to_nat (k - 2) < fuel)%nat ->
  exists k' seen',
    footer_loop fuel bits (k * 8) seen = Some (k' * 8, seen')
    /\ 2 <= k' <= k
    /\ ((k' = k /\ seen' = seen) \/ (k' < k /\ seen' = 1))
    /\ byte_at bits k' <> 0x55
    /\ forall j, k' < j <= k -> byte_at bits j = 0x55.
Proof.
  induction fuel as [|fuel IH]; intros k seen Hk Hmax Hfuel; [lia|].
  cbn [footer_loop].
  assert (Hu : u32 (k * 8) = k * 8) by u32_small.
  rewrite Hu, bitrow_get_byte_aligned by (assumption || lia).
  destruct (byte_at bits k =? 0x55) eqn:E.
  - apply Z.eqb_eq in E.
    assert (Hk3 : 3 <= k).
    { destruct (Z.eq_dec k 2) as [->|]; [rewrite H53 in E; discriminate E | lia]. }
    replace (k * 8 - 8) with ((k - 1) * 8) by lia.
    destruct (IH (k - 1) 1) as (k' & seen' & Hf & Hk' & Hseen & Hne & Hall); try lia.
    exists k', seen'. split; [exact Hf|]. split; [lia|]. split; [lia|].
    split; [exact Hne|]. intros j Hj.
    destruct (Z.eq_dec j k) as [-> | Hjk]; [exact E | apply Hall; lia].
  - apply Z.eqb_neq in E. exists k, seen. split; [reflexivity|]. split; [lia|].
    split; [left; split; reflexivity|]. split; [exact E|]. intros j Hj. lia.
Qed.

End FooterSkip.

(** After the header test, the footer scan stops at a byte that is not 55,
    with nothing but 55 behind it, and the footer test is made on that
    byte. *)
Lemma cm921_footer_scan (bytes : bitbuffer_t) (n : Z) :
  acc_wf bytes n -> n mod 8 = 0 -> n < 4294967296 ->
  byte_at (row_bytes bytes 0) 0 = 0x33 -> byte_at (row_bytes bytes 0) 1 = 0x55 ->
  byte_at (row_bytes bytes 0) 2 = 0x53 ->
  exists k' seen',
    cm921_footer bytes
    = (if (seen' =? 0) || negb (byte_at (row_bytes bytes 0) k' =? 0x35)
       then Return DECODE_FAIL_SANITY else Next (k' * 8))
    /\ 2 <= k' <= n / 8 - 1
    /\ ((k' = n / 8 - 1 /\ seen' = 0) \/ (k' < n / 8 - 1 /\ seen' = 1))
    /\ byte_at (row_bytes bytes 0) k' <> 0x55
    /\ forall j, k' < j <= n / 8 - 1 -> byte_at (row_bytes bytes 0) j = 0x55.
Proof.
  intros Hwf Hmod Hmax E0 E1 E2.
  pose proof Hwf as (Hr & Hn & Hn0 & Hby & Hlen).
  pose proof (Z.div_mod n 8 ltac:(lia)) as Hdm. rewrite Hmod, Z.add_0_r in Hdm.
  unfold cm921_footer.
  pose proof (bitrow_get_byte_aligned (row_bytes bytes 0) 0 Hby ltac:(lia)) as B0.
  pose proof (bitrow_get_byte_aligned (row_bytes bytes 0) 1 Hby ltac:(lia)) as B1.
  pose proof (bitrow_get_byte_aligned (row_bytes bytes 0) 2 Hby ltac:(lia)) as B2.
  change (0 * 8) with 0 in B0. change (1 * 8) with 8 in B1. change (2 * 8) with 16 in B2.
  rewrite B0, B1, B2, E0, E1, E2. cbn [Z.eqb Pos.eqb negb orb].
  assert (Hlen3 : (3 <= List.length (row_bytes bytes 0))%nat).
  { destruct (Nat.lt_ge_cases (List.length (row_bytes bytes 0)) 3) as [Hlt|]; [|assumption].
    unfold byte_at in E2. rewrite nth_overflow in E2; [discriminate E2|].
    change (Z.to_nat 2) with 2%nat. lia. }
  rewrite Hn. replace (n - 8) with ((n / 8 - 1) * 8) by lia.
  destruct (footer_loop_skips (row_bytes bytes 0) Hby E2 (S (Z.to_nat n)) (n / 8 - 1) 0)
    as (k' & seen' & Hf & Hk' & Hseen & Hne & Hall); try lia.
  rewrite Hf.
  assert (Hu : u32 (k' * 8) = k' * 8) by u32_small.
  rewrite Hu, bitrow_get_byte_aligned by (assumption || lia).
  exists k', seen'. split; [reflexivity|]. split; [exact Hk'|]. split; [exact Hseen|].
  split; [exact Hne | exact Hall].
Qed.

(** The framed shape passes the header test and the footer scan. *)
Lemma cm921_footer_of_framed (bytes : bitbuffer_t) (n k : Z) :
  acc_wf bytes n -> n mod 8 = 0 -> n < 4294967296 ->
  cm921_framed (row_bytes bytes 0) n k -> cm921_footer bytes = Next (k * 8).
Proof.
  intros Hwf Hmod Hmax (E0 & E1 & E2 & Hk & E35 & H55).
  destruct (cm921_footer_scan bytes n Hwf Hmod Hmax E0 E1 E2)
    as (k' & seen' & Hf & Hk' & Hseen & Hne & Hall).
  assert (Hkk : k' = k).
  { destruct (Z.lt_total k' k) as [Hlt | [Heq | Hgt]]; [|exact Heq|].
    - rewrite (Hall k ltac:(lia)) in E35. discriminate E35.
    - exfalso. apply Hne. apply H55. lia. }
  subst k'. rewrite Hf.
  assert (Es : (seen' =? 0) = false) by (apply Z.eqb_neq; lia).
  assert (E35' : (byte_at (row_bytes bytes 0) k =? 53) = true) by (apply Z.eqb_eq; exact E35).
  rewrite Es, E35'. reflexivity.
Qed.

(** X3.  The header test and the footer scan of [honeywell_cm921_decode] go
    on with footer offset [fi] exactly when the re-assembled bytes are the
    header 33 55 53, then anything, then 35 at bit [fi], then one or more 55
    up to the end. *)
Theorem cm921_footer_accepts_framed (bytes : bitbuffer_t) (n fi : Z) :
  acc_wf bytes n -> n mod 8 = 0 -> n < 4294967296 ->
  (cm921_footer bytes = Next fi
   <-> exists k, fi = k * 8 /\ cm921_framed (row_bytes bytes 0) n k).
Proof.
  intros Hwf Hmod Hmax. split.
  - intros Hnext.
    pose proof Hwf as (_ & _ & _ & Hby & _).
    pose proof (bitrow_get_byte_aligned (row_bytes bytes 0) 0 Hby ltac:(lia)) as B0.
    pose proof (bitrow_get_byte_aligned (row_bytes bytes 0) 1 Hby ltac:(lia)) as B1.
    pose proof (bitrow_get_byte_aligned (row_bytes bytes 0) 2 Hby ltac:(lia)) as B2.
    change (0 * 8) with 0 in B0. change (1 * 8) with 8 in B1. change (2 * 8) with 16 in B2.
    assert (Hhdr : byte_at (row_bytes bytes 0) 0 = 0x33
                   /\ byte_at (row_bytes bytes 0) 1 = 0x55
                   /\ byte_at (row_bytes bytes 0) 2 = 0x53).
    { unfold cm921_footer in Hnext. rewrite B0, B1, B2 in Hnext.
      destruct (byte_at (row_bytes bytes 0) 0 =? 51) eqn:E0; cbn [negb orb] in Hnext;
        [|discriminate Hnext].
      destruct (byte_at (row_bytes bytes 0) 1 =? 85) eqn:E1; cbn [negb orb] in Hnext;
        [|discriminate Hnext].
      destruct (byte_at (row_bytes bytes 0) 2 =? 83) eqn:E2; cbn [negb orb] in Hnext;
        [|discriminate Hnext].
      apply Z.eqb_eq in E0. apply Z.eqb_eq in E1. apply Z.eqb_eq in E2. auto. }
    destruct Hhdr as (E0 & E1 & E2).
    destruct (cm921_footer_scan bytes n Hwf Hmod Hmax E0 E1 E2)
      as (k' & seen' & Hf & Hk' & Hseen & Hne & Hall).
    rewrite Hf in Hnext.
    destruct (seen' =? 0) eqn:Es; cbn [orb] in Hnext; [discriminate Hnext|].
    destruct (byte_at (row_bytes bytes 0) k' =? 53) eqn:E35; cbn [negb] in Hnext;
      [|discriminate Hnext].
    injection Hnext as <-. apply Z.eqb_eq in E35. apply Z.eqb_neq in Es.
    exists k'. split; [reflexivity|].
    assert (Hk3 : 3 <= k').
    { destruct (Z.eq_dec k' 2) as [->|]; [rewrite E2 in E35; discriminate E35 | lia]. }
    unfold cm921_framed. repeat split; try assumption; try lia.
    intros j Hj. apply Hall. lia.
  - intros (k & -> & Hframed). exact (cm921_footer_of_framed bytes n k Hwf Hmod Hmax Hframed).
Qed.

Lemma cm921_framed_bytes_wf : acc_wf cm921_framed_bytes 48.
Proof.
  unfold acc_wf. split; [right; reflexivity|]. split; [reflexivity|]. split; [lia|].
  split; [|cbn; lia].
  change (row_bytes cm921_framed_bytes 0) with [0x33; 0x55; 0x53; 0x99; 0x35; 0x55].
  repeat constructor; unfold is_byte; lia.
Qed.

Lemma cm921_footer_accepts_framed_witness :
  cm921_footer cm921_framed_bytes = Next 32
  <-> exists k, 32 = k * 8 /\ cm921_framed (row_bytes cm921_framed_bytes 0) 48 k.
Proof.
  apply (cm921_footer_accepts_framed cm921_framed_bytes 48 32).
  - exact cm921_framed_bytes_wf.
  - reflexivity.
  - lia.
Defined.

(** ** The Manchester code *)

(** Up to the first invalid pair, at [q], the decoding appends the first bit
    of every pair and returns the position after that pair. *)
Lemma manchester_loop_decodes (bits : bitrow) (len q : Z) (fuel : nat) :
  forall (ipos : Z) (outbuf : bitbuffer_t) (n : Z),
  acc_ok outbuf n -> ipos <= q -> (q - ipos) mod 2 = 0 -> q < len ->
  invalid_pair bits q ->
  (forall p, ipos <= p < q -> (p - ipos) mod 2 = 0 -> ~ invalid_pair bits p) ->
  (Z.to_nat (q - ipos) < fuel)%nat ->
  exists out,
    manchester_loop fuel bits len ipos outbuf = (q + 2, out)
    /\ acc_ok out (n + (q - ipos) / 2)
    /\ forall p, 0 <= p ->
         bitrow_get_bit (row_bytes out 0) p
         = if (n <=? p) && (p <? n + (q - ipos) / 2)
           then bitrow_get_bit bits (ipos + 2 * (p - n))
           else bitrow_get_bit (row_bytes outbuf 0) p.
Proof.
  induction fuel as [|fuel IH]; intros ipos outbuf n Hok Hle Hpar Hlen Hinv Hclean Hfuel;
    [lia|].
  cbn [manchester_loop].
  assert (E : (ipos <? len) = true) by (apply Z.ltb_lt; lia). rewrite E.
  assert (Hn0 : 0 <= n) by (destruct Hok as [(_ & _ & H & _) _]; exact H).
  destruct (Z.eq_dec ipos q) as [-> | Hne].
  - assert (Eb : (bitrow_get_bit bits q =? bitrow_get_bit bits (q + 1)) = true)
      by (apply Z.eqb_eq; exact Hinv).
    rewrite Eb. exists outbuf. split; [reflexivity|].
    rewrite Z.sub_diag. change (0 / 2) with 0. rewrite Z.add_0_r.
    split; [exact Hok|]. intros p Hp.
    destruct (n <=? p) eqn:E1; cbn [andb]; [|reflexivity].
    assert (E2 : (p <? n) = false) by (apply Z.ltb_ge; apply Z.leb_le in E1; lia).
    rewrite E2. reflexivity.
  - assert (Hstep : ipos + 2 <= q).
    { destruct (Z.eq_dec (ipos + 1) q) as [E1|E1]; [|lia].
      replace (q - ipos) with 1 in Hpar by lia. discriminate Hpar. }
    assert (Eb : (bitrow_get_bit bits ipos =? bitrow_get_bit bits (ipos + 1)) = false).
    { apply Z.eqb_neq. apply (Hclean ipos); [lia|]. rewrite Z.sub_diag. reflexivity. }
    rewrite Eb.
    assert (Hpar2 : (q - (ipos + 2)) mod 2 = 0).
    { replace (q - (ipos + 2)) with (q - ipos + (-1) * 2) by lia.
      rewrite Z.mod_add by lia. exact Hpar. }
    assert (Hhalf : (q - ipos) / 2 = (q - (ipos + 2)) / 2 + 1).
    { replace (q - ipos) with (q - (ipos + 2) + 1 * 2) by lia.
      rewrite Z.div_add by lia. reflexivity. }
    assert (Hpos : 0 <= (q - (ipos + 2)) / 2) by (apply Z.div_pos; lia).
    pose proof (bitrow_get_bit_cases bits ipos) as Hbit.
    pose proof (bitbuffer_add_bit_ok outbuf n _ Hok Hbit) as Hok1.
    destruct (IH (ipos + 2) (bitbuffer_add_bit outbuf (bitrow_get_bit bits ipos)) (n + 1)
                Hok1 Hstep Hpar2 Hlen Hinv) as (out & Hm & Hok2 & Hget).
    + intros p Hp Hpp. apply Hclean; [lia|].
      replace (p - ipos) with (p - (ipos + 2) + 1 * 2) by lia.
      rewrite Z.mod_add by lia. exact Hpp.
    + lia.
    + exists out. split; [exact Hm|]. rewrite Hhalf. split.
      * replace (n + ((q - (ipos + 2)) / 2 + 1)) with (n + 1 + (q - (ipos + 2)) / 2) by lia.
        exact Hok2.
      * intros p Hp. rewrite Hget by assumption.
        rewrite (bitbuffer_add_bit_get_bit outbuf n _ Hok Hbit) by assumption.
        set (h := (q - (ipos + 2)) / 2) in *.
        destruct (Z.eq_dec p n) as [-> | Hpn].
        { assert (E1 : ((n + 1 <=? n) && (n <? n + 1 + h)) = false)
            by (apply andb_false_intro1; apply Z.leb_gt; lia).
          assert (E2 : ((n <=? n) && (n <? n + (h + 1))) = true).
          { apply andb_true_intro. split; [apply Z.leb_le | apply Z.ltb_lt]; lia. }
          rewrite E1, E2, Z.eqb_refl. f_equal. lia. }
        assert (E3 : (p =? n) = false) by (apply Z.eqb_neq; exact Hpn). rewrite E3.
        destruct ((n + 1 <=? p) && (p <? n + 1 + h)) eqn:E1.
        { apply andb_prop in E1. destruct E1 as [E1 E1'].
          apply Z.leb_le in E1. apply Z.ltb_lt in E1'.
          assert (E2 : ((n <=? p) && (p <? n + (h + 1))) = true).
          { apply andb_true_intro. split; [apply Z.leb_le | apply Z.ltb_lt]; lia. }
          rewrite E2. f_equal. lia. }
        { assert (E2 : ((n <=? p) && (p <? n + (h + 1))) = false).
          { apply andb_false_iff. apply andb_false_iff in E1.
            destruct E1 as [E1 | E1]; [left; apply Z.leb_gt; apply Z.leb_gt in E1; lia
                                      | right; apply Z.ltb_ge; apply Z.ltb_ge in E1; lia]. }
          rewrite E2. reflexivity. }
Qed.

(** A clean Manchester code is decoded in full, without errors. *)
Lemma cm921_manchester_of_clean (bytes : bitbuffer_t) (n fi : Z) :
  row_bits bytes 0 = n -> n < 65536 -> 24 <= fi <= n - 16 -> (fi - 24) mod 2 = 0 ->
  invalid_pair (row_bytes bytes 0) fi ->
  manchester_clean (row_bytes bytes 0) fi ->
  snd (cm921_manchester bytes fi) = 0
  /\ row_bits (fst (cm921_manchester bytes fi)) 0 = (fi - 24) / 2
  /\ forall j, 0 <= j < (fi - 24) / 2 ->
       bitrow_get_bit (row_bytes (fst (cm921_manchester bytes fi)) 0) j
       = bitrow_get_bit (row_bytes bytes 0) (24 + 2 * j).
Proof.
  intros Hn Hmax Hfi Hpar Hinv Hc. unfold cm921_manchester, bitbuffer_manchester_decode.
  assert (Hu : u32 fi = fi) by u32_small.
  rewrite Hu.
  assert (Hnb : u32 (fi - 24) = fi - 24) by u32_small.
  rewrite Hnb, Hn.
  assert (Hcap : u32 (24 + (fi - 24) * 2) = 2 * fi - 24)
    by (unfold u32; rewrite Z.mod_small; lia).
  rewrite Hcap.
  set (len := if negb (fi - 24 =? 0) && (2 * fi - 24 <? n) then 2 * fi - 24 else n).
  assert (Hlen : fi < len).
  { subst len. destruct (fi - 24 =? 0) eqn:E0; cbn [negb andb]; [lia|].
    apply Z.eqb_neq in E0. destruct (2 * fi - 24 <? n); lia. }
  destruct (manchester_loop_decodes (row_bytes bytes 0) len fi (Z.to_nat len) 24
              bitbuffer_zero 0 acc_ok_zero ltac:(lia) Hpar Hlen Hinv Hc ltac:(lia))
    as (out & Hm & Hok & Hget).
  rewrite Hm. cbn [fst snd]. split.
  - replace (fi - 24 - (fi + 2 - 24 - 2)) with 0 by lia. reflexivity.
  - split.
    + destruct Hok as [(_ & H & _) _]. exact H.
    + intros j Hj. rewrite Hget by lia.
      assert (E : ((0 <=? j) && (j <? 0 + (fi - 24) / 2)) = true).
      { apply andb_true_intro. split; [apply Z.leb_le | apply Z.ltb_lt]; lia. }
      rewrite E, Z.sub_0_r. reflexivity.
Qed.

(** X4.  With an invalid pair at the footer offset [fi] (the footer 35 starts
    with 00), [man_errors] is 0 exactly when no pair between the header and
    the footer is invalid; the packet then holds [(fi - 24) / 2] bits, the
    first bit of each pair. *)
Theorem cm921_manchester_clean_packet (bytes : bitbuffer_t) (n fi : Z) :
  row_bits bytes 0 = n -> n < 65536 -> 24 <= fi <= n - 16 -> (fi - 24) mod 2 = 0 ->
  invalid_pair (row_bytes bytes 0) fi ->
  (snd (cm921_manchester bytes fi) = 0 <-> manchester_clean (row_bytes bytes 0) fi)
  /\ (manchester_clean (row_bytes bytes 0) fi ->
      row_bits (fst (cm921_manchester bytes fi)) 0 = (fi - 24) / 2
      /\ forall j, 0 <= j < (fi - 24) / 2 ->
           bitrow_get_bit (row_bytes (fst (cm921_manchester bytes fi)) 0) j
           = bitrow_get_bit (row_bytes bytes 0) (24 + 2 * j)).
Proof.
  intros Hn Hmax Hfi Hpar Hinv.
  pose proof (cm921_manchester_of_clean bytes n fi Hn Hmax Hfi Hpar Hinv) as Hclean.
  split.
  - split.
    + intros Hz p Hp Hpp Hbad.
      exact (cm921_manchester_counts bytes n fi p Hn Hmax Hfi Hp Hpp Hbad Hz).
    + intros Hc. apply Hclean. exact Hc.
  - intros Hc. apply Hclean. exact Hc.
Qed.

Lemma cm921_manchester_clean_packet_witness :
  (snd (cm921_manchester cm921_framed_bytes 32) = 0
   <-> manchester_clean (row_bytes cm921_framed_bytes 0) 32)
  /\ (manchester_clean (row_bytes cm921_framed_bytes 0) 32 ->
      row_bits (fst (cm921_manchester cm921_framed_bytes 32)) 0 = (32 - 24) / 2
      /\ forall j, 0 <= j < (32 - 24) / 2 ->
           bitrow_get_bit (row_bytes (fst (cm921_manchester cm921_framed_bytes 32)) 0) j
           = bitrow_get_bit (row_bytes cm921_framed_bytes 0) (24 + 2 * j)).
Proof.
  apply (cm921_manchester_clean_packet cm921_framed_bytes 48 32).
  - reflexivity.
  - lia.
  - lia.
  - reflexivity.
  - vm_compute. reflexivity.
Defined.

(** ** The layout of a message *)

Section MessageLayout.

Variables (bits : bitrow) (N : Z).
Hypothesis Hby : Forall is_byte bits.
Hypothesis HN : 0 <= N < 8192.

Lemma next_field (k : Z) :
  0 <= k < 8192 -> next bits (k * 8) N = (field_byte bits N k, (k + 1) * 8).
Proof.
  intros Hk. unfold next, field_byte.
  rewrite bitrow_get_byte_aligned by (assumption || lia).
  assert (E1 : u32 (k * 8 + 8) = (k + 1) * 8)
    by (unfold u32; rewrite Z.mod_small; lia).
  assert (E2 : u32 (N * 8) = N * 8) by u32_small.
  rewrite E1, E2, Z.geb_leb.
  destruct (k + 1 <? N) eqn:E.
  - apply Z.ltb_lt in E.
    assert (E3 : (N * 8 <=? (k + 1) * 8) = false) by (apply Z.leb_gt; lia).
    rewrite E3. reflexivity.
  - apply Z.ltb_ge in E.
    assert (E3 : (N * 8 <=? (k + 1) * 8) = true) by (apply Z.leb_le; lia).
    rewrite E3. reflexivity.
Qed.

Lemma field_bytes_S (k : Z) (n : nat) :
  field_bytes bits N k (S n) = field_byte bits N k :: field_bytes bits N (k + 1) n.
Proof.
  unfold field_bytes. cbn [seq map]. rewrite Z.add_0_r. f_equal.
  rewrite <- seq_shift, map_map. apply map_ext. intros j. f_equal. lia.
Qed.

Lemma next_n_fields (n : nat) :
  forall k, 0 <= k -> k + Z.of_nat n < 8192 ->
  next_n n bits (k * 8) N = (field_bytes bits N k n, (k + Z.of_nat n) * 8).
Proof.
  induction n as [|n IH]; intros k Hk Hn.
  - cbn [next_n]. unfold field_bytes. cbn [seq map]. f_equal. lia.
  - cbn [next_n]. rewrite next_field by lia. rewrite IH by lia.
    rewrite field_bytes_S. f_equal. lia.
Qed.

Lemma read_device_ids_fields (n : nat) :
  forall k, 0 <= k -> k + 3 * Z.of_nat n < 8192 ->
  read_device_ids n bits (k * 8) N
  = (map (fun i => field_bytes bits N (k + 3 * Z.of_nat i) 3) (seq 0 n),
     (k + 3 * Z.of_nat n) * 8).
Proof.
  induction n as [|n IH]; intros k Hk Hn.
  - cbn [read_device_ids seq map]. f_equal. lia.
  - cbn [read_device_ids]. rewrite (next_n_fields 3) by lia.
    change (Z.of_nat 3) with 3. rewrite IH by lia.
    cbn [seq map]. f_equal.
    + f_equal; [f_equal; lia|].
      rewrite <- seq_shift, map_map. apply map_ext. intros i. f_equal. lia.
    + lia.
Qed.

End MessageLayout.

Lemma field_byte_range (bits : bitrow) (N i : Z) :
  Forall is_byte bits -> 0 <= field_byte bits N i < 256.
Proof.
  intros Hby. unfold field_byte. destruct (i + 1 <? N); [|lia].
  apply is_byte_byte_at. exact Hby.
Qed.

Lemma land_3_range (x : Z) : 0 <= Z.land x 3 <= 3.
Proof.
  assert (E : Z.land x 3 = x mod 4) by (apply (Z.land_ones x 2); lia).
  rewrite E. pose proof (Z.mod_pos_bound x 4 ltac:(lia)). lia.
Qed.

Lemma field_byte_inside (bits : bitrow) (N i : Z) :
  i + 1 < N -> field_byte bits N i = byte_at bits i.
Proof.
  intros H. unfold field_byte.
  destruct (i + 1 <? N) eqn:E; [reflexivity | apply Z.ltb_ge in E; lia].
Qed.

Lemma field_bytes_inside (bits : bitrow) (N : Z) (n : nat) :
  forall k, k + Z.of_nat n < N -> field_bytes bits N k n = row_prefix bits k n.
Proof.
  induction n as [|n IH]; intros k Hk; [reflexivity|].
  rewrite field_bytes_S. cbn [row_prefix].
  rewrite field_byte_inside by lia. rewrite IH by lia. reflexivity.
Qed.

(** [parse_msg] on a region that passes the checksum, with the fields as
    [next] returns them. *)
Lemma parse_msg_fields (bmsg : bitbuffer_t) :
  Forall is_byte (row_bytes bmsg 0) -> 8 <= row_bits bmsg 0 < 65536 ->
  checksum_ok bmsg 0 = true ->
  let bits := row_bytes bmsg 0 in
  let N := row_bits bmsg 0 / 8 in
  let hd := field_byte bits N 0 in
  let ids := Z.land (Z.shiftr hd 2) 3 in
  let plen := field_byte bits N (3 + 3 * ids) in
  let fields := 4 + 3 * ids + plen in
  let rest := u32 (row_bits bmsg 0 - 8 - fields * 8) in
  let unparsed_length_ := if negb (rest / 8 + rest mod 8 =? 0) then 1 else 0 in
  parse_msg bmsg 0
  = if 8 <? rest then None
    else Some (1, mk_message hd ids
                 (map (fun i => field_bytes bits N (1 + 3 * Z.of_nat i) 3)
                      (seq 0 (Z.to_nat ids)))
                 (Z.lor (Z.shiftl (field_byte bits N (1 + 3 * ids)) 8)
                        (field_byte bits N (2 + 3 * ids)))
                 plen (field_bytes bits N (4 + 3 * ids) (Z.to_nat plen))
                 unparsed_length_
                 (if negb (unparsed_length_ =? 0)
                  then [extract_first_byte bits (fields * 8) rest] else [])
                 (bitrow_get_byte bits (u32 (row_bits bmsg 0 - 8)))).
Proof.
  intros Hby Hbits Hacc bits N hd ids plen fields rest unparsed_length_.
  assert (HN : 0 <= N < 8192).
  { subst N. split; [apply Z.div_pos; lia | apply Z.div_lt_upper_bound; lia]. }
  unfold parse_msg. rewrite Hacc. cbn [negb].
  destruct (row_bits bmsg 0 <? 8) eqn:E8; [apply Z.ltb_lt in E8; lia|].
  fold bits N.
  pose proof (next_field bits N Hby HN 0 ltac:(lia)) as E0.
  change (0 * 8) with 0 in E0. rewrite E0. clear E0. fold hd. fold ids.
  pose proof (land_3_range (Z.shiftr hd 2)) as Hids. fold ids in Hids.
  rewrite (read_device_ids_fields bits N Hby HN (Z.to_nat ids) (0 + 1)) by lia.
  rewrite Z2Nat.id by lia.
  rewrite (next_field bits N Hby HN (0 + 1 + 3 * ids)) by lia.
  rewrite (next_field bits N Hby HN (0 + 1 + 3 * ids + 1)) by lia.
  rewrite (next_field bits N Hby HN (0 + 1 + 3 * ids + 1 + 1)) by lia.
  replace (0 + 1 + 3 * ids + 1 + 1) with (3 + 3 * ids) by lia. fold plen.
  pose proof (field_byte_range bits N (3 + 3 * ids) Hby) as Hplen. fold plen in Hplen.
  rewrite (next_n_fields bits N Hby HN (Z.to_nat plen) (3 + 3 * ids + 1)) by lia.
  rewrite Z2Nat.id by lia.
  replace ((3 + 3 * ids + 1 + plen) * 8) with (fields * 8) by (unfold fields; lia).
  fold rest. fold unparsed_length_.
  replace (3 + 3 * ids + 1) with (4 + 3 * ids) by lia.
  replace (0 + 1 + 3 * ids + 1) with (2 + 3 * ids) by lia.
  replace (0 + 1 + 3 * ids) with (1 + 3 * ids) by lia.
  destruct (8 <? rest); reflexivity.
Qed.

(** X5.  [parse_msg] on a region that passes the checksum.  The fields lie at
    fixed offsets: the header, three bytes for each of the
    [(header >> 2) & 3] device ids, two bytes of command, the payload length
    and the payload.  The call returns exactly when these fields end at most
    8 bits before the last 8 bits of the row; it then returns 1, every field
    is a byte of the row, the bits between the fields and the last 8 bits
    are kept as one unparsed byte, and [crc] is the last 8 bits.  When the
    fields end later, so that the payload length asks for bytes that the row
    does not have, when they leave more than 8 bits, or when the row has
    fewer than 8 bits, the call leaves the memory it owns. *)
Theorem parse_msg_layout (bmsg : bitbuffer_t) :
  Forall is_byte (row_bytes bmsg 0) -> 0 <= row_bits bmsg 0 < 65536 ->
  checksum_ok bmsg 0 = true ->
  let bits := row_bytes bmsg 0 in
  let hd := byte_at bits 0 in
  let ids := Z.land (Z.shiftr hd 2) 3 in
  let plen := byte_at bits (3 + 3 * ids) in
  let fields := 4 + 3 * ids + plen in
  let rest := row_bits bmsg 0 - 8 - fields * 8 in
  parse_msg bmsg 0
  = if (0 <=? rest) && (rest <=? 8)
    then Some (1, mk_message hd ids
                 (map (fun i => row_prefix bits (1 + 3 * Z.of_nat i) 3)
                      (seq 0 (Z.to_nat ids)))
                 (Z.lor (Z.shiftl (byte_at bits (1 + 3 * ids)) 8)
                        (byte_at bits (2 + 3 * ids)))
                 plen (row_prefix bits (4 + 3 * ids) (Z.to_nat plen))
                 (if rest =? 0 then 0 else 1)
                 (if rest =? 0 then [] else [extract_first_byte bits (fields * 8) rest])
                 (bitrow_get_byte bits (row_bits bmsg 0 - 8)))
    else None.
Proof.
  intros Hby Hbits Hacc bits hd ids plen fields rest.
  pose proof (land_3_range (Z.shiftr hd 2)) as Hids. fold ids in Hids.
  pose proof (is_byte_byte_at bits (3 + 3 * ids) Hby) as Hplen.
  fold plen in Hplen. unfold is_byte in Hplen.
  destruct (Z_lt_le_dec (row_bits bmsg 0) 8) as [Hlt | Hge].
  { unfold parse_msg. apply Z.ltb_lt in Hlt. rewrite Hlt.
    apply Z.ltb_lt in Hlt.
    assert (E : (0 <=? rest) = false) by (apply Z.leb_gt; unfold rest, fields; lia).
    rewrite E. reflexivity. }
  rewrite (parse_msg_fields bmsg Hby ltac:(lia) Hacc). cbv zeta. fold bits.
  set (N := row_bits bmsg 0 / 8).
  pose proof (Z.div_mod (row_bits bmsg 0) 8 ltac:(lia)) as Hdm.
  pose proof (Z.mod_pos_bound (row_bits bmsg 0) 8 ltac:(lia)) as Hr.
  fold N in Hdm.
  destruct (0 <=? rest) eqn:E0; cbn [andb].
  - (* the fields end inside the row *)
    apply Z.leb_le in E0.
    assert (HF : fields + 1 <= N) by (unfold rest in E0; lia).
    rewrite (field_byte_inside bits N 0) by (unfold fields in HF; lia).
    fold hd. fold ids.
    rewrite (field_byte_inside bits N (3 + 3 * ids)) by (unfold fields in HF; lia).
    fold plen. fold fields. fold rest.
    assert (Hu : u32 rest = rest) by (unfold rest in *; u32_small).
    rewrite Hu.
    destruct (rest <=? 8) eqn:E1.
    + apply Z.leb_le in E1.
      assert (E2 : (8 <? rest) = false) by (apply Z.ltb_ge; lia).
      rewrite E2.
      assert (Hul : (if negb (rest / 8 + rest mod 8 =? 0) then 1 else 0)
                    = (if rest =? 0 then 0 else 1)).
      { destruct (rest =? 0) eqn:Ez.
        - apply Z.eqb_eq in Ez. rewrite Ez. reflexivity.
        - apply Z.eqb_neq in Ez.
          assert (Hne : rest / 8 + rest mod 8 <> 0).
          { pose proof (Z.div_mod rest 8 ltac:(lia)).
            pose proof (Z.mod_pos_bound rest 8 ltac:(lia)).
            assert (0 <= rest / 8) by (apply Z.div_pos; lia). lia. }
          apply Z.eqb_neq in Hne. rewrite Hne. reflexivity. }
      rewrite Hul.
      assert (Hcrc : u32 (row_bits bmsg 0 - 8) = row_bits bmsg 0 - 8) by u32_small.
      rewrite Hcrc.
      rewrite (field_byte_inside bits N (1 + 3 * ids)) by (unfold fields in HF; lia).
      rewrite (field_byte_inside bits N (2 + 3 * ids)) by (unfold fields in HF; lia).
      rewrite (field_bytes_inside bits N (Z.to_nat plen) (4 + 3 * ids))
        by (rewrite Z2Nat.id by lia; unfold fields in HF; lia).
      assert (Hmap : map (fun i => field_bytes bits N (1 + 3 * Z.of_nat i) 3)
                         (seq 0 (Z.to_nat ids))
                     = map (fun i => row_prefix bits (1 + 3 * Z.of_nat i) 3)
                           (seq 0 (Z.to_nat ids))).
      { apply map_ext_in. intros i Hi. apply in_seq in Hi.
        apply field_bytes_inside. change (Z.of_nat 3) with 3.
        unfold fields in HF. lia. }
      rewrite Hmap.
      destruct (rest =? 0); reflexivity.
    + apply Z.leb_gt in E1.
      assert (E2 : (8 <? rest) = true) by (apply Z.ltb_lt; lia).
      rewrite E2. reflexivity.
  - (* the fields run past the last 8 bits *)
    apply Z.leb_gt in E0.
    match goal with |- (if 8 <? u32 ?x then _ else _) = _ =>
      assert (Hx : -4294967296 + 8 < x < 0)
    end.
    { unfold field_byte.
      assert (H252 : Z.land (Z.shiftr 252 2) 3 = 3) by reflexivity.
      pose proof (land_3_range (Z.shiftr (byte_at bits 0) 2)) as Hh.
      destruct (0 + 1 <? N) eqn:EN.
      - fold hd. fold ids. destruct (3 + 3 * ids + 1 <? N) eqn:EP.
        + fold plen. fold fields. fold rest. lia.
        + apply Z.ltb_ge in EP. lia.
      - apply Z.ltb_ge in EN. rewrite H252.
        change (3 + 3 * 3 + 1 <? N) with (13 <? N).
        assert (E13 : (13 <? N) = false) by (apply Z.ltb_ge; lia).
        rewrite E13. lia. }
    match goal with |- (if 8 <? u32 ?x then _ else _) = _ =>
      assert (E2 : (8 <? u32 x) = true)
    end.
    { apply Z.ltb_lt. unfold u32.
      match goal with |- 8 < ?x mod _ =>
        replace (x mod 4294967296) with (x + 4294967296)
      end; [lia|].
      apply Z.mod_unique with (q := -1); [left; lia | lia]. }
    rewrite E2. reflexivity.
Qed.

Lemma parse_msg_layout_witness :
  parse_msg cm921_sample_region 0
  = Some (1, mk_message 0x00 0 [] 0x2309 3 [0x01; 0x09; 0xC4] 0 [] 0x03).
Proof.
  refine (parse_msg_layout cm921_sample_region _ _ _).
  - change (row_bytes cm921_sample_region 0)
      with [0x00; 0x23; 0x09; 0x03; 0x01; 0x09; 0xC4; 0x03].
    repeat constructor; unfold is_byte; lia.
  - change (0 <= 64 < 65536). lia.
  - vm_compute. reflexivity.
Defined.

(** ** Device ids *)

Lemma string_length_append (s t : string) :
  String.length (s ++ t) = (String.length s + String.length t)%nat.
Proof. induction s as [|c s IH]; cbn; [reflexivity | rewrite IH; reflexivity]. Qed.

Lemma length_pad_left (c : ascii) (n : nat) (s : string) :
  String.length (pad_left c n s) = (n + String.length s)%nat.
Proof. induction n as [|n IH]; cbn; [reflexivity | rewrite IH; reflexivity]. Qed.

(** A number below [10 ^ k] is printed with [k] digits at most. *)
Lemma length_dec_digits (fuel : nat) :
  forall (k : nat) (n : Z) (acc : string),
  0 <= n < 10 ^ Z.of_nat k -> (1 <= k)%nat -> n < Z.of_nat fuel ->
  (String.length acc < String.length (dec_digits fuel n acc)
   <= String.length acc + k)%nat.
Proof.
  induction fuel as [|fuel IH]; intros k n acc Hn Hk Hfuel; [lia|].
  cbn [dec_digits]. destruct (n / 10 =? 0) eqn:E.
  - cbn [String.length]. lia.
  - apply Z.eqb_neq in E.
    assert (Hn10 : 10 <= n).
    { destruct (Z_lt_le_dec n 10) as [Hlt|]; [|assumption].
      exfalso. apply E. apply Z.div_small. lia. }
    destruct k as [|[|k]]; [lia | cbn in Hn; lia |].
    assert (Hdiv : 0 <= n / 10 < 10 ^ Z.of_nat (S k)).
    { split; [apply Z.div_pos; lia|].
      apply Z.div_lt_upper_bound; [lia|].
      replace (Z.of_nat (S (S k))) with (Z.of_nat (S k) + 1) in Hn by lia.
      rewrite Z.pow_add_r in Hn by lia. change (10 ^ 1) with 10 in Hn. lia. }
    assert (Hlt : n / 10 < Z.of_nat fuel).
    { pose proof (Z.div_lt n 10 ltac:(lia) ltac:(lia)). lia. }
    pose proof (IH (S k) (n / 10) (String (dec_digit (n mod 10)) acc) Hdiv ltac:(lia) Hlt)
      as Hl.
    cbn [String.length] in Hl. lia.
Qed.

Lemma length_dec_pad (k : nat) (n : Z) :
  0 <= n < 10 ^ Z.of_nat k -> (1 <= k)%nat -> String.length (dec_pad k n) = k.
Proof.
  intros Hn Hk. unfold dec_pad. rewrite length_pad_left.
  pose proof (length_dec_digits (S (Z.to_nat n)) k n EmptyString Hn Hk ltac:(lia)) as Hl.
  cbn [String.length] in Hl. lia.
Qed.

Lemma lor_bound (a b n : Z) :
  0 <= n -> 0 <= a < 2 ^ n -> 0 <= b < 2 ^ n -> 0 <= Z.lor a b < 2 ^ n.
Proof.
  intros Hn Ha Hb.
  assert (H0 : 0 <= Z.lor a b) by (apply Z.lor_nonneg; lia).
  split; [exact H0|].
  destruct (Z.eq_dec (Z.lor a b) 0) as [E | E]; [rewrite E; lia|].
  apply Z.log2_lt_pow2; [lia|]. rewrite Z.log2_lor by lia.
  assert (Hlog : forall x, 0 <= x < 2 ^ n -> x <> 0 -> Z.log2 x < n)
    by (intros x Hx Hx0; apply Z.log2_lt_pow2; lia).
  assert (Hn1 : 0 < n).
  { destruct (Z.eq_dec n 0) as [-> |]; [|lia]. change (2 ^ 0) with 1 in *.
    assert (a = 0) by lia. assert (b = 0) by lia. subst. contradiction. }
  apply Z.max_lub_lt.
  - destruct (Z.eq_dec a 0) as [-> |]; [exact Hn1 | apply Hlog; assumption].
  - destruct (Z.eq_dec b 0) as [-> |]; [exact Hn1 | apply Hlog; assumption].
Qed.

Lemma dev_serial_range (device_id : list Z) :
  Forall is_byte device_id -> 0 <= dev_serial_of device_id < 262144.
Proof.
  intros Hby. unfold dev_serial_of.
  pose proof (is_byte_byte_at device_id 0 Hby) as H0.
  pose proof (is_byte_byte_at device_id 1 Hby) as H1.
  pose proof (is_byte_byte_at device_id 2 Hby) as H2.
  unfold is_byte in *.
  pose proof (land_3_range (byte_at device_id 0)) as H3.
  change 262144 with (2 ^ 18).
  apply lor_bound; [lia | | change (2 ^ 18) with 262144; lia].
  apply lor_bound; [lia | |]; rewrite Z.shiftl_mul_pow2 by lia.
  - change (2 ^ 16) with 65536. change (2 ^ 18) with 262144. lia.
  - change (2 ^ 8) with 256. change (2 ^ 18) with 262144. lia.
Qed.

Lemma dev_name_length (device_id : list Z) :
  String.length (dev_name_of device_id) = 3%nat.
Proof.
  unfold dev_name_of. generalize (Z.shiftr (byte_at device_id 0) 2). intros t.
  assert (Hall : Forall (fun e : Z * string => String.length (snd e) = 3%nat) device_map)
    by (repeat constructor).
  assert (Hinit : String.length " --" = 3%nat) by reflexivity.
  revert Hinit. generalize " --"%string. induction Hall as [|e l He Hl IH]; intros s Hs.
  - exact Hs.
  - cbn [fold_left]. apply IH. destruct (fst e =? t); assumption.
Qed.

(** X6.  The text that [decode_device_id] builds has ten characters for every
    device id: three of the name, the colon and six digits.  Its buffer is
    allocated with [6 + strlen(dev_name) + 1], that is ten bytes, terminator
    included. *)
Theorem decode_device_id_length (device_id : list Z) :
  Forall is_byte device_id ->
  String.length (decode_device_id device_id) = 10%nat
  /\ (6 + String.length (dev_name_of device_id) + 1 = 10)%nat.
Proof.
  intros Hby. pose proof (dev_name_length device_id) as Hname.
  split; [|rewrite Hname; reflexivity].
  unfold decode_device_id, str_pad.
  rewrite !string_length_append, length_pad_left, Hname.
  rewrite length_dec_pad; [reflexivity | | lia].
  pose proof (dev_serial_range device_id Hby). change (10 ^ Z.of_nat 6) with 1000000. lia.
Qed.

Lemma decode_device_id_length_witness :
  String.length (decode_device_id [0x10; 0x00; 0x2A]) = 10%nat
  /\ (6 + String.length (dev_name_of [0x10; 0x00; 0x2A]%Z) + 1 = 10)%nat.
Proof.
  apply (decode_device_id_length [0x10; 0x00; 0x2A]).
  repeat constructor; unfold is_byte; lia.
Defined.

(** ** The fields of a message *)

Lemma params_1030_appends (n : nat) :
  forall (i : Z) (p : list Z) (data : data_t),
  exists fields,
    params_1030 n i p data = (data ++ fields)%list
    /\ Forall (fun f => key f <> "unknown") fields
    /\ (List.length fields <= n)%nat.
Proof.
  induction n as [|n IH]; intros i p data.
  - exists []. cbn [params_1030]. rewrite app_nil_r. repeat split; [constructor | cbn; lia].
  - cbn [params_1030].
    repeat match goal with
    | |- context [if ?c then _ else _] => destruct c
    end;
    match goal with
    | |- context [params_1030 n ?j p ?d] => destruct (IH j p d) as (fs & Hp & Hk & Hl)
    end;
    rewrite Hp; unfold data_append; try rewrite <- app_assoc;
    eexists; (split; [reflexivity|]); cbn [app List.length];
    (split; [repeat (constructor; [discriminate|]); exact Hk | lia]) || (split; [exact Hk | lia]).
Qed.

(** X7.  [interpret_message] only appends: the Device IDs field comes first,
    then, for a command with a payload length outside its accepted lengths
    or for another command, the one field [unknown]; for an accepted length
    at least one and at most six fields, none of them named [unknown]. *)
Theorem interpret_message_appends (msg : message_t) (data : data_t) :
  exists ids fields,
    interpret_message msg data
    = (data ++ mk_field "Device IDs" "" (DATA_STRING ids) :: fields)%list
    /\ (accepted (command msg) (payload_length msg) = false -> fields = [unknown_field msg])
    /\ (accepted (command msg) (payload_length msg) = true ->
        fields <> [] /\ Forall (fun f => key f <> "unknown") fields)
    /\ (List.length fields <= 6)%nat.
Proof.
  unfold interpret_message, decode_device_ids, accepted, accepted_lengths.
  cbn [existsb fst snd].
  set (ids := join_ids true 1 _). exists ids.
  set (cmd := command msg). set (len := payload_length msg).
  destruct (params_1030_appends 5 0 (payload msg)
              (data_append (data_append data [mk_field "Device IDs" "" (DATA_STRING ids)])
                 [mk_field "zone_idx" "" (DATA_FORMAT "%02x" (DATA_INT (byte_at (payload msg) 0)))]))
    as (fs & Hp & Hk & Hl).
  rewrite Hp. clear Hp. clearbody cmd len.
  destruct (Z.eqb_spec cmd 4144) as [-> | N1]; [|
  destruct (Z.eqb_spec cmd 12607) as [-> | N2]; [|
  destruct (Z.eqb_spec cmd 8) as [-> | N3]; [|
  destruct (Z.eqb_spec cmd 16112) as [-> | N4]; [|
  destruct (Z.eqb_spec cmd 8969) as [-> | N5]; [|
  destruct (Z.eqb_spec cmd 4352) as [-> | N6]; [|
  destruct (Z.eqb_spec cmd 9) as [-> | N7]; [|
  destruct (Z.eqb_spec cmd 15104) as [-> | N8]]]]]]]];
  cbn [Z.eqb Pos.eqb andb orb];
  repeat match goal with
  | |- context [len =? ?k] => destruct (len =? k)
  end;
  cbn [andb orb negb]; unfold data_append; rewrite <- ?app_assoc; cbn [app];
  eexists; (split; [reflexivity|]);
  (split; [intros H; try discriminate H; reflexivity|]);
  (split; [intros H; try discriminate H;
           (split; [discriminate | repeat (constructor; [discriminate|]); try exact Hk;
                                   try constructor])
          | cbn [List.length]; lia]).
Qed.

(** ** Auriol AFW2A1 *)

Lemma signed12_range (x : Z) : 0 <= x < 4096 -> -2048 <= signed12 x < 2048.
Proof.
  intros Hx. unfold signed12. destruct (x <? 2048) eqn:E.
  - apply Z.ltb_lt in E. lia.
  - apply Z.ltb_ge in E. lia.
Qed.

Lemma auriol_tenths_range (b : bitrow) :
  Forall is_byte b ->
  -2048 <= signed12 (Z.land (byte_at b 1) 0x0f * 256 + byte_at b 2) < 2048.
Proof.
  intros Hby. apply signed12_range.
  pose proof (is_byte_byte_at b 2 Hby) as H2. unfold is_byte in H2.
  assert (H1 : 0 <= Z.land (byte_at b 1) 0x0f < 16).
  { change 0x0f with (Z.ones 4). rewrite Z.land_ones by lia.
    apply Z.mod_pos_bound. lia. }
  lia.
Qed.

Lemma Qlt_bool_lt (x y : Q) : Qlt_bool x y = true -> (x < y)%Q.
Proof.
  unfold Qlt_bool. intros H. apply negb_true_iff in H.
  apply Qnot_le_lt. intros Hle. apply Qle_bool_iff in Hle.
  rewrite Hle in H. discriminate H.
Qed.

(** The two bounds of [auriol_afw2a1_decode], compared in floating point,
    admit the tenths from -510 to 766: the [float] product for -511 is below
    the [double] -51.1, and the one for 767 is above the [double] 76.7. *)
Lemma auriol_temp_bounds (t : Z) :
  -2048 <= t < 2048 ->
  Qlt_bool (f32_value (f32_mul_tenth t)) (- double_51_1)
  || Qlt_bool double_76_7 (f32_value (f32_mul_tenth t))
  = negb ((-510 <=? t) && (t <=? 766)).
Proof.
  intros Ht. replace t with (t + 2048 - 2048) by lia.
  assert (Hr : 0 <= t + 2048 < Z.of_nat 4096) by lia. revert Hr.
  generalize (t + 2048). clear t Ht.
  refine (Z_range_cases _ 4096 _). intros i Hi.
  pose (f := fun i : nat =>
    Bool.eqb
      (Qlt_bool (f32_value (f32_mul_tenth (Z.of_nat i - 2048))) (- double_51_1)
       || Qlt_bool double_76_7 (f32_value (f32_mul_tenth (Z.of_nat i - 2048))))
      (negb ((-510 <=? Z.of_nat i - 2048) && (Z.of_nat i - 2048 <=? 766)))).
  assert (Hall : forallb f (seq 0 4096) = true) by (vm_compute; reflexivity).
  pose proof (forallb_seq _ _ Hall i Hi) as H. unfold f in H.
  apply Bool.eqb_prop in H. exact H.
Qed.

(** The [float] product is within 2^-16 of the tenths divided by 10. *)
Lemma auriol_temp_accuracy (t : Z) :
  -2048 <= t < 2048 ->
  ((t # 10) - (1 # 65536) < f32_value (f32_mul_tenth t)
   /\ f32_value (f32_mul_tenth t) < (t # 10) + (1 # 65536))%Q.
Proof.
  intros Ht. replace t with (t + 2048 - 2048) by lia.
  assert (Hr : 0 <= t + 2048 < Z.of_nat 4096) by lia. revert Hr.
  generalize (t + 2048). clear t Ht.
  refine (Z_range_cases _ 4096 _). intros i Hi.
  pose (f := fun i : nat =>
    Qlt_bool (((Z.of_nat i - 2048) # 10) - (1 # 65536))%Q
             (f32_value (f32_mul_tenth (Z.of_nat i - 2048)))
    && Qlt_bool (f32_value (f32_mul_tenth (Z.of_nat i - 2048)))
                (((Z.of_nat i - 2048) # 10) + (1 # 65536))%Q).
  assert (Hall : forallb f (seq 0 4096) = true) by (vm_compute; reflexivity).
  pose proof (forallb_seq _ _ Hall i Hi) as H. unfold f in H.
  apply andb_prop in H. destruct H as [H1 H2].
  split; apply Qlt_bool_lt; assumption.
Qed.

(** X8.  [auriol_afw2a1_decode] on the row it has chosen.  The row is
    accepted exactly when the fixed nibble is A, the two low bits of the
    channel nibble are not 11, the humidity is at most 100 and the
    temperature, read as a signed 12-bit number of tenths, lies between -510
    and 766: the bounds are compared on the [float] product with the
    [double] constants, which rejects -511 and 767, the tenths of -51.1 and
    76.7 themselves.  The temperature of the Reading is that product, within
    2^-16 of the tenths divided by 10.  The channel is the two low bits plus
    1, the battery is OK exactly when bit 3 of the nibble is set and the
    button is pressed exactly when bit 2 is set: the initial values of
    [battery_low] and [tx_button] never reach the Reading. *)
Theorem auriol_afw2a1_fields_closed_form (b : bitrow) :
  Forall is_byte b ->
  let c := Z.shiftr (byte_at b 1) 4 in
  let h := Z.lor (Z.shiftl (Z.land (byte_at b 3) 0x0f) 4) (Z.shiftr (byte_at b 4) 4) in
  let t := signed12 (Z.land (byte_at b 1) 0x0f * 256 + byte_at b 2) in
  let temp_c := f32_value (f32_mul_tenth t) in
  auriol_afw2a1_fields b
  = (if (Z.shiftr (byte_at b 3) 4 =? 0xa) && negb (Z.land c 3 =? 3)
        && (h <=? 100) && (-510 <=? t) && (t <=? 766)
     then (1, Some (data_make
            [mk_field "model" "" (DATA_STRING "Auriol-AFW2A1");
             mk_field "id" "" (DATA_INT (byte_at b 0));
             mk_field "channel" "Channel" (DATA_INT (Z.land c 3 + 1));
             mk_field "battery" "Battery"
               (DATA_STRING (if Z.testbit c 3 then "OK" else "LOW"));
             mk_field "button" "Button"
               (DATA_STRING (if Z.testbit c 2 then "true" else "false"));
             mk_field "temperature_C" "Temperature"
               (DATA_FORMAT "%.1f C" (DATA_DOUBLE temp_c));
             mk_field "humidity" "Humidity"
               (DATA_FORMAT "%.0f %%" (DATA_DOUBLE (inject_Z h)))]))
     else (DECODE_FAIL_SANITY, None))
  /\ ((t # 10) - (1 # 65536) < temp_c /\ temp_c < (t # 10) + (1 # 65536))%Q.
Proof.
  intros Hby c h t temp_c.
  pose proof (auriol_tenths_range b Hby) as Ht. fold t in Ht.
  split; [|apply auriol_temp_accuracy; exact Ht].
  unfold auriol_afw2a1_fields.
  rewrite auriol_temp_sign_extended by (apply is_byte_byte_at; exact Hby).
  fold c h t. fold temp_c.
  assert (Hc : 0 <= c < 16).
  { subst c. pose proof (is_byte_byte_at b 1 Hby) as H1. unfold is_byte in H1.
    rewrite Z.shiftr_div_pow2 by lia. change (2 ^ 4) with 16.
    split; [apply Z.div_pos; lia | apply Z.div_lt_upper_bound; lia]. }
  assert (Hh : 0 <= h).
  { subst h. apply Z.lor_nonneg. split.
    - apply Z.shiftl_nonneg. apply Z.land_nonneg. right. lia.
    - apply Z.shiftr_nonneg. pose proof (is_byte_byte_at b 4 Hby) as H4.
      unfold is_byte in H4. lia. }
  pose proof (auriol_temp_bounds t Ht) as Hb. fold temp_c in Hb.
  rewrite <- (orb_assoc _ (Qlt_bool temp_c (- double_51_1)) (Qlt_bool double_76_7 temp_c)).
  rewrite Hb.
  clearbody c h t temp_c.
  destruct (Z.shiftr (byte_at b 3) 4 =? 10); cbn [negb andb]; [|reflexivity].
  assert (E0 : (h <? 0) = false) by (apply Z.ltb_ge; exact Hh).
  rewrite E0, (Z.ltb_antisym h 100).
  destruct (h <=? 100); destruct (-510 <=? t); destruct (t <=? 766);
  assert (Hcases : c = 0 \/ c = 1 \/ c = 2 \/ c = 3 \/ c = 4 \/ c = 5 \/ c = 6 \/ c = 7
                   \/ c = 8 \/ c = 9 \/ c = 10 \/ c = 11 \/ c = 12 \/ c = 13 \/ c = 14
                   \/ c = 15) by lia;
  repeat (destruct Hcases as [-> | Hcases]); try subst c; reflexivity.
Qed.

Lemma auriol_afw2a1_fields_closed_form_witness :
  (exists data, auriol_afw2a1_fields [0x90; 0x8f; 0xff; 0xa3; 0xa0] = (1, Some data))
  /\ auriol_afw2a1_fields [0x90; 0x8e; 0x01; 0xa3; 0xa0] = (DECODE_FAIL_SANITY, None).
Proof.
  split.
  - eexists.
    refine (eq_trans
              (proj1 (auriol_afw2a1_fields_closed_form [0x90; 0x8f; 0xff; 0xa3; 0xa0] _)) _).
    + repeat constructor; unfold is_byte; lia.
    + reflexivity.
  - refine (eq_trans
              (proj1 (auriol_afw2a1_fields_closed_form [0x90; 0x8e; 0x01; 0xa3; 0xa0] _)) _).
    + repeat constructor; unfold is_byte; lia.
    + reflexivity.
Defined.

(** ** Holman WS5029 (PCM) *)

(** The cast to [int16_t] and the shift by 4 read the 12-bit field as a
    two's-complement number. *)
Lemma holman_pcm_temp_signed (x y : Z) :
  is_byte x -> is_byte y ->
  Z.shiftr (i16 (Z.lor (Z.shiftl x 8) (Z.land y 0xf0))) 4 = signed12 (x * 16 + y / 16).
Proof.
  intros Hx Hy. revert y Hy. pattern x. revert x Hx.
  refine (Z_range_cases _ 256 _). intros i Hi.
  refine (Z_range_cases _ 256 _). intros j Hj.
  pose (f := fun i j : nat =>
    Z.shiftr (i16 (Z.lor (Z.shiftl (Z.of_nat i) 8) (Z.land (Z.of_nat j) 240))) 4
    =? signed12 (Z.of_nat i * 16 + Z.of_nat j / 16)).
  assert (Hall : forallb (fun i => forallb (f i) (seq 0 256)) (seq 0 256) = true)
    by (vm_compute; reflexivity).
  apply Z.eqb_eq.
  exact (forallb_seq _ _ (forallb_seq _ _ Hall i Hi) j Hj).
Qed.

Lemma bitrow_get_byte_range (bits : bitrow) (p : Z) : is_byte (bitrow_get_byte bits p).
Proof. unfold bitrow_get_byte, u8, is_byte. apply Z.mod_pos_bound. lia. Qed.

Lemma bitbuffer_extract_bytes_range (bits : bitrow) (pos : Z) (n : nat) :
  Forall is_byte (bitbuffer_extract_bytes bits pos n).
Proof.
  unfold bitbuffer_extract_bytes. apply Forall_forall. intros x Hx.
  apply in_map_iff in Hx. destruct Hx as (i & <- & _). apply bitrow_get_byte_range.
Qed.

(** X9.  A Reading of [holman_ws5029pcm_decode] comes from one row of 192 to
    219 bits; it is a Holman-WS5029 below 200 bits and an AOK-5056 from 200
    bits on.  Its temperature is the 12-bit field after the station id read
    as a two's-complement number of tenths: here the cast to [int16_t] is
    kept in an [int], and the shift extends the sign. *)
Theorem holman_pcm_reading (bitbuffer : bitbuffer_t) (data : data_t) :
  holman_ws5029pcm_decode bitbuffer = (1, Some data) ->
  let pos := bitbuffer_search bitbuffer 0 0 holman_pcm_preamble 48 + 48 in
  let b := bitbuffer_extract_bytes (row_bytes bitbuffer 0) pos 18 in
  let t := signed12 (byte_at b 2 * 16 + byte_at b 3 / 16) in
  num_rows bitbuffer = 1
  /\ 192 <= row_bits bitbuffer 0 < 220
  /\ In (mk_field "model" ""
           (DATA_STRING (if row_bits bitbuffer 0 <? 200 then "Holman-WS5029" else "AOK-5056")))
        data
  /\ In (mk_field "temperature_C" "Temperature"
           (DATA_FORMAT "%.01f C" (DATA_DOUBLE (ratio t 10)))) data
  /\ -2048 <= t < 2048.
Proof.
  intros H pos b t.
  assert (Ht : Z.shiftr (holman_pcm_temp_raw b) 4 = t).
  { unfold holman_pcm_temp_raw. apply holman_pcm_temp_signed;
      apply is_byte_byte_at; apply bitbuffer_extract_bytes_range. }
  assert (Hr : -2048 <= t < 2048).
  { subst t. unfold signed12.
    pose proof (is_byte_byte_at b 2 (bitbuffer_extract_bytes_range _ _ _)) as H2.
    pose proof (is_byte_byte_at b 3 (bitbuffer_extract_bytes_range _ _ _)) as H3.
    unfold is_byte in *.
    assert (0 <= byte_at b 3 / 16 < 16)
      by (split; [apply Z.div_pos; lia | apply Z.div_lt_upper_bound; lia]).
    destruct (_ <? 2048) eqn:E; [apply Z.ltb_lt in E | apply Z.ltb_ge in E]; lia. }
  unfold holman_ws5029pcm_decode in H. change (6 * 8) with 48 in H.
  fold pos in H. fold b in H. rewrite Ht in H.
  destruct (num_rows bitbuffer =? 1) eqn:E1; cbn [negb] in H; [|discriminate H].
  destruct (row_bits bitbuffer 0 <? 192) eqn:E2; [discriminate H|].
  destruct (_ >=? row_bits bitbuffer 0); [discriminate H|].
  destruct (negb _); [discriminate H|].
  apply Z.eqb_eq in E1. apply Z.ltb_ge in E2.
  destruct (row_bits bitbuffer 0 <? 200) eqn:E3.
  - apply Z.ltb_lt in E3. injection H as <-.
    split; [exact E1|]. split; [lia|]. split; [left; reflexivity|].
    split; [right; right; left; reflexivity | exact Hr].
  - destruct (row_bits bitbuffer 0 <? 220) eqn:E4; [|discriminate H].
    apply Z.ltb_lt in E4. injection H as <-.
    split; [exact E1|]. split; [lia|]. split; [left; reflexivity|].
    split; [right; right; left; reflexivity | exact Hr].
Qed.

Lemma holman_pcm_reading_witness :
  exists data,
    holman_ws5029pcm_decode holman_pcm_minus_one = (1, Some data)
    /\ In (mk_field "temperature_C" "Temperature"
             (DATA_FORMAT "%.01f C" (DATA_DOUBLE (ratio (-1) 10)))) data.
Proof.
  eexists. split; [vm_compute; reflexivity|].
  refine (proj1 (proj2 (proj2 (proj2
    (holman_pcm_reading holman_pcm_minus_one _ _))))).
  vm_compute. reflexivity.
Defined.

(** ** Holman WS5029 (PWM) *)

(** X10.  No Reading of [holman_ws5029pwm_decode] has a negative temperature:
    [temp_raw] is a [uint16_t], so the tenths lie between 0 and 4095 for
    every accepted packet. *)
Theorem holman_pwm_temperature_never_negative (bitbuffer : bitbuffer_t) (data : data_t) :
  holman_ws5029pwm_decode bitbuffer = (1, Some data) ->
  exists t,
    0 <= t <= 4095
    /\ In (mk_field "temperature_C" "Temperature"
             (DATA_FORMAT "%.01f C" (DATA_DOUBLE (ratio t 10)))) data.
Proof.
  intros H. unfold holman_ws5029pwm_decode in H.
  destruct (_ || _); [discriminate H|].
  destruct (negb (bytes_equal _ _ _ _)); [discriminate H|].
  destruct (negb (_ =? 0)); [discriminate H|].
  injection H as <-.
  match goal with
  | |- context [ratio (holman_pwm_temp_tenths ?b) 10] =>
      exists (holman_pwm_temp_tenths b); split
  end.
  - unfold holman_pwm_temp_tenths, holman_pwm_temp_raw, u16.
    match goal with |- context [?x mod 65536] =>
      pose proof (Z.mod_pos_bound x 65536 ltac:(lia)) as Hm;
      set (m := x mod 65536) in *
    end.
    rewrite Z.shiftr_div_pow2 by lia. change (2 ^ 4) with 16.
    split; [apply Z.div_pos; lia|].
    assert (m / 16 < 4096) by (apply Z.div_lt_upper_bound; lia). lia.
  - right. right. right. left. reflexivity.
Qed.

Lemma holman_pwm_temperature_never_negative_witness :
  exists data t,
    holman_ws5029pwm_decode holman_minus_one = (1, Some data)
    /\ 0 <= t <= 4095
    /\ In (mk_field "temperature_C" "Temperature"
             (DATA_FORMAT "%.01f C" (DATA_DOUBLE (ratio t 10)))) data.
Proof.
  eexists.
  assert (H : holman_ws5029pwm_decode holman_minus_one = (1, Some _))
    by (vm_compute; reflexivity).
  destruct (holman_pwm_temperature_never_negative holman_minus_one _ H) as (t & Ht & Hin).
  exists t. split; [exact H|]. split; [exact Ht | exact Hin].
Defined.

(** ** Calibeur RF-104 *)

(** With the polynomial 0x80 one byte of [crc8] leaves the parity of its
    bits in the top bit. *)
Lemma crc8_bits_parity (r x : Z) :
  r = 0 \/ r = 128 -> is_byte x ->
  crc8_bits 8 (Z.lxor r x) 0x80 = 128 * ((r / 128 + bit_count 8 x) mod 2).
Proof.
  intros Hr Hx. revert x Hx.
  refine (Z_range_cases _ 256 _). intros i Hi.
  pose (f := fun (r : Z) (i : nat) =>
    crc8_bits 8 (Z.lxor r (Z.of_nat i)) 128
    =? 128 * ((r / 128 + bit_count 8 (Z.of_nat i)) mod 2)).
  assert (Hall : forallb (fun i => f 0 i && f 128 i) (seq 0 256) = true)
    by (vm_compute; reflexivity).
  pose proof (forallb_seq _ _ Hall i Hi) as H. apply andb_prop in H.
  destruct H as [H0 H1]. destruct Hr as [-> | ->]; apply Z.eqb_eq; assumption.
Qed.

Lemma calibeur_crc_is_parity (bb1 : bitrow) :
  Forall is_byte bb1 ->
  crc8 bb1 3 0x80 0
  = 128 * ((bit_count 8 (byte_at bb1 0) + bit_count 8 (byte_at bb1 1)
            + bit_count 8 (byte_at bb1 2)) mod 2).
Proof.
  intros Hby. unfold crc8. change (Z.to_nat 3) with 3%nat. cbn [crc8_from].
  pose proof (is_byte_byte_at bb1 0 Hby) as H0.
  pose proof (is_byte_byte_at bb1 1 Hby) as H1.
  pose proof (is_byte_byte_at bb1 2 Hby) as H2.
  change (0 + 1) with 1. change (1 + 1) with 2.
  set (c0 := bit_count 8 (byte_at bb1 0)).
  set (c1 := bit_count 8 (byte_at bb1 1)).
  set (c2 := bit_count 8 (byte_at bb1 2)).
  assert (Hm : forall z, 128 * (z mod 2) = 0 \/ 128 * (z mod 2) = 128).
  { intros z. pose proof (Z.mod_pos_bound z 2 ltac:(lia)). lia. }
  assert (Hd : forall z, 128 * (z mod 2) / 128 = z mod 2).
  { intros z. rewrite Z.mul_comm, Z.div_mul by lia. reflexivity. }
  rewrite (crc8_bits_parity 0 _ (or_introl eq_refl) H0). fold c0.
  change (0 / 128) with 0. rewrite Z.add_0_l.
  rewrite (crc8_bits_parity _ _ (Hm c0) H1). fold c1. rewrite Hd.
  rewrite Z.add_mod_idemp_l by lia.
  rewrite (crc8_bits_parity _ _ (Hm (c0 + c1)) H2). fold c2. rewrite Hd.
  rewrite Z.add_mod_idemp_l by lia. reflexivity.
Qed.

(** X11.  [calibeur_rf104_callback] accepts a packet exactly when row 1 has
    21 bits, the number of bits set in its three bytes is odd, and row 2
    repeats the three bytes: with polynomial 0x80 and initial value 0,
    [crc8] is 0x80 times the parity. *)
Theorem calibeur_accepts_odd_parity (time_str : string) (b : bitbuffer_t) :
  Forall is_byte (row_bytes b 1) ->
  let bb1 := row_bytes b 1 in
  let ones := bit_count 8 (byte_at bb1 0) + bit_count 8 (byte_at bb1 1)
              + bit_count 8 (byte_at bb1 2) in
  crc8 bb1 3 0x80 0 = 128 * (ones mod 2)
  /\ calibeur_rf104_callback time_str b
     = if (row_bits b 1 =? 21) && Z.odd ones && bytes_equal 3 bb1 (row_bytes b 2) 0
       then (1, Some (calibeur_reading time_str bb1))
       else (0, None).
Proof.
  intros Hby bb1 ones. pose proof (calibeur_crc_is_parity bb1 Hby) as Hc.
  fold ones in Hc. split; [exact Hc|].
  unfold calibeur_rf104_callback. fold bb1. rewrite Hc.
  rewrite Zmod_odd. destruct (Z.odd ones); reflexivity.
Qed.

Lemma calibeur_accepts_odd_parity_witness :
  let bb1 := row_bytes calibeur_parity_odd 1 in
  let ones := bit_count 8 (byte_at bb1 0) + bit_count 8 (byte_at bb1 1)
              + bit_count 8 (byte_at bb1 2) in
  crc8 bb1 3 0x80 0 = 128 * (ones mod 2)
  /\ calibeur_rf104_callback "12:00" calibeur_parity_odd
     = if (row_bits calibeur_parity_odd 1 =? 21) && Z.odd ones
          && bytes_equal 3 bb1 (row_bytes calibeur_parity_odd 2) 0
       then (1, Some (calibeur_reading "12:00" bb1))
       else (0, None).
Proof.
  apply (calibeur_accepts_odd_parity "12:00" calibeur_parity_odd).
  change (row_bytes calibeur_parity_odd 1) with [0xF3; 0x72; 0xB0].
  repeat constructor; unfold is_byte; lia.
Defined.




(** ** From the row to the Reading *)

Lemma data_extends_refl (data : data_t) : data_extends data data.
Proof. exists []. rewrite app_nil_r. reflexivity. Qed.

Lemma data_extends_trans (a b c : data_t) :
  data_extends a b -> data_extends b c -> data_extends a c.
Proof.
  intros [f ->] [g ->]. exists (f ++ g)%list. rewrite app_assoc. reflexivity.
Qed.

Lemma data_append_extends (data : data_t) (fields : list data_field) :
  data_extends data (data_append data fields).
Proof. exists fields. reflexivity. Qed.

Lemma add_hex_string_extends (data : data_t) (name : string) (buffer : list Z) :
  data_extends data (add_hex_string data name buffer).
Proof.
  unfold add_hex_string. destruct buffer; [apply data_extends_refl | apply data_append_extends].
Qed.

Lemma params_1030_extends (n : nat) (i : Z) (p : list Z) (data : data_t) :
  data_extends data (params_1030 n i p data).
Proof.
  destruct (params_1030_appends n i p data) as (fs & -> & _). exists fs. reflexivity.
Qed.

Lemma interpret_message_extends (msg : message_t) (data : data_t) :
  data_extends data (interpret_message msg data).
Proof.
  unfold interpret_message, decode_device_ids.
  repeat match goal with
  | |- context [if ?c then _ else _] => destruct c
  end;
  repeat first [ apply data_extends_refl
               | eapply data_extends_trans; [|apply data_append_extends]
               | eapply data_extends_trans; [|apply params_1030_extends] ].
Qed.

Lemma cm921_debug_fields_extends (message : message_t) (man_errors : Z) (data : data_t) :
  data_extends data (cm921_debug_fields message man_errors data).
Proof.
  unfold cm921_debug_fields.
  repeat first [ apply data_extends_refl
               | eapply data_extends_trans; [|apply data_append_extends]
               | eapply data_extends_trans; [|apply add_hex_string_extends] ].
Qed.

(** The footer 35 starts with the invalid pair 00. *)
Lemma footer_invalid_pair (bits : bitrow) (k : Z) :
  0 <= k -> byte_at bits k = 0x35 -> invalid_pair bits (k * 8).
Proof.
  intros Hk E. unfold invalid_pair. rewrite !bitrow_get_bit_alt by lia.
  replace (k * 8 + 1) with (1 + k * 8) by lia.
  rewrite Z.div_add, Z.mod_add by lia. rewrite Z.div_mul, Z.mod_mul by lia.
  change (1 / 8) with 0. change (1 mod 8) with 1. rewrite Z.add_0_l, E. reflexivity.
Qed.

(** X13.  A row whose re-assembled bytes are framed by the header and the
    footer and carry a clean Manchester code reaches [parse_msg] in either
    build, without Manchester errors and with a packet that holds the first
    bit of each of the [4 * (k - 3)] pairs between the header and the footer.
    When [parse_msg] returns, with 0 or with 1, the decoder returns 1 and
    emits a Reading that starts with the model and the hexadecimal text of
    the packet: the checksum does not decide whether a Reading is emitted.
    When [parse_msg] leaves the memory of the packet, as it does whenever the
    footer follows the header after at most one byte, the call of the
    decoder has no return. *)
Theorem cm921_framed_clean_emits (debug : bool) (b bytes : bitbuffer_t) (k : Z) :
  0 <= row_bits b 0 < 65536 ->
  cm921_bytes b = Next bytes ->
  cm921_framed (row_bytes bytes 0) (row_bits bytes 0) k ->
  manchester_clean (row_bytes bytes 0) (k * 8) ->
  exists packet,
    cm921_packet b = Next (packet, 0)
    /\ row_bits packet 0 = 4 * (k - 3)
    /\ (forall j, 0 <= j < 4 * (k - 3) ->
          bitrow_get_bit (row_bytes packet 0) j
          = bitrow_get_bit (row_bytes bytes 0) (24 + 2 * j))
    /\ (forall r msg, parse_msg packet 0 = Some (r, msg) ->
          exists data,
            honeywell_cm921_decode debug b = Some (1, Some data)
            /\ data_extends [mk_field "model" "" (DATA_STRING "Honeywell CM921");
                             mk_field "Packet" "" (DATA_STRING (hex packet 0))] data)
    /\ (parse_msg packet 0 = None -> honeywell_cm921_decode debug b = None)
    /\ (k <= 4 -> parse_msg packet 0 = None).
Proof.
  intros Hbits Hb Hframed Hclean.
  destruct (cm921_bytes_returns b Hbits) as [E | (bytes' & n & E & Hwf & Hmod & Hn)];
    rewrite Hb in E; [discriminate E|]. injection E as <-.
  pose proof Hwf as (_ & Hrb & Hn0 & _). rewrite Hrb in Hframed.
  assert (Hf : cm921_footer bytes = Next (k * 8)).
  { apply (cm921_footer_of_framed bytes n k Hwf Hmod ltac:(lia) Hframed). }
  destruct Hframed as (_ & _ & _ & Hk & E35 & _).
  pose proof (Z.div_mod n 8 ltac:(lia)) as Hdm. rewrite Hmod, Z.add_0_r in Hdm.
  assert (Hpar : (k * 8 - 24) mod 2 = 0).
  { replace (k * 8 - 24) with ((k * 4 - 12) * 2) by lia. apply Z.mod_mul. lia. }
  destruct (cm921_manchester_of_clean bytes n (k * 8) Hrb ltac:(lia) ltac:(lia) Hpar
              (footer_invalid_pair _ k ltac:(lia) E35) Hclean) as (Hz & Hlen & Hget).
  assert (Hhalf : (k * 8 - 24) / 2 = 4 * (k - 3)).
  { replace (k * 8 - 24) with (4 * (k - 3) * 2) by lia. apply Z.div_mul. lia. }
  rewrite Hhalf in Hlen, Hget.
  unfold honeywell_cm921_decode, cm921_packet. rewrite Hb, Hf.
  destruct (cm921_manchester bytes (k * 8)) as [packet man_errors].
  cbn [fst snd] in Hz, Hlen, Hget. subst man_errors.
  change (0 =? 0) with true. rewrite andb_false_r.
  exists packet. split; [reflexivity|]. split; [exact Hlen|]. split; [exact Hget|].
  split; [|split].
  - intros r msg Hp. rewrite Hp. eexists. split; [reflexivity|].
    unfold data_make.
    destruct debug.
    + eapply data_extends_trans; [|apply cm921_debug_fields_extends].
      destruct (negb (r =? 0)); [apply interpret_message_extends | apply data_extends_refl].
    + destruct (negb (r =? 0)); [apply interpret_message_extends | apply data_extends_refl].
  - intros Hp. rewrite Hp. reflexivity.
  - intros Hk4. unfold parse_msg.
    assert (E8 : (row_bits packet 0 <? 8) = true) by (apply Z.ltb_lt; lia).
    rewrite E8. reflexivity.
Qed.

Lemma cm921_sample_bytes_clean : manchester_clean (row_bytes cm921_sample_bytes 0) (25 * 8).
Proof.
  intros p Hp Hpar Hinv. revert Hpar Hinv.
  replace p with (24 + (p - 24)) by lia.
  assert (Hr : 0 <= p - 24 < Z.of_nat 176) by lia. revert Hr.
  generalize (p - 24). clear p Hp.
  refine (Z_range_cases _ 176 _). intros i Hi.
  pose (f := fun i : nat =>
    negb ((24 + Z.of_nat i - 24) mod 2 =? 0)
    || negb (bitrow_get_bit (row_bytes cm921_sample_bytes 0) (24 + Z.of_nat i)
             =? bitrow_get_bit (row_bytes cm921_sample_bytes 0) (24 + Z.of_nat i + 1))).
  assert (Hall : forallb f (seq 0 176) = true) by (vm_compute; reflexivity).
  pose proof (forallb_seq _ _ Hall i Hi) as H. unfold f in H.
  intros Hpar Hinv. unfold invalid_pair in Hinv.
  apply Z.eqb_eq in Hpar. apply Z.eqb_eq in Hinv. rewrite Hpar, Hinv in H. discriminate H.
Qed.

Lemma cm921_framed_clean_emits_witness :
  exists packet,
    cm921_packet cm921_sample_row = Next (packet, 0)
    /\ row_bits packet 0 = 4 * (25 - 3)
    /\ (forall j, 0 <= j < 4 * (25 - 3) ->
          bitrow_get_bit (row_bytes packet 0) j
          = bitrow_get_bit (row_bytes cm921_sample_bytes 0) (24 + 2 * j))
    /\ (forall r msg, parse_msg packet 0 = Some (r, msg) ->
          exists data,
            honeywell_cm921_decode false cm921_sample_row = Some (1, Some data)
            /\ data_extends [mk_field "model" "" (DATA_STRING "Honeywell CM921");
                             mk_field "Packet" "" (DATA_STRING (hex packet 0))] data)
    /\ (parse_msg packet 0 = None -> honeywell_cm921_decode false cm921_sample_row = None)
    /\ (25 <= 4 -> parse_msg packet 0 = None).
Proof.
  apply (cm921_framed_clean_emits false cm921_sample_row cm921_sample_bytes 25).
  - change (0 <= 302 < 65536). lia.
  - vm_compute. reflexivity.
  - unfold cm921_framed. change (row_bits cm921_sample_bytes 0) with 216.
    change (216 / 8) with 27.
    split; [reflexivity|]. split; [reflexivity|]. split; [reflexivity|].
    split; [lia|]. split; [reflexivity|].
    intros j Hj. assert (j = 26) as -> by lia. reflexivity.
  - exact cm921_sample_bytes_clean.
Defined.

(** ** inFactory *)

(** X14.  [infactory_callback] checks nothing but the length: every row of
    40 bits gives a Reading, the byte that the protocol calls a checksum is
    not read at all, and the two digits of the humidity are not tested to be
    decimal digits, so that it ranges up to 165; the temperature lies
    between -90.0 and 319.5 degrees. *)
Theorem infactory_checks_length_only (bitbuffer : bitbuffer_t) :
  row_bits bitbuffer 0 = 40 -> Forall is_byte (row_bytes bitbuffer 0) ->
  (exists id t h,
     infactory_callback bitbuffer
     = (1, Some (data_make
         [mk_field "model" "" (DATA_STRING "inFactory sensor");
          mk_field "id" "ID" (DATA_FORMAT "%u" (DATA_INT id));
          mk_field "temperature_F" "Temperature"
            (DATA_FORMAT "%.02f °F" (DATA_DOUBLE (ratio t 10)));
          mk_field "humidity" "Humidity" (DATA_FORMAT "%u %%" (DATA_INT h))]))
     /\ -900 <= t <= 3195 /\ 0 <= h <= 165)
  /\ forall v, infactory_callback (set_row_byte bitbuffer 0 1 v)
               = infactory_callback bitbuffer.
Proof.
  intros Hbits Hby. split.
  - unfold infactory_callback. rewrite Hbits. change (negb (40 =? 40)) with false.
    cbv iota. eexists _, _, _. split; [reflexivity|].
    pose proof (is_byte_byte_at _ 2 Hby) as H2.
    pose proof (is_byte_byte_at _ 3 Hby) as H3.
    pose proof (is_byte_byte_at _ 4 Hby) as H4.
    unfold is_byte in *.
    set (b2 := byte_at (row_bytes bitbuffer 0) 2) in *.
    set (b3 := byte_at (row_bytes bitbuffer 0) 3) in *.
    set (b4 := byte_at (row_bytes bitbuffer 0) 4) in *.
    assert (Hs3 : 0 <= Z.shiftr b3 4 < 16).
    { rewrite Z.shiftr_div_pow2 by lia. change (2 ^ 4) with 16.
      split; [apply Z.div_pos; lia | apply Z.div_lt_upper_bound; lia]. }
    assert (Hs4 : 0 <= Z.shiftr b4 4 < 16).
    { rewrite Z.shiftr_div_pow2 by lia. change (2 ^ 4) with 16.
      split; [apply Z.div_pos; lia | apply Z.div_lt_upper_bound; lia]. }
    assert (Hl3 : 0 <= Z.land b3 15 < 16).
    { assert (E : Z.land b3 15 = b3 mod 16) by (apply (Z.land_ones b3 4); lia).
      rewrite E. apply Z.mod_pos_bound. lia. }
    assert (Ht : 0 <= Z.lor (Z.shiftl b2 4) (Z.shiftr b3 4) < 2 ^ 12).
    { apply lor_bound; [lia | | change (2 ^ 12) with 4096; lia].
      rewrite Z.shiftl_mul_pow2 by lia. change (2 ^ 4) with 16.
      change (2 ^ 12) with 4096. lia. }
    change (2 ^ 12) with 4096 in Ht. lia.
  - intros v. unfold infactory_callback.
    rewrite row_bits_set_row_byte, row_bytes_set_row_byte.
    rewrite !byte_at_set_byte_neq by lia. reflexivity.
Qed.

Lemma infactory_checks_length_only_witness :
  let bitbuffer := mk_bitbuffer 1 [40] [[0x0F; 0x30; 0x5C; 0xE7; 0x61]] in
  (exists id t h,
     infactory_callback bitbuffer
     = (1, Some (data_make
         [mk_field "model" "" (DATA_STRING "inFactory sensor");
          mk_field "id" "ID" (DATA_FORMAT "%u" (DATA_INT id));
          mk_field "temperature_F" "Temperature"
            (DATA_FORMAT "%.02f °F" (DATA_DOUBLE (ratio t 10)));
          mk_field "humidity" "Humidity" (DATA_FORMAT "%u %%" (DATA_INT h))]))
     /\ -900 <= t <= 3195 /\ 0 <= h <= 165)
  /\ forall v, infactory_callback (set_row_byte bitbuffer 0 1 v)
               = infactory_callback bitbuffer.
Proof.
  apply (infactory_checks_length_only (mk_bitbuffer 1 [40] [[0x0F; 0x30; 0x5C; 0xE7; 0x61]])).
  - reflexivity.
  - change (row_bytes (mk_bitbuffer 1 [40] [[0x0F; 0x30; 0x5C; 0xE7; 0x61]]) 0)
      with [0x0F; 0x30; 0x5C; 0xE7; 0x61].
    repeat constructor; unfold is_byte; lia.
Defined.

(** ** X10 RF *)

(** After the complement test, the constant bits of the second byte of a
    pair say what those of the first say. *)
Lemma x10_rf_complement_bits (m x y : Z) :
  m = 0x0B \/ m = 0x07 -> is_byte x -> is_byte y -> Z.lxor x y = 0xff ->
  (Z.land m y =? m) = (Z.land m x =? 0).
Proof.
  intros Hm Hx Hy. revert y Hy. pattern x. revert x Hx.
  refine (Z_range_cases _ 256 _). intros i Hi.
  refine (Z_range_cases _ 256 _). intros j Hj.
  pose (f := fun (m : Z) (i j : nat) =>
    negb (Z.lxor (Z.of_nat i) (Z.of_nat j) =? 255)
    || Bool.eqb (Z.land m (Z.of_nat j) =? m) (Z.land m (Z.of_nat i) =? 0)).
  assert (Hall : forallb (fun i => forallb (fun j => f 11 i j && f 7 i j) (seq 0 256))
                   (seq 0 256) = true) by (vm_compute; reflexivity).
  pose proof (forallb_seq _ _ (forallb_seq _ _ Hall i Hi) j Hj) as H.
  apply andb_prop in H. destruct H as [H1 H2]. intros E. apply Z.eqb_eq in E.
  unfold f in H1, H2. rewrite E in H1, H2. cbn [negb orb] in H1, H2.
  destruct Hm as [-> | ->]; apply eqb_prop; assumption.
Qed.

Lemma x10_rf_code_ranges (b : bitrow) :
  is_byte (byte_at b 0) -> is_byte (byte_at b 2) ->
  1 <= x10_rf_device_code b <= 16 /\ 0 <= x10_rf_house_code b <= 15.
Proof.
  unfold x10_rf_device_code, x10_rf_house_code.
  generalize (byte_at b 0) (byte_at b 2). intros x y Hx Hy.
  revert y Hy. pattern x. revert x Hx.
  refine (Z_range_cases _ 256 _). intros i Hi.
  refine (Z_range_cases _ 256 _). intros j Hj.
  pose (dev := fun x y : Z =>
    u8 (u8 (Z.lor (u8 (Z.lor (u8 (Z.lor (u8 (Z.shiftl (Z.land x 0x04) 1))
                                          (Z.shiftr (Z.land y 0x40) 4)))
                             (Z.shiftr (Z.land y 0x08) 2)))
                  (Z.shiftr (Z.land y 0x10) 4)) + 1)).
  pose (house := fun x : Z =>
    let h0 := Z.shiftr (Z.land x 0x80) 7 in
    let h1 := Z.shiftr (Z.land x 0x40) 6 in
    let h2 := Z.shiftr (Z.land x 0x20) 5 in
    let h3 := Z.shiftr (Z.land x 0x10) 4 in
    u8 (Z.lor (u8 (Z.lor (u8 (Z.lor (u8 (Z.shiftl (Z.land (Z.lnot (Z.lxor h0 h1)) 0x01) 3))
                                    (Z.shiftl (Z.land (Z.lnot h1) 0x01) 2)))
                         (Z.shiftl (Z.land (Z.lxor h1 h2) 0x01) 1)))
              (Z.land h3 0x01))).
  pose (f := fun i j : nat =>
    (1 <=? dev (Z.of_nat i) (Z.of_nat j)) && (dev (Z.of_nat i) (Z.of_nat j) <=? 16)
    && (0 <=? house (Z.of_nat i)) && (house (Z.of_nat i) <=? 15)).
  assert (Hall : forallb (fun i => forallb (f i) (seq 0 256)) (seq 0 256) = true)
    by (vm_compute; reflexivity).
  pose proof (forallb_seq _ _ (forallb_seq _ _ Hall i Hi) j Hj) as H. unfold f in H.
  repeat (apply andb_prop in H; destruct H as [H ?]).
  repeat match goal with H : (_ <=? _) = true |- _ => apply Z.leb_le in H end.
  fold (dev (Z.of_nat i) (Z.of_nat j)).
  split; [lia|]. change (0 <= house (Z.of_nat i) <= 15). lia.
Qed.

(** X15.  [x10_rf_callback] accepts a packet exactly when row 1 has 32 bits,
    the second and fourth byte are the complements of the first and third,
    and the constant bits of the first and third byte are clear; the tests
    of the constant bits of the second and fourth byte then never fail.  An
    accepted packet gives a house letter from A to P and the event DIM or
    BRI with device 0, or ON or OFF with a device from 1 to 16; the initial
    event UNKNOWN is never emitted. *)
Theorem x10_rf_accepts_iff (id_key channel_key : string) (bitbuffer : bitbuffer_t) :
  Forall is_byte (row_bytes bitbuffer 1) ->
  let b := row_bytes bitbuffer 1 in
  let ok := (row_bits bitbuffer 1 =? 32)
            && (Z.lxor (byte_at b 0) (byte_at b 1) =? 0xff)
            && (Z.lxor (byte_at b 2) (byte_at b 3) =? 0xff)
            && (Z.land 0x0B (byte_at b 0) =? 0) && (Z.land 0x07 (byte_at b 2) =? 0) in
  (fst (x10_rf_callback id_key channel_key bitbuffer) = 1 <-> ok = true)
  /\ (ok = true ->
      exists dev house event code,
        x10_rf_callback id_key channel_key bitbuffer
        = (1, Some (data_make
            [mk_field "model" "" (DATA_STRING "X10-RF");
             mk_field id_key "" (DATA_INT dev);
             mk_field channel_key "" (DATA_STRING (String house EmptyString));
             mk_field "state" "State" (DATA_STRING event);
             mk_field "data" "Data" (DATA_FORMAT "%08x" (DATA_INT code))]))
        /\ (65 <= nat_of_ascii house <= 80)%nat
        /\ (((event = "DIM" \/ event = "BRI") /\ dev = 0)
            \/ ((event = "ON" \/ event = "OFF") /\ 1 <= dev <= 16))).
Proof.
  intros Hby b ok.
  assert (Hok : ok = (row_bits bitbuffer 1 =? 32)
                     && (Z.lxor (byte_at b 0) (byte_at b 1) =? 0xff)
                     && (Z.lxor (byte_at b 2) (byte_at b 3) =? 0xff)
                     && (Z.land 0x0B (byte_at b 0) =? 0)
                     && (Z.land 0x07 (byte_at b 2) =? 0)) by reflexivity.
  clearbody ok.
  pose proof (is_byte_byte_at b 0 Hby) as H0. pose proof (is_byte_byte_at b 1 Hby) as H1.
  pose proof (is_byte_byte_at b 2 Hby) as H2. pose proof (is_byte_byte_at b 3 Hby) as H3.
  assert (Hcall : (x10_rf_callback id_key channel_key bitbuffer
            = if ok
              then
                let '(dev, event) :=
                  if Z.land (byte_at b 2) 0x80 =? 0x80
                  then (0, if Z.land (byte_at b 2) 0x10 =? 0x10 then "DIM" else "BRI")
                  else (x10_rf_device_code b,
                        if Z.land (byte_at b 2) 0x20 =? 0x00 then "ON" else "OFF") in
                (1, Some (data_make
                  [mk_field "model" "" (DATA_STRING "X10-RF");
                   mk_field id_key "" (DATA_INT dev);
                   mk_field channel_key ""
                     (DATA_STRING
                        (String (ascii_of_nat (Z.to_nat (u8 (x10_rf_house_code b + 65))))
                                EmptyString));
                   mk_field "state" "State" (DATA_STRING event);
                   mk_field "data" "Data"
                     (DATA_FORMAT "%08x"
                        (DATA_INT (i32 (u32 (Z.lor (Z.lor (Z.lor (Z.shiftl (byte_at b 0) 24)
                                                               (Z.shiftl (byte_at b 1) 16))
                                                        (Z.shiftl (byte_at b 2) 8))
                                                 (byte_at b 3))))))]))
              else (fst (x10_rf_callback id_key channel_key bitbuffer), None))
          /\ (ok = false -> fst (x10_rf_callback id_key channel_key bitbuffer) <> 1)).
  { unfold x10_rf_callback. rewrite Hok. clear Hok. fold b.
    destruct (row_bits bitbuffer 1 =? 32); cbn [negb andb];
      [|split; [reflexivity | intros _; discriminate]].
    destruct (Z.lxor (byte_at b 0) (byte_at b 1) =? 255) eqn:E01; cbn [negb andb orb];
      [|split; [reflexivity | intros _; discriminate]].
    destruct (Z.lxor (byte_at b 2) (byte_at b 3) =? 255) eqn:E23; cbn [negb andb orb];
      [|split; [reflexivity | intros _; discriminate]].
    apply Z.eqb_eq in E01. apply Z.eqb_eq in E23.
    cbn [x10_rf_const_bits]. change (Z.to_nat 0) with 0%nat.
    change (Z.to_nat (0 + 1)) with 1%nat. change (Z.to_nat (0 + 1 + 1)) with 2%nat.
    change (Z.to_nat (0 + 1 + 1 + 1)) with 3%nat.
    cbn [nth arrbKnownConstBitMask arrbKnownConstBitValue].
    change (0 + 1 + 1 + 1) with 3. change (0 + 1 + 1) with 2. change (0 + 1) with 1.
    rewrite (x10_rf_complement_bits 11 _ _ (or_introl eq_refl) H0 H1 E01).
    rewrite (x10_rf_complement_bits 7 _ _ (or_intror eq_refl) H2 H3 E23).
    destruct (Z.land 11 (byte_at b 0) =? 0); cbn [negb andb];
      [|split; [reflexivity | intros _; discriminate]].
    destruct (Z.land 7 (byte_at b 2) =? 0); cbn [negb andb];
      [|split; [reflexivity | intros _; discriminate]].
    split; [|intros E; discriminate E].
    destruct (Z.land (byte_at b 2) 128 =? 128); reflexivity. }
  destruct Hcall as [Hcall Hno]. split.
  - split.
    + intros Hfst. destruct ok eqn:Eok; [reflexivity|]. exfalso. apply Hno; auto.
    + intros Eok. rewrite Hcall, Eok.
      destruct (Z.land (byte_at b 2) 128 =? 128); reflexivity.
  - intros Eok. rewrite Hcall, Eok.
    destruct (x10_rf_code_ranges b H0 H2) as [Hdev Hhouse].
    assert (Hchar : (65 <= nat_of_ascii (ascii_of_nat (Z.to_nat (u8 (x10_rf_house_code b + 65))))
                     <= 80)%nat).
    { unfold u8. rewrite Z.mod_small by lia. rewrite nat_ascii_embedding by lia. lia. }
    destruct (Z.land (byte_at b 2) 128 =? 128).
    + eexists _, _, _, _. split; [reflexivity|]. split; [exact Hchar|]. left.
      split; [|reflexivity].
      destruct (Z.land (byte_at b 2) 16 =? 16); [left | right]; reflexivity.
    + eexists _, _, _, _. split; [reflexivity|]. split; [exact Hchar|]. right.
      split; [|exact Hdev].
      destruct (Z.land (byte_at b 2) 32 =? 0); [left | right]; reflexivity.
Qed.

Lemma x10_rf_accepts_iff_witness :
  fst (x10_rf_callback "id" "channel" x10_rf_sample) = 1.
Proof.
  refine (proj2 (proj1 (x10_rf_accepts_iff "id" "channel" x10_rf_sample _)) _).
  - change (row_bytes x10_rf_sample 1) with [0x60; 0x9F; 0x00; 0xFF].
    repeat constructor; unfold is_byte; lia.
  - reflexivity.
Defined.

(** ** X10 Security *)

Lemma x10_sec_rows_first (model_name : string) (bitbuffer : bitbuffer_t) (n : nat) :
  forall r0 r,
  r0 <= r < r0 + Z.of_nat n ->
  (forall r', r0 <= r' < r -> x10_sec_row_ok bitbuffer r' = false) ->
  x10_sec_row_ok bitbuffer r = true ->
  x10_sec_rows n r0 model_name bitbuffer
  = (1, Some (x10_sec_reading model_name (row_bytes bitbuffer r))).
Proof.
  induction n as [|n IH]; intros r0 r Hr Hbefore Hok; [lia|].
  cbn [x10_sec_rows]. destruct (Z.eq_dec r0 r) as [-> | Hne].
  - rewrite Hok. reflexivity.
  - rewrite (Hbefore r0) by lia. apply IH; [lia | | exact Hok].
    intros r' Hr'. apply Hbefore. lia.
Qed.

Lemma x10_sec_rows_none (model_name : string) (bitbuffer : bitbuffer_t) (n : nat) :
  forall r0,
  (forall r', r0 <= r' < r0 + Z.of_nat n -> x10_sec_row_ok bitbuffer r' = false) ->
  x10_sec_rows n r0 model_name bitbuffer = (DECODE_ABORT_EARLY, None).
Proof.
  induction n as [|n IH]; intros r0 Hnone; [reflexivity|].
  cbn [x10_sec_rows]. rewrite (Hnone r0) by lia. apply IH.
  intros r' Hr'. apply Hnone. lia.
Qed.

(** The two tests of the loop, spelled out. *)
Lemma x10_sec_row_ok_iff (bitbuffer : bitbuffer_t) (r : Z) :
  x10_sec_row_ok bitbuffer r = true
  <-> 40 <= row_bits bitbuffer r
      /\ Z.lxor (byte_at (row_bytes bitbuffer r) 0) (byte_at (row_bytes bitbuffer r) 1) = 0x0f
      /\ Z.lxor (byte_at (row_bytes bitbuffer r) 2) (byte_at (row_bytes bitbuffer r) 3) = 0xff.
Proof.
  unfold x10_sec_row_ok.
  destruct (row_bits bitbuffer r <? 40) eqn:E1;
  destruct (Z.lxor (byte_at (row_bytes bitbuffer r) 0) (byte_at (row_bytes bitbuffer r) 1)
            =? 15) eqn:E2;
  destruct (Z.lxor (byte_at (row_bytes bitbuffer r) 2) (byte_at (row_bytes bitbuffer r) 3)
            =? 255) eqn:E3;
  cbn [negb andb orb];
  repeat match goal with
  | H : (_ =? _) = true |- _ => apply Z.eqb_eq in H
  | H : (_ =? _) = false |- _ => apply Z.eqb_neq in H
  | H : (_ <? _) = true |- _ => apply Z.ltb_lt in H
  | H : (_ <? _) = false |- _ => apply Z.ltb_ge in H
  end;
  split; try discriminate; try (intros (H1 & H2 & H3); lia || contradiction);
  intros _; repeat split; assumption.
Qed.

(** A Reading of [x10_sec_callback] starts with the model, the id, the code
    and the event; [delay] and [battery_ok] may follow. *)
Lemma x10_sec_reading_shape (model_name : string) (b : bitrow) :
  exists event_str rest,
    x10_sec_reading model_name b
    = ([mk_field "model" "" (DATA_STRING model_name);
        mk_field "id" "Device ID"
          (DATA_STRING (hex2 (byte_at b 0) ++ hex2 (byte_at b 4))%string);
        mk_field "code" "Code" (DATA_STRING (hex2 (byte_at b 2)));
        mk_field "event" "Event" (DATA_STRING event_str)] ++ rest)%list
    /\ forall f, In f rest -> key f = "delay" \/ key f = "battery_ok".
Proof.
  unfold x10_sec_reading.
  destruct (x10_sec_event (byte_at b 2)) as [event_str delay].
  exists event_str.
  destruct (negb (delay =? 0)); destruct (negb (Z.land (byte_at b 2) 1 =? 0));
    unfold data_append, data_make; cbn [app];
    eexists; (split; [reflexivity|]);
    intros f Hf; cbn [In] in Hf;
    repeat (destruct Hf as [<- | Hf]; [cbn [key]; tauto|]); contradiction.
Qed.

(** X16.  [x10_sec_callback] decodes the first row that has at least 40 bits
    and in which the second byte is the first with its low nibble inverted
    (their exclusive or is 0f) and the fourth byte is the complement of the
    third (their exclusive or is ff), whatever the rows before it hold: it
    returns 1, and the Reading starts with the model, the id made of the
    first and the fifth byte of that row, its third byte as the code and
    the event.  Without such a row it returns [DECODE_ABORT_EARLY] and emits
    nothing. *)
Theorem x10_sec_first_valid_row (model_name : string) (bitbuffer : bitbuffer_t) :
  let valid := fun r : Z =>
    40 <= row_bits bitbuffer r
    /\ Z.lxor (byte_at (row_bytes bitbuffer r) 0) (byte_at (row_bytes bitbuffer r) 1) = 0x0f
    /\ Z.lxor (byte_at (row_bytes bitbuffer r) 2) (byte_at (row_bytes bitbuffer r) 3) = 0xff in
  (forall r, 0 <= r < num_rows bitbuffer ->
     (forall r', 0 <= r' < r -> ~ valid r') ->
     valid r ->
     exists event_str rest,
       x10_sec_callback model_name bitbuffer
       = (1, Some ([mk_field "model" "" (DATA_STRING model_name);
                    mk_field "id" "Device ID"
                      (DATA_STRING (hex2 (byte_at (row_bytes bitbuffer r) 0)
                                    ++ hex2 (byte_at (row_bytes bitbuffer r) 4))%string);
                    mk_field "code" "Code"
                      (DATA_STRING (hex2 (byte_at (row_bytes bitbuffer r) 2)));
                    mk_field "event" "Event" (DATA_STRING event_str)] ++ rest)%list)
       /\ forall f, In f rest -> key f = "delay" \/ key f = "battery_ok")
  /\ ((forall r, 0 <= r < num_rows bitbuffer -> ~ valid r) ->
      x10_sec_callback model_name bitbuffer = (DECODE_ABORT_EARLY, None)).
Proof.
  intros valid. unfold x10_sec_callback. split.
  - intros r Hr Hbefore Hok.
    destruct (x10_sec_reading_shape model_name (row_bytes bitbuffer r))
      as (event_str & rest & Hshape & Hrest).
    exists event_str, rest. split; [|exact Hrest].
    rewrite <- Hshape. apply x10_sec_rows_first.
    + lia.
    + intros r' Hr'. destruct (x10_sec_row_ok bitbuffer r') eqn:E; [|reflexivity].
      exfalso. apply (Hbefore r' ltac:(lia)). apply x10_sec_row_ok_iff. exact E.
    + apply x10_sec_row_ok_iff. exact Hok.
  - intros Hnone. apply x10_sec_rows_none. intros r' Hr'.
    destruct (x10_sec_row_ok bitbuffer r') eqn:E; [|reflexivity].
    exfalso. apply (Hnone r' ltac:(lia)). apply x10_sec_row_ok_iff. exact E.
Qed.

(** X17.  In a Reading of [x10_sec_callback] the field [battery_ok] is
    present exactly when the low bit of the code is set, and its value is
    then 0; the field [delay] is present, with value 1, exactly for a DS10A
    code with bit 2 clear.  A Reading never says that the battery is good. *)
Theorem x10_sec_battery_ok_only_zero (model_name : string) (b : bitrow) :
  let data := x10_sec_reading model_name b in
  (forall f, In f data -> key f = "battery_ok" -> value f = DATA_INT 0)
  /\ (In (mk_field "battery_ok" "Battery OK" (DATA_INT 0)) data
      <-> Z.land (byte_at b 2) 0x01 <> 0)
  /\ (forall f, In f data -> key f = "delay" -> value f = DATA_INT 1)
  /\ (In (mk_field "delay" "Delay" (DATA_INT 1)) data
      <-> snd (x10_sec_event (byte_at b 2)) = 1).
Proof.
  cbv zeta. unfold x10_sec_reading.
  assert (Hd : snd (x10_sec_event (byte_at b 2)) = 0
               \/ snd (x10_sec_event (byte_at b 2)) = 1).
  { unfold x10_sec_event.
    repeat match goal with
    | |- context [if ?c then _ else _] => destruct c
    end; cbn [snd]; auto. }
  destruct (x10_sec_event (byte_at b 2)) as [event_str delay]. cbn [snd] in *.
  destruct (land_1_cases (byte_at b 2)) as [E | E]; rewrite E;
  destruct Hd as [-> | ->]; cbn [Z.eqb negb data_append data_make app];
  (split; [intros f Hf Hk; cbn [In] in Hf;
           repeat (destruct Hf as [<- | Hf]; [try discriminate Hk; try reflexivity|]);
           contradiction|]);
  (split; [split; [intros Hin; cbn [In] in Hin;
                   repeat (destruct Hin as [Hin | Hin]; [try discriminate Hin|]);
                   try contradiction; discriminate
                  | intros Hne; try (exfalso; apply Hne; reflexivity);
                    cbn [In]; tauto]|]);
  (split; [intros f Hf Hk; cbn [In] in Hf;
           repeat (destruct Hf as [<- | Hf]; [try discriminate Hk; try reflexivity|]);
           contradiction|]);
  (split; [intros Hin; cbn [In] in Hin;
           repeat (destruct Hin as [Hin | Hin]; [try discriminate Hin|]);
           try contradiction; reflexivity
          | intros Hne; try discriminate Hne; cbn [In]; tauto]).
Qed.

Lemma x10_sec_first_valid_row_witness :
  exists event_str rest,
    x10_sec_callback "X10-Security" x10_sec_third_row
    = (1, Some ([mk_field "model" "" (DATA_STRING "X10-Security");
                 mk_field "id" "Device ID" (DATA_STRING "5a7c");
                 mk_field "code" "Code" (DATA_STRING "01");
                 mk_field "event" "Event" (DATA_STRING event_str)] ++ rest)%list)
    /\ forall f, In f rest -> key f = "delay" \/ key f = "battery_ok".
Proof.
  refine (proj1 (x10_sec_first_valid_row "X10-Security" x10_sec_third_row) 2 _ _ _).
  - change (num_rows x10_sec_third_row) with 3. lia.
  - intros r' Hr' (H1 & H2 & _).
    assert (Hc : r' = 0 \/ r' = 1) by lia.
    destruct Hc as [-> | ->]; [vm_compute in H1; apply H1; reflexivity | discriminate H2].
  - split; [vm_compute; discriminate|]. split; reflexivity.
Defined.

(** ** MQTT topics *)

(** The test of [mqtt_sanitize_topic] passes exactly the characters
    [-.A-Za-z0-9]. *)
Lemma mqtt_keep_topic_char (c : ascii) : mqtt_keep c = true <-> topic_char c.
Proof.
  unfold mqtt_keep, topic_char. cbv zeta.
  generalize (nat_of_ascii c). intros n.
  destruct (Z.of_nat n =? 45) eqn:E1; destruct (Z.of_nat n =? 46) eqn:E2;
  destruct (Z.of_nat n <? 65) eqn:E3; destruct (90 <? Z.of_nat n) eqn:E4;
  destruct (Z.of_nat n <? 97) eqn:E5; destruct (122 <? Z.of_nat n) eqn:E6;
  destruct (Z.of_nat n <? 48) eqn:E7; destruct (57 <? Z.of_nat n) eqn:E8;
  cbn [negb andb orb];
  repeat match goal with
  | H : (_ =? _) = true |- _ => apply Z.eqb_eq in H
  | H : (_ =? _) = false |- _ => apply Z.eqb_neq in H
  | H : (_ <? _) = true |- _ => apply Z.ltb_lt in H
  | H : (_ <? _) = false |- _ => apply Z.ltb_ge in H
  end;
  split; intros H; try discriminate H; try reflexivity; lia.
Qed.

(** The underscore is not among the characters [-.A-Za-z0-9]. *)
Lemma underscore_not_topic_char : ~ topic_char "_"%char.
Proof. unfold topic_char. cbn. lia. Qed.

(** X18.  [mqtt_sanitize_topic] works character by character on a C string:
    a character among [-.A-Za-z0-9], that is the hyphen, the dot, a digit, a
    capital or a small letter, stays as it is, and every other character
    becomes an underscore, which the comment of the function does not list.
    The length of the topic is kept, and a sanitized topic is left as it
    is. *)
Theorem mqtt_sanitize_topic_clean (topic : string) :
  String.length (mqtt_sanitize_topic topic) = String.length topic
  /\ mqtt_sanitize_topic (mqtt_sanitize_topic topic) = mqtt_sanitize_topic topic
  /\ (no_nul topic ->
      forall i c, String.get i topic = Some c ->
        (topic_char c -> String.get i (mqtt_sanitize_topic topic) = Some c)
        /\ (~ topic_char c -> String.get i (mqtt_sanitize_topic topic) = Some "_"%char)).
Proof.
  induction topic as [|c rest (IHlen & IHidem & IHget)].
  - cbn. repeat split; auto; discriminate.
  - cbn [mqtt_sanitize_topic].
    destruct (nat_of_ascii c =? 0)%nat eqn:E0.
    + split; [reflexivity|]. split.
      * cbn [mqtt_sanitize_topic]. rewrite E0. reflexivity.
      * apply Nat.eqb_eq in E0. intros [Hc _]. contradiction.
    + split; [cbn [String.length]; rewrite IHlen; reflexivity|]. split.
      * destruct (mqtt_keep c) eqn:Ek.
        -- cbn [mqtt_sanitize_topic]. rewrite E0, Ek, IHidem. reflexivity.
        -- cbn [mqtt_sanitize_topic]. change (nat_of_ascii "_" =? 0)%nat with false.
           change (mqtt_keep "_") with false. cbv iota. rewrite IHidem. reflexivity.
      * intros [_ Hn] i d Hget. destruct i as [|i].
        -- cbn [String.get] in Hget. injection Hget as <-. cbn [String.get]. split.
           ++ intros Hc. apply mqtt_keep_topic_char in Hc. rewrite Hc. reflexivity.
           ++ intros Hc. destruct (mqtt_keep c) eqn:Ek; [|reflexivity].
              exfalso. apply Hc. apply mqtt_keep_topic_char. exact Ek.
        -- cbn [String.get] in Hget |- *. apply IHget; assumption.
Qed.

Lemma mqtt_sanitize_topic_clean_witness :
  String.get 3 (mqtt_sanitize_topic "dev/a b") = Some "_"%char
  /\ String.get 4 (mqtt_sanitize_topic "dev/a b") = Some "a"%char.
Proof.
  pose proof (proj2 (proj2 (mqtt_sanitize_topic_clean "dev/a b"))) as H.
  assert (Hn : no_nul "dev/a b") by (cbn; repeat split; discriminate).
  split.
  - apply (proj2 (H Hn 3%nat "/"%char eq_refl)). unfold topic_char. cbn. lia.
  - apply (proj1 (H Hn 4%nat "a"%char eq_refl)). unfold topic_char. cbn. lia.
Defined.

Lemma scan_passes (stop : ascii -> bool) (s rest : string) :
  passes stop s = true ->
  at_end rest = true \/ (exists c r, rest = String c r /\ stop c = true) ->
  scan stop (s ++ rest) = (s, rest).
Proof.
  intros Hs Hrest. induction s as [|c s IH].
  - cbn [append]. destruct rest as [|c r]; [reflexivity|]. cbn [scan].
    destruct Hrest as [Hend | (c' & r' & E & Hstop)].
    + cbn [at_end] in Hend. rewrite Hend. reflexivity.
    + injection E as <- <-. rewrite Hstop, orb_true_r. reflexivity.
  - cbn [passes] in Hs. apply andb_prop in Hs. destruct Hs as [Hc Hs].
    apply negb_true_iff in Hc. cbn [append scan]. rewrite Hc, (IH Hs). reflexivity.
Qed.

Lemma string_app_nil_r (s : string) : (s ++ "")%string = s.
Proof. induction s as [|c s IH]; cbn; [reflexivity | rewrite IH; reflexivity]. Qed.

Lemma string_length_app (s t : string) :
  String.length (s ++ t) = (String.length s + String.length t)%nat.
Proof. induction s as [|c s IH]; cbn; [reflexivity | rewrite IH; reflexivity]. Qed.

(** On a token of the format, [strncmp] over the length of the token tests
    whether the token is a prefix of the keyword. *)
Lemma strncmp_eq_prefix (t rest kw : string) :
  strncmp_eq (t ++ rest) kw (String.length t) = String.prefix t kw.
Proof.
  revert kw. induction t as [|a t IH]; intros kw.
  - destruct kw; reflexivity.
  - destruct kw as [|b kw]; [reflexivity|].
    cbn [append String.length strncmp_eq String.prefix].
    destruct (ascii_dec a b) as [-> | Hne].
    + rewrite Ascii.eqb_refl. cbn [andb]. apply IH.
    + apply Ascii.eqb_neq in Hne. rewrite Hne. reflexivity.
Qed.

(** X19.  [expand_topic] copies a format without an opening bracket as it
    is, whatever the Reading and the host name are. *)
Theorem expand_topic_literal (format : string) (data : data_t) (hostname : string) :
  passes bracket_stop format = true ->
  expand_topic format data hostname = TOPIC format.
Proof.
  intros Hp. unfold expand_topic. cbn [expand_loop].
  destruct (at_end format) eqn:E.
  - destruct format as [|c r]; [reflexivity|]. cbn [at_end] in E. cbn [passes] in Hp.
    rewrite E in Hp. discriminate Hp.
  - pose proof (scan_passes bracket_stop format "" Hp (or_introl eq_refl)) as Hs.
    rewrite string_app_nil_r in Hs. rewrite Hs. reflexivity.
Qed.

Lemma expand_topic_literal_witness :
  expand_topic "rtl_433/devices" [] "host" = TOPIC "rtl_433/devices".
Proof. apply (expand_topic_literal "rtl_433/devices" [] "host"). reflexivity. Defined.

(** The loop of [expand_topic] on the inside of one token, after the opening
    bracket and the slash. *)
Lemma expand_loop_token (fuel : nat) (slash : bool) (t : string) (default : option string)
                        (data : data_t) (hostname : string) :
  passes key_stop t = true ->
  (forall d, default = Some d -> passes default_stop d = true) ->
  let rest := (match default with Some d => ":" ++ d | None => "" end ++ "]")%string in
  (at_char "/" (t ++ rest) = false \/ slash = true) ->
  expand_loop (S (S fuel)) (one_token slash t default) data hostname ""
  = match find (String.prefix t) topic_keywords with
    | None => EXIT_1
    | Some kw =>
        let piece :=
          if String.eqb kw "hostname" then Some hostname
          else match collect_key kw data with
               | Some d => Some (append_topic d)
               | None => default
               end in
        TOPIC (match piece with
               | None => ""
               | Some text => (if slash then "/" else "") ++ text
               end)
    end.
Proof.
  intros Ht Hd rest Hslash. unfold one_token. fold rest.
  assert (Hscan : scan key_stop (t ++ rest) = (t, rest)).
  { apply scan_passes; [exact Ht|]. right. subst rest.
    destruct default as [d|]; eexists _, _; (split; [reflexivity|]); reflexivity. }
  assert (Hres : resolve_token (t ++ rest) (String.length t)
                 = match find (String.prefix t) topic_keywords with
                   | None => None
                   | Some kw => Some (if String.eqb kw "hostname" then TOKEN_HOSTNAME
                                      else TOKEN_DATA kw)
                   end).
  { unfold resolve_token. rewrite !strncmp_eq_prefix. cbn [find topic_keywords].
    repeat match goal with
    | |- context [String.prefix t ?kw] => destruct (String.prefix t kw)
    end; reflexivity. }
  assert (Hdef : (if at_char ":" rest
                  then let '(d, format) := scan default_stop (advance rest) in (Some d, format)
                  else (None, rest)) = (default, "]"%string)).
  { subst rest. destruct default as [d|].
    - change (at_char ":" ((":" ++ d) ++ "]")) with true. cbv iota.
      change (advance ((":" ++ d) ++ "]")) with (d ++ "]")%string.
      rewrite (scan_passes default_stop d "]" (Hd d eq_refl)); [reflexivity|].
      right. eexists _, _. split; reflexivity.
    - reflexivity. }
  assert (Hbody : forall format,
            format = (t ++ rest)%string ->
            (let t_start := format in
             let '(token, format) := scan key_stop format in
             let '(default0, format) :=
               if at_char ":" format
               then let '(d, format) := scan default_stop (advance format) in (Some d, format)
               else (None, format) in
             if negb (at_char "]" format) then EXIT_1
             else
               match resolve_token t_start (String.length token) with
               | None => EXIT_1
               | Some tok =>
                   let piece :=
                     match tok with
                     | TOKEN_HOSTNAME => Some hostname
                     | TOKEN_DATA k =>
                         match collect_key k data with
                         | Some d => Some (append_topic d)
                         | None => default0
                         end
                     end in
                   match piece with
                   | None => expand_loop (S fuel) (advance format) data hostname ""
                   | Some text =>
                       expand_loop (S fuel) (advance format) data hostname
                         ("" ++ (if slash then "/" else "") ++ text)
                   end
               end)
            = match find (String.prefix t) topic_keywords with
              | None => EXIT_1
              | Some kw =>
                  let piece :=
                    if String.eqb kw "hostname" then Some hostname
                    else match collect_key kw data with
                         | Some d => Some (append_topic d)
                         | None => default
                         end in
                  TOPIC (match piece with
                         | None => ""
                         | Some text => (if slash then "/" else "") ++ text
                         end)
              end).
  { intros format ->. cbv zeta. rewrite Hscan, Hdef, Hres.
    change (at_char "]" "]") with true. cbn [negb]. change (advance "]") with ""%string.
    destruct (find (String.prefix t) topic_keywords) as [kw|]; [|reflexivity].
    destruct (String.eqb kw "hostname"); [reflexivity|].
    destruct (collect_key kw data) as [d|]; [reflexivity|].
    destruct default; reflexivity. }
  destruct slash.
  - change ("[" ++ "/" ++ t ++ rest)%string with (String "[" (String "/" (t ++ rest))).
    cbn [expand_loop at_end scan].
    change (nat_of_ascii "[" =? 0)%nat with false. change (bracket_stop "[") with true.
    cbn [orb]. cbv beta iota. cbn [at_end advance].
    change (nat_of_ascii "[" =? 0)%nat with false. cbv beta iota.
    change (at_char "/" (String "/" (t ++ rest))) with true. cbv beta iota.
    cbn [advance]. exact (Hbody _ eq_refl).
  - change ("[" ++ "" ++ t ++ rest)%string with (String "[" (t ++ rest)).
    destruct Hslash as [Hs | Hs]; [|discriminate Hs].
    cbn [expand_loop at_end scan].
    change (nat_of_ascii "[" =? 0)%nat with false. change (bracket_stop "[") with true.
    cbn [orb]. cbv beta iota. cbn [at_end advance].
    change (nat_of_ascii "[" =? 0)%nat with false. cbv beta iota.
    rewrite Hs. cbv beta iota. exact (Hbody _ eq_refl).
Qed.

(** X20.  A format of one token, with or without a slash and a default.
    [expand_topic] takes the token for the first keyword, in the order
    hostname, type, model, subtype, channel, id, protocol, of which it is a
    prefix: an abbreviation stands for its keyword and the empty token for
    the host name; a token that is a prefix of none makes it exit.  A key
    that the Reading has is written with [append_topic] (the last field
    with that key counts), a key that it lacks gives the default, and
    without a default nothing is written, not even the slash. *)
Theorem expand_topic_one_token (slash : bool) (t : string) (default : option string)
                               (data : data_t) (hostname : string) :
  passes key_stop t = true ->
  (slash = false -> at_char "/" t = false) ->
  (forall d, default = Some d -> passes default_stop d = true) ->
  expand_topic (one_token slash t default) data hostname
  = match find (String.prefix t) topic_keywords with
    | None => EXIT_1
    | Some kw =>
        let piece :=
          if String.eqb kw "hostname" then Some hostname
          else match collect_key kw data with
               | Some d => Some (append_topic d)
               | None => default
               end in
        TOPIC (match piece with
               | None => ""
               | Some text => (if slash then "/" else "") ++ text
               end)
    end.
Proof.
  intros Ht Hs Hd. unfold expand_topic.
  set (rest := (match default with Some d => ":" ++ d | None => "" end ++ "]")%string).
  assert (Hlen : String.length (one_token slash t default)
                 = S (String.length ((if slash then "/" else "") ++ t ++ rest)))
    by reflexivity.
  rewrite Hlen. apply expand_loop_token; [exact Ht | exact Hd |].
  destruct slash; [right; reflexivity|]. left. fold rest.
  specialize (Hs eq_refl). destruct t as [|c t]; [|exact Hs].
  subst rest. destruct default; reflexivity.
Qed.

Lemma expand_topic_one_token_witness :
  expand_topic (one_token true "m" (Some "none"))
    [mk_field "model" "" (DATA_STRING "Honeywell CM921")] "host"
  = TOPIC "/Honeywell_CM921".
Proof.
  apply (expand_topic_one_token true "m" (Some "none")
           [mk_field "model" "" (DATA_STRING "Honeywell CM921")] "host").
  - reflexivity.
  - intros H. discriminate H.
  - intros d H. injection H as <-. reflexivity.
Defined.

Lemma length_scan (stop : ascii -> bool) (s : string) :
  (String.length (snd (scan stop s)) <= String.length s)%nat.
Proof.
  induction s as [|c s IH]; [cbn; lia|]. cbn [scan].
  destruct ((nat_of_ascii c =? 0)%nat || stop c); [cbn; lia|].
  destruct (scan stop s) as [p r]. cbn [snd String.length] in *. lia.
Qed.

Lemma length_advance (s : string) : (String.length (advance s) <= String.length s)%nat.
Proof. destruct s; cbn; lia. Qed.

Lemma length_advance_lt (s : string) :
  at_end s = false -> (String.length (advance s) < String.length s)%nat.
Proof. destruct s; [discriminate | cbn; lia]. Qed.

Lemma expand_loop_finishes (data : data_t) (hostname : string) (fuel : nat) :
  forall (format written : string),
  (String.length format < fuel)%nat ->
  expand_loop fuel format data hostname written <> TOPIC_UNFINISHED.
Proof.
  induction fuel as [|fuel IH]; intros format written Hfuel; [lia|].
  cbn [expand_loop]. destruct (at_end format); [discriminate|].
  pose proof (length_scan bracket_stop format) as L1.
  destruct (scan bracket_stop format) as [copied f1]. cbn [snd] in L1.
  destruct (at_end f1) eqn:E1; [discriminate|].
  pose proof (length_advance_lt f1 E1) as L2.
  set (f2 := advance f1) in *.
  set (f3 := if at_char "/" f2 then advance f2 else f2).
  assert (L3 : (String.length f3 <= String.length f2)%nat).
  { subst f3. destruct (at_char "/" f2); [apply length_advance | lia]. }
  pose proof (length_scan key_stop f3)
    as L4.
  destruct (scan key_stop f3)
    as [token f4]. cbn [snd] in L4.
  assert (L5 : (String.length
                  (snd (if at_char ":" f4
                        then let '(d, format) :=
                               scan default_stop (advance f4) in
                             (Some d, format)
                        else (None, f4)))
                <= String.length f4)%nat).
  { destruct (at_char ":" f4); [|cbn; lia].
    pose proof (length_scan default_stop (advance f4)) as L.
    pose proof (length_advance f4).
    destruct (scan default_stop (advance f4)) as [d f5].
    cbn [snd] in *. lia. }
  destruct (if at_char ":" f4 then _ else _) as [default f5]. cbn [snd] in L5.
  destruct (negb (at_char "]" f5)); [discriminate|].
  pose proof (length_advance f5) as L6.
  destruct (resolve_token f3 (String.length token)) as [tok|]; [|discriminate].
  destruct (match tok with
            | TOKEN_HOSTNAME => Some hostname
            | TOKEN_DATA k => match collect_key k data with
                              | Some d => Some (append_topic d)
                              | None => default
                              end
            end); apply IH; lia.
Qed.

(** X21.  [expand_topic] comes to an end on every format: it returns with
    the topic written or it exits, since every round of its loop takes at
    least the opening bracket from the format. *)
Theorem expand_topic_finishes (format : string) (data : data_t) (hostname : string) :
  (exists written, expand_topic format data hostname = TOPIC written)
  \/ expand_topic format data hostname = EXIT_1.
Proof.
  pose proof (expand_loop_finishes data hostname (S (String.length format)) format ""
                ltac:(lia)) as H.
  unfold expand_topic. destruct (expand_loop _ _ _ _ _) as [w | |].
  - left. exists w. reflexivity.
  - right. reflexivity.
  - contradiction.
Qed.
